(** * A Likely Story: the publish pipeline, embedded and verified

    The development follows [scripts/publish.py] and [generate_chapter.py].
    Python values are embedded shallowly:
    - [str] is a list of Unicode code points ([list N]), so that [len] counts
      what Python counts;
    - [date] is the proleptic Gregorian date of [datetime], with the ordinal
      arithmetic of CPython's [_ymd2ord] / [_ord2ymd];
    - a [dict] is an insertion-ordered association list;
    - an exception is a [Raise] result. *)

From Stdlib Require Import ZArith NArith List Lia Bool Ascii String.
From Stdlib Require DecimalFacts DecimalPos DecimalN.
From stdpp Require Import base option list sorting gmap.

Set Warnings "-register-all".

(** ** Python strings *)

Module Py.

Abbreviation pystr := (list N).

(** An ASCII literal as a Python string. *)
Definition lit (s : string) : pystr :=
  map N_of_ascii (list_ascii_of_string s).
Arguments lit s%_string.

(** Exceptions raised by the modelled code and by the host library. *)
Inductive exn :=
| OverflowError
| FileNotFoundError (msg : pystr)
| AttributeError
| TypeError
| KeyError
| ValueError
| JSONDecodeError
| YAMLError
| OSError
| PermissionError
| FileExistsError
| UnicodeEncodeError.

Inductive result (A : Type) :=
| Ok (a : A)
| Raise (e : exn).
Arguments Ok {A} a.
Arguments Raise {A} e.

Definition rbind {A B} (r : result A) (k : A -> result B) : result B :=
  match r with
  | Ok a => k a
  | Raise e => Raise e
  end.

(** [Py_UNICODE_ISSPACE]: what [str.isspace], [str.strip], [str.split] and the
    regex class [\s] treat as white space. *)
Definition isspace (c : N) : bool :=
  ((9 <=? c) && (c <=? 13) || (28 <=? c) && (c <=? 32) || (c =? 133) || (c =? 160)
   || (c =? 5760) || (8192 <=? c) && (c <=? 8202) || (c =? 8232) || (c =? 8233)
   || (c =? 8239) || (c =? 8287) || (c =? 12288))%N.

Fixpoint lstrip_by (p : N -> bool) (s : pystr) : pystr :=
  match s with
  | c :: r => if p c then lstrip_by p r else s
  | [] => []
  end.

Definition rstrip_by (p : N -> bool) (s : pystr) : pystr :=
  rev (lstrip_by p (rev s)).

(** [s.strip()] *)
Definition strip (s : pystr) : pystr := rstrip_by isspace (lstrip_by isspace s).

(** [s.lstrip(chars)] *)
Definition lstrip_chars (chars s : pystr) : pystr :=
  lstrip_by (fun c => existsb (N.eqb c) chars) s.

(** [s.startswith(p)] *)
Fixpoint startswith (s p : pystr) {struct p} : bool :=
  match p, s with
  | [], _ => true
  | a :: p', b :: s' => (a =? b)%N && startswith s' p'
  | _ :: _, [] => false
  end.

(** [sep.join(parts)] *)
Fixpoint join (sep : pystr) (parts : list pystr) : pystr :=
  match parts with
  | [] => []
  | [p] => p
  | p :: rest => p ++ sep ++ join sep rest
  end.

(** [s.split()]: the maximal runs of non-space characters. [cur] is the word
    being read, reversed. *)
Fixpoint split_ws_aux (cur : pystr) (s : pystr) : list pystr :=
  match s with
  | [] => match cur with [] => [] | _ => [rev cur] end
  | c :: r =>
      if isspace c
      then match cur with
           | [] => split_ws_aux [] r
           | _ => rev cur :: split_ws_aux [] r
           end
      else split_ws_aux (c :: cur) r
  end.

Definition split_ws (s : pystr) : list pystr := split_ws_aux [] s.

(** The line boundaries of [str.splitlines]: LF, VT, FF, CR, FS, GS, RS, NEL,
    LS and PS; CR LF counts once. *)
Definition is_linebreak (c : N) : bool :=
  ((10 <=? c) && (c <=? 13) || (28 <=? c) && (c <=? 30) || (c =? 133)
   || (c =? 8232) || (c =? 8233))%N.

Fixpoint splitlines_aux (cur : pystr) (s : pystr) : list pystr :=
  match s with
  | [] => match cur with [] => [] | _ => [rev cur] end
  | c :: r =>
      if is_linebreak c
      then match c, r with
           | 13%N, 10%N :: r' => rev cur :: splitlines_aux [] r'
           | _, _ => rev cur :: splitlines_aux [] r
           end
      else splitlines_aux (c :: cur) r
  end.

(** [s.splitlines()] *)
Definition splitlines (s : pystr) : list pystr := splitlines_aux [] s.

(** [s.replace(old, new)] for a one-character [old]. *)
Definition replace_char (old : N) (new : pystr) (s : pystr) : pystr :=
  flat_map (fun c => if (c =? old)%N then new else [c]) s.

(** Decimal digits of a natural number, as [str(n)] prints them. *)
Fixpoint uint_chars (d : Decimal.uint) : pystr :=
  match d with
  | Decimal.Nil => []
  | Decimal.D0 d => 48%N :: uint_chars d
  | Decimal.D1 d => 49%N :: uint_chars d
  | Decimal.D2 d => 50%N :: uint_chars d
  | Decimal.D3 d => 51%N :: uint_chars d
  | Decimal.D4 d => 52%N :: uint_chars d
  | Decimal.D5 d => 53%N :: uint_chars d
  | Decimal.D6 d => 54%N :: uint_chars d
  | Decimal.D7 d => 55%N :: uint_chars d
  | Decimal.D8 d => 56%N :: uint_chars d
  | Decimal.D9 d => 57%N :: uint_chars d
  end.

Definition digits (n : N) : pystr := uint_chars (N.to_uint n).

(** [str(z)] for an [int]. *)
Definition str_of_int (z : Z) : pystr :=
  if (z <? 0)%Z then 45%N :: digits (Z.abs_N z) else digits (Z.abs_N z).

(** [format(z, "0{w}d")]: sign first, then zeros up to the width. *)
Definition zfill_int (w : nat) (z : Z) : pystr :=
  let ds := digits (Z.abs_N z) in
  if (z <? 0)%Z
  then 45%N :: repeat 48%N (w - 1 - length ds) ++ ds
  else repeat 48%N (w - length ds) ++ ds.

End Py.

(** ** [datetime.date] *)

Module Datetime.
Import Py.
Local Open Scope Z_scope.

Record date := mkdate { year : Z; month : Z; day : Z }.

Definition MAXORDINAL : Z := 3652059.

Definition is_leap (y : Z) : bool :=
  (y mod 4 =? 0) && (negb (y mod 100 =? 0) || (y mod 400 =? 0)).

Definition days_before_year (y : Z) : Z :=
  let y := y - 1 in y * 365 + y / 4 - y / 100 + y / 400.

Definition DAYS_IN_MONTH : list Z :=
  [-1; 31; 28; 31; 30; 31; 30; 31; 31; 30; 31; 30; 31].

Definition DAYS_BEFORE_MONTH : list Z :=
  [-1; 0; 31; 59; 90; 120; 151; 181; 212; 243; 273; 304; 334].

Definition table (t : list Z) (i : Z) : Z := nth (Z.to_nat i) t 0.

Definition days_before_month (y m : Z) : Z :=
  table DAYS_BEFORE_MONTH m + (if (2 <? m) && is_leap y then 1 else 0).

Definition ymd2ord (y m d : Z) : Z :=
  days_before_year y + days_before_month y m + d.

Definition toordinal (d : date) : Z := ymd2ord (year d) (month d) (day d).

Definition DI400Y : Z := 146097.
Definition DI100Y : Z := 36524.
Definition DI4Y : Z := 1461.

Definition ord2ymd (n : Z) : date :=
  let n := n - 1 in
  let n400 := n / DI400Y in let n := n mod DI400Y in
  let y := n400 * 400 + 1 in
  let n100 := n / DI100Y in let n := n mod DI100Y in
  let n4 := n / DI4Y in let n := n mod DI4Y in
  let n1 := n / 365 in let n := n mod 365 in
  let y := y + n100 * 100 + n4 * 4 + n1 in
  if (n1 =? 4) || (n100 =? 4) then mkdate (y - 1) 12 31
  else
    let leapyear := (n1 =? 3) && (negb (n4 =? 24) || (n100 =? 3)) in
    let m := Z.shiftr (n + 50) 5 in
    let preceding := table DAYS_BEFORE_MONTH m + (if (2 <? m) && leapyear then 1 else 0) in
    if n <? preceding
    then
      let m := m - 1 in
      let preceding :=
        preceding - (table DAYS_IN_MONTH m + (if (m =? 2) && leapyear then 1 else 0)) in
      mkdate y m (n - preceding + 1)
    else mkdate y m (n - preceding + 1).

(** [d + timedelta(days=k)] *)
Definition add_days (d : date) (k : Z) : result date :=
  let o := toordinal d + k in
  if (0 <? o) && (o <=? MAXORDINAL) then Ok (ord2ymd o) else Raise OverflowError.

(** [(a - b).days] *)
Definition sub_days (a b : date) : Z := toordinal a - toordinal b.

(** [d.weekday()], Monday is 0. *)
Definition weekday (d : date) : Z := (toordinal d + 6) mod 7.

Definition MONTH_NAMES : list string :=
  [""; "January"; "February"; "March"; "April"; "May"; "June"; "July";
   "August"; "September"; "October"; "November"; "December"]%string.

Definition DAY_NAMES : list string :=
  ["Monday"; "Tuesday"; "Wednesday"; "Thursday"; "Friday"; "Saturday"; "Sunday"]%string.

(** [%B] and [%b], [%a] in the C locale. [%Y] prints the year as it is, four
    digits from the year 1000 on. *)
Definition month_name (m : Z) : pystr := lit (nth (Z.to_nat m) MONTH_NAMES ""%string).
Definition month_abbr (m : Z) : pystr := take 3 (month_name m).
Definition day_abbr (d : date) : pystr :=
  take 3 (lit (nth (Z.to_nat (weekday d)) DAY_NAMES ""%string)).

(** [d.isoformat()] *)
Definition isoformat (d : date) : pystr :=
  zfill_int 4 (year d) ++ lit "-" ++ zfill_int 2 (month d) ++ lit "-" ++ zfill_int 2 (day d).

(** [d.strftime("%B %d, %Y")] *)
Definition strftime_long (d : date) : pystr :=
  month_name (month d) ++ lit " " ++ zfill_int 2 (day d) ++ lit ", " ++ str_of_int (year d).

(** [d.strftime("%B %Y")] *)
Definition strftime_month (d : date) : pystr :=
  month_name (month d) ++ lit " " ++ str_of_int (year d).

(** [d.strftime("%a, %d %b %Y 06:30:00 GMT")] *)
Definition strftime_rfc2822 (d : date) : pystr :=
  day_abbr d ++ lit ", " ++ zfill_int 2 (day d) ++ lit " " ++ month_abbr (month d)
  ++ lit " " ++ str_of_int (year d) ++ lit " 06:30:00 GMT".

End Datetime.

(** ** [generate_chapter.py]: the calendar mapper *)

Module GenerateChapter.
Import Py Datetime.
Local Open Scope Z_scope.

Definition START_DATE : date := mkdate 2026 1 1.

Definition get_day_number_for_date (target_date : date) : option Z :=
  if negb (year target_date =? 2026) then None
  else
    let delta := sub_days target_date START_DATE in
    let day_num := delta + 1 in
    if (1 <=? day_num) && (day_num <=? 365) then Some day_num
    else None.

Definition get_date_for_day (day_num : Z) : result date :=
  add_days START_DATE (day_num - 1).

End GenerateChapter.

(** ** The fragment of [re] the pipeline uses *)

Module Re.
Import Py.

(** Patterns. A starred item is always a character class here, in its greedy
    ([c*]) or lazy ([c*?]) form. Groups are not nested, so they close in the
    order they are numbered. *)
Inductive regex :=
| Eps
| Chr (c : N)
| Cls (p : N -> bool)
| Cat (r1 r2 : regex)
| Star (greedy : bool) (p : N -> bool)
| Group (r : regex)
| Bos
| Eos.

Section Matcher.
Context {A : Type}.

(** Greedy star: take the character when the class allows, give it back when
    the rest of the pattern fails. *)
Fixpoint star_greedy (p : N -> bool) (pos : nat) (s : pystr)
    (k : nat -> pystr -> option A) : option A :=
  match s with
  | c :: rest =>
      if p c
      then match star_greedy p (S pos) rest k with
           | Some x => Some x
           | None => k pos s
           end
      else k pos s
  | [] => k pos s
  end.

(** Lazy star: try the rest of the pattern first. *)
Fixpoint star_lazy (p : N -> bool) (pos : nat) (s : pystr)
    (k : nat -> pystr -> option A) : option A :=
  match k pos s with
  | Some x => Some x
  | None =>
      match s with
      | c :: rest => if p c then star_lazy p (S pos) rest k else None
      | [] => None
      end
  end.

(** The backtracking matcher: [pos] is the offset of [s] in the subject,
    [caps] the groups closed so far, [k] the rest of the pattern. *)
Fixpoint run (r : regex) (pos : nat) (s : pystr) (caps : list pystr)
    (k : nat -> pystr -> list pystr -> option A) : option A :=
  match r with
  | Eps => k pos s caps
  | Chr c =>
      match s with
      | x :: rest => if (x =? c)%N then k (S pos) rest caps else None
      | [] => None
      end
  | Cls p =>
      match s with
      | x :: rest => if p x then k (S pos) rest caps else None
      | [] => None
      end
  | Cat r1 r2 => run r1 pos s caps (fun pos' s' caps' => run r2 pos' s' caps' k)
  | Star true p => star_greedy p pos s (fun pos' s' => k pos' s' caps)
  | Star false p => star_lazy p pos s (fun pos' s' => k pos' s' caps)
  | Group r1 =>
      run r1 pos s caps (fun pos' s' caps' => k pos' s' (caps' ++ [take (pos' - pos) s]))
  | Bos => if Nat.eqb pos 0 then k pos s caps else None
  | Eos =>
      match s with
      | [] => k pos s caps
      | [10%N] => k pos s caps
      | _ => None
      end
  end.

End Matcher.

(** The match of [r] at the head of [s]: what is left of [s], and the groups. *)
Definition match_at (r : regex) (pos : nat) (s : pystr) : option (pystr * list pystr) :=
  run r pos s [] (fun _ rest caps => Some (rest, caps)).

(** [r.match(s)]: the groups of the match at the start of [s]. *)
Definition re_match (r : regex) (s : pystr) : option (list pystr) :=
  snd <$> match_at r 0 s.

(** [re.sub(r, repl, s)], left to right over non-overlapping matches. [skip]
    counts the characters of the current match still to pass over. The
    patterns of the pipeline match at least one character; an empty match
    counts as none. *)
Fixpoint sub_aux (r : regex) (repl : list pystr -> pystr) (skip pos : nat) (s : pystr)
    : pystr :=
  match s with
  | [] => []
  | c :: rest =>
      match skip with
      | S n => sub_aux r repl n (S pos) rest
      | O =>
          match match_at r pos s with
          | Some (rest', caps) =>
              match length s - length rest' with
              | O => c :: sub_aux r repl 0 (S pos) rest
              | S n => repl caps ++ sub_aux r repl n (S pos) rest
              end
          | None => c :: sub_aux r repl 0 (S pos) rest
          end
      end
  end.

Definition re_sub (r : regex) (repl : list pystr -> pystr) (s : pystr) : pystr :=
  sub_aux r repl 0 0 s.

(** [re.split(r, s)] for a pattern without groups. [cur] is the piece being
    read, reversed. *)
Fixpoint split_aux (r : regex) (skip pos : nat) (cur : pystr) (s : pystr) : list pystr :=
  match s with
  | [] => [rev cur]
  | c :: rest =>
      match skip with
      | S n => split_aux r n (S pos) cur rest
      | O =>
          match match_at r pos s with
          | Some (rest', _) =>
              match length s - length rest' with
              | O => split_aux r 0 (S pos) (c :: cur) rest
              | S n => rev cur :: split_aux r n (S pos) [] rest
              end
          | None => split_aux r 0 (S pos) (c :: cur) rest
          end
      end
  end.

Definition re_split (r : regex) (s : pystr) : list pystr := split_aux r 0 0 [] s.

(** A sequence of patterns, and a literal word as a pattern. *)
Definition cats (rs : list regex) : regex := foldr Cat Eps rs.
Definition word (w : pystr) : regex := cats (map Chr w).

(** Group [i] of a match, counted from 1. *)
Definition group (i : nat) (caps : list pystr) : pystr := nth (i - 1) caps [].

(** [.] without and with [re.S], and [\s]. *)
Definition dot (c : N) : bool := negb (c =? 10)%N.
Definition dot_all (c : N) : bool := true.
Definition space (c : N) : bool := isspace c.

End Re.

(** ** Python values, dictionaries and files *)

Module PyVal.
Import Py.

(** What [json.loads] and [yaml.safe_load] return. A float is kept by what the
    pipeline can observe of it: whether it is zero, and how it prints. *)
Inductive pyval :=
| PNone
| PBool (b : bool)
| PInt (z : Z)
| PFloat (nonzero : bool) (repr : pystr)
| PStr (s : pystr)
| PList (l : list pyval)
| PDict (d : list (pystr * pyval)).

(** [bool(v)] *)
Definition truthy (v : pyval) : bool :=
  match v with
  | PNone => false
  | PBool b => b
  | PInt z => negb (z =? 0)%Z
  | PFloat nz _ => nz
  | PStr s => negb (Nat.eqb (length s) 0)
  | PList l => negb (Nat.eqb (length l) 0)
  | PDict d => negb (Nat.eqb (length d) 0)
  end.

Section Dict.
Context {V : Type}.

(** [d.get(k)] on the items of a [dict], in insertion order. *)
Fixpoint dict_get (k : pystr) (d : list (pystr * V)) : option V :=
  match d with
  | [] => None
  | (k', v) :: r => if bool_decide (k' = k) then Some v else dict_get k r
  end.

(** [d[k] = v]: an existing key keeps its place, a new key goes last. *)
Fixpoint dict_set (k : pystr) (v : V) (d : list (pystr * V)) : list (pystr * V) :=
  match d with
  | [] => [(k, v)]
  | (k', v') :: r =>
      if bool_decide (k' = k) then (k', v) :: r else (k', v') :: dict_set k v r
  end.

(** [d.setdefault(k, v)], the dictionary afterwards. *)
Definition dict_setdefault (k : pystr) (v : V) (d : list (pystr * V)) : list (pystr * V) :=
  match dict_get k d with
  | Some _ => d
  | None => dict_set k v d
  end.

End Dict.

(** [v.get(k)]: only a [dict] has the method. *)
Definition py_get (v : pyval) (k : pystr) : result (option pyval) :=
  match v with
  | PDict d => Ok (dict_get k d)
  | _ => Raise AttributeError
  end.

(** [v.get(k, dflt)] *)
Definition py_get_default (v : pyval) (k : pystr) (dflt : pyval) : result pyval :=
  rbind (py_get v k) (fun o => Ok (default dflt o)).

(** [v[k]] for a string key [k]. *)
Definition py_subscript (v : pyval) (k : pystr) : result pyval :=
  match v with
  | PDict d => match dict_get k d with Some x => Ok x | None => Raise KeyError end
  | _ => Raise TypeError
  end.

(** [v.items()] *)
Definition py_items (v : pyval) : result (list (pystr * pyval)) :=
  match v with
  | PDict d => Ok d
  | _ => Raise AttributeError
  end.

(** [sorted(l, key=fst)] and [sorted(l, key=fst, reverse=True)]: both stable.
    [before a b] says that key [a] may stand before key [b]. *)
Section Sorted.
Context {X : Type} (before : Z -> Z -> bool).

Fixpoint insert_by (x : Z * X) (l : list (Z * X)) : list (Z * X) :=
  match l with
  | [] => [x]
  | y :: r => if before (fst x) (fst y) then x :: l else y :: insert_by x r
  end.

Definition sorted_by (l : list (Z * X)) : list (Z * X) := foldr insert_by [] l.

End Sorted.

Definition ascending (a b : Z) : bool := (a <=? b)%Z.
Definition descending (a b : Z) : bool := (b <=? a)%Z.

(** [[f(x) for x in l]], stopping at the first exception. *)
Fixpoint map_result {A B} (f : A -> result B) (l : list A) : result (list B) :=
  match l with
  | [] => Ok []
  | x :: r => rbind (f x) (fun y => rbind (map_result f r) (fun ys => Ok (y :: ys)))
  end.

End PyVal.

(** ** The file system *)

Module Fs.
Import Py.

(** The project directory. [files] are its regular files, by their path
    below the directory, each with its text. [fault] is the number of
    characters the storage still accepts before a write fails; [None] is a
    storage that never fails. [denied] are the paths the system refuses to
    open for writing or to create, each with the exception it raises
    ([PermissionError] for a file that is read-only). Directories are not
    part of the state: a path that holds no regular file is a directory, or
    is free for one. *)
Record world := mkworld {
  files : gmap pystr pystr;
  fault : option nat;
  denied : gmap pystr exn }.

(** A command: it may change the files and raise. *)
Definition M (A : Type) : Type := world -> world * result A.

Definition ret {A} (a : A) : M A := fun w => (w, Ok a).

Definition raise {A} (e : exn) : M A := fun w => (w, Raise e).

Definition bind {A B} (c : M A) (k : A -> M B) : M B :=
  fun w =>
    match c w with
    | (w', Ok a) => k a w'
    | (w', Raise e) => (w', Raise e)
    end.

Definition lift {A} (r : result A) : M A := fun w => (w, r).

(** [p.exists()] *)
Definition exists_ (p : pystr) : M bool :=
  fun w => (w, Ok (bool_decide (is_Some (files w !! p)))).

(** [p.read_text(encoding="utf-8")] *)
Definition read_text (p : pystr) : M pystr :=
  fun w =>
    match files w !! p with
    | Some s => (w, Ok s)
    | None => (w, Raise (FileNotFoundError p))
    end.

(** The characters UTF-8 encodes: all but the surrogates. *)
Definition utf8 (c : N) : bool := ((c <? 55296) || (57343 <? c) && (c <=? 1114111))%N.

(** The text of the pieces that come before the first one the encoding
    refuses, and whether every piece was encoded. *)
Fixpoint encoded (enc : N -> bool) (pieces : list pystr) : pystr * bool :=
  match pieces with
  | [] => ([], true)
  | piece :: rest =>
      if forallb enc piece
      then let '(text, complete) := encoded enc rest in (piece ++ text, complete)
      else ([], false)
  end.

(** [with open(p, "w") as f:] and then [f.write(piece)] for each piece, in
    the encoding [enc]. When the file cannot be opened the exception of
    [open] is raised and the file is as it was. Opening empties the file. A
    piece that cannot be encoded raises [UnicodeEncodeError] before any of
    it is written; the pieces before it stay in the file. When the storage
    fails partway, the characters accepted so far stay in the file and
    [OSError] is raised. *)
Definition write_pieces (enc : N -> bool) (p : pystr) (pieces : list pystr) : M unit :=
  fun w =>
    match denied w !! p with
    | Some e => (w, Raise e)
    | None =>
        let '(text, complete) := encoded enc pieces in
        let done := if complete : bool then Ok tt else Raise UnicodeEncodeError in
        match fault w with
        | None => (mkworld (<[p := text]> (files w)) None (denied w), done)
        | Some q =>
            if Nat.leb (length text) q
            then (mkworld (<[p := text]> (files w)) (Some (q - length text)) (denied w), done)
            else (mkworld (<[p := take q text]> (files w)) (Some 0) (denied w), Raise OSError)
        end
    end.

(** [p.write_text(data, encoding="utf-8")]: one piece, in UTF-8. *)
Definition write_text (p : pystr) (data : pystr) : M unit := write_pieces utf8 p [data].

(** [p.mkdir(exist_ok=True)]: a regular file in the place of the directory
    raises [FileExistsError]; a directory that is there is left alone. *)
Definition mkdir (p : pystr) : M unit :=
  fun w =>
    match files w !! p with
    | Some _ => (w, Raise FileExistsError)
    | None =>
        match denied w !! p with
        | Some e => (w, Raise e)
        | None => (w, Ok tt)
        end
    end.

End Fs.

(** ** [scripts/publish.py] *)

Module Publish.
Import Py Datetime Re PyVal Fs.
Local Open Scope Z_scope.

Notation "x <- c ; k" := (bind c (fun x => k))
  (at level 20, c at level 100, k at level 200, only parsing).
Notation "x <~ r ; k" := (rbind r (fun x => k))
  (at level 20, r at level 100, k at level 200, only parsing).

(** The libraries the script calls: PyYAML, Markdown, [str.format] on the
    chapter template (which is not part of the sources), [json], and the
    builtins [int] and [str]. *)
Class Host := {
  yaml_safe_load : pystr -> result pyval;
  markdown : pystr -> pystr;
  str_format : pystr -> list (pystr * pyval) -> result pystr;
  json_dumps : pyval -> pystr;
  json_loads : pystr -> result pyval;
  py_int : pystr -> result Z;
  py_str : pyval -> pystr }.

(** A literal in which [~] stands for the double quote. *)
Definition litq (s : string) : pystr :=
  map (fun c => if (c =? 126)%N then 34%N else c) (lit s).
Arguments litq s%_string.

Definition nl : pystr := [10%N].
Definition tab : pystr := [9%N].

(** [a / b] on paths *)
Definition path_join (a b : pystr) : pystr := a ++ lit "/" ++ b.

Definition MANUSCRIPT_DIR : pystr := lit "manuscript".
Definition CHAPTERS_DIR : pystr := lit "chapters".
Definition TEMPLATES_DIR : pystr := lit "templates".
Definition CHAPTERS_JSON : pystr := lit "chapters.json".
Definition CHAPTERS_HTML : pystr := lit "chapters.html".
Definition RSS_XML : pystr := lit "rss.xml".

Definition START_DATE : date := mkdate 2026 1 1.
Definition SITE_TITLE : pystr := lit "A Likely Story".
Definition SITE_DESCRIPTION : pystr :=
  lit "A 365-chapter story, one for each day of 2026. Written and published by Pipali.".
Definition SITE_URL : pystr := lit "https://alikelystory.org".

Record Chapter := mkChapter {
  day_num : Z;
  chapter_date : date;
  title : pystr;
  excerpt : pystr;
  markdown_source : pystr;
  html_body : pystr }.

Definition day_number_for_date (d : date) : option Z :=
  if negb (year d =? 2026) then None
  else
    let delta := sub_days d START_DATE in
    let n := delta + 1 in
    if (1 <=? n) && (n <=? 365) then Some n else None.

Definition date_for_day_number (n : Z) : result date :=
  add_days START_DATE (n - 1).

(** [FM_RE], compiled with [re.S]. *)
Definition FM_RE : regex :=
  cats [Bos; word (lit "---"); Star true space; Chr 10; Group (Star false dot_all);
        Chr 10; word (lit "---"); Star true space; Chr 10; Group (Star true dot_all); Eos].

(** The link pattern, the marker class and the paragraph separator of
    [derive_excerpt]. *)
Definition LINK_RE : regex :=
  cats [Chr 91; Group (Star false dot); Chr 93; Chr 40; Group (Star false dot); Chr 41].
Definition MARKER_RE : regex := Cls (fun c => existsb (N.eqb c) (lit "#*_>`")).
Definition PARA_RE : regex := cats [Chr 10; Star true space; Chr 10].

(** [isinstance(v, str) and v.strip()]: the stripped text when it is not empty. *)
Definition nonblank_str (v : option pyval) : option pystr :=
  match v with
  | Some (PStr s) => match strip s with [] => None | t => Some t end
  | _ => None
  end.

(** The loop of [derive_title] over the lines of the body. *)
Fixpoint first_heading (lines : list pystr) : option pystr :=
  match lines with
  | [] => None
  | line :: rest =>
      if startswith line (lit "#") then Some (strip (lstrip_chars (lit "#") line))
      else first_heading rest
  end.

Definition derive_title (fm : pyval) (body_md : pystr) (day_num : Z) : result pystr :=
  t <~ py_get fm (lit "title") ;
  match nonblank_str t with
  | Some s => Ok s
  | None =>
      match first_heading (splitlines body_md) with
      | Some h => Ok h
      | None => Ok (lit "Chapter " ++ str_of_int day_num)
      end
  end.

(** [" ".join(para.strip().split())] *)
Definition normalize (para : pystr) : pystr := join (lit " ") (split_ws (strip para)).

Definition ELLIPSIS : pystr := [8230%N].

(** The loop of [derive_excerpt] over the paragraphs. *)
Fixpoint first_excerpt (paras : list pystr) : pystr :=
  match paras with
  | [] => []
  | para :: rest =>
      let s := normalize para in
      if Nat.leb 40 (length s)
      then take 200 s ++ (if Nat.ltb 200 (length s) then ELLIPSIS else [])
      else first_excerpt rest
  end.

(** The body with links reduced to their text and the markers removed. *)
Definition strip_markup (body_md : pystr) : pystr :=
  let text := re_sub LINK_RE (group 1) body_md in
  re_sub MARKER_RE (fun _ => []) text.

Definition derive_excerpt (fm : pyval) (body_md : pystr) : result pystr :=
  e <~ py_get fm (lit "excerpt") ;
  match nonblank_str e with
  | Some s => Ok s
  | None => Ok (first_excerpt (re_split PARA_RE (strip_markup body_md)))
  end.

Definition chapter_paths (day_num : Z) : pystr * pystr :=
  let filename := zfill_int 3 day_num ++ lit ".html" in
  (path_join CHAPTERS_DIR filename, filename).

(** The three names under which the manuscript of a day is looked for. *)
Definition candidates (d : date) (day_num : Z) : list pystr :=
  [path_join MANUSCRIPT_DIR (isoformat d ++ lit ".md");
   path_join MANUSCRIPT_DIR (zfill_int 3 day_num ++ lit ".md");
   path_join MANUSCRIPT_DIR (str_of_int day_num ++ lit ".md")].

(** The loop of [find_manuscript_for_day] over the candidates. *)
Fixpoint first_existing (ps : list pystr) : M (option pystr) :=
  match ps with
  | [] => ret None
  | p :: rest =>
      b <- exists_ p ;
      if b : bool then ret (Some p) else first_existing rest
  end.

Definition not_found_message (day_num : Z) (cands : list pystr) : pystr :=
  lit "No manuscript found for day " ++ str_of_int day_num ++ lit ". Expected one of: "
  ++ join (lit ", ") cands.

Definition find_manuscript_for_day (day_num : Z) : M pystr :=
  d <- lift (date_for_day_number day_num) ;
  let cands := candidates d day_num in
  found <- first_existing cands ;
  match found with
  | Some p => ret p
  | None => raise (FileNotFoundError (not_found_message day_num cands))
  end.

Definition PLACEHOLDER : pystr :=
  litq "
		<section class=~archive-section~>
			<p style=~text-align: center; color: var(--color-text-muted);~>No chapters published yet. The story begins January 1, 2026.</p>
		</section>
".

(** The constant parts of the listing page, around the two counts and the
    list of sections. *)
Definition PAGE_HEAD : pystr := litq "<!DOCTYPE html>
<html lang=~en~>
<head>
	<meta charset=~UTF-8~>
	<meta name=~viewport~ content=~width=device-width, initial-scale=1.0~>
	<title>All Chapters - A Likely Story</title>
	<meta name=~description~ content=~Browse all ".

Definition PAGE_COUNT : pystr := litq " published chapters of A Likely Story.~>

	<!-- Fonts -->
	<link rel=~preconnect~ href=~https://fonts.googleapis.com~>
	<link rel=~preconnect~ href=~https://fonts.gstatic.com~ crossorigin>
	<link href=~https://fonts.googleapis.com/css2?family=Roboto:wght@400;500;600&family=Source+Serif+4:opsz,wght@8..60,400;8..60,500;8..60,600&display=swap~ rel=~stylesheet~>

	<!-- Styles -->
	<link rel=~stylesheet~ href=~css/design-tokens.css~>
	<link rel=~stylesheet~ href=~css/style.css~>
	<link rel=~alternate~ type=~application/rss+xml~ title=~A Likely Story RSS~ href=~rss.xml~ />
</head>
<body>
	<nav>
		<div class=~nav-inner~>
			<a href=~index.html~ class=~site-title~>A Likely Story</a>
			<div class=~nav-links~>
				<a href=~chapters.html~>Chapters</a>
				<a href=~about.html~>About</a>
				<a href=~rss.xml~>RSS</a>
				<button class=~theme-toggle~ id=~themeToggle~ aria-label=~Toggle theme~>
					<span class=~theme-icon~>&#9790;</span>
				</button>
			</div>
		</div>
	</nav>

	<header class=~container~ style=~padding-top: calc(var(--space-16) + 60px);~>
		<h1 style=~font-size: var(--text-3xl); text-transform: none; letter-spacing: var(--tracking-tight);~>All Chapters</h1>
		<p class=~subtitle~>".

Definition PAGE_MAIN : pystr := litq " of 365 chapters published</p>
	</header>

	<main class=~container~>
".

Definition PAGE_FOOT : pystr := litq "
	</main>

	<footer>
		<p>Written by <a href=~https://pipali.ai~>Pipali</a> &middot; A Likely Story &middot; 2026</p>
		<p><a href=~rss.xml~>RSS</a></p>
	</footer>

	<script>
		const themeToggle = document.getElementById('themeToggle');
		const themeIcon = themeToggle.querySelector('.theme-icon');

		function setTheme(theme) {
			document.documentElement.className = theme;
			localStorage.setItem('theme', theme);
			themeIcon.textContent = theme === 'dark' ? '\u2600' : '\u263E';
		}

		const savedTheme = localStorage.getItem('theme');
		if (savedTheme) {
			setTheme(savedTheme);
		} else if (window.matchMedia('(prefers-color-scheme: dark)').matches) {
			themeIcon.textContent = '\u2600';
		}

		themeToggle.addEventListener('click', () => {
			const currentTheme = document.documentElement.className;
			setTheme(currentTheme === 'dark' ? 'light' : 'dark');
		});
	</script>
</body>
</html>".

Section WithHost.
Context `{Host}.

Definition load_template (name : pystr) : M pystr :=
  read_text (path_join TEMPLATES_DIR name).

Definition load_index : M pyval :=
  b <- exists_ CHAPTERS_JSON ;
  if b : bool
  then text <- read_text CHAPTERS_JSON ; lift (json_loads text)
  else ret (PDict [(lit "chapters", PDict [])]).

Definition save_index (index : pyval) : M unit :=
  write_text CHAPTERS_JSON (json_dumps index ++ nl).

Definition parse_frontmatter (markdown_text : pystr) : result (pyval * pystr) :=
  match re_match FM_RE (strip markdown_text) with
  | None => Ok (PDict [], markdown_text)
  | Some caps =>
      loaded <~ yaml_safe_load (group 1 caps) ;
      let fm := if truthy loaded then loaded else PDict [] in
      let body := group 2 caps in
      Ok (fm, body)
  end.

Definition markdown_to_html (body_md : pystr) : pystr := markdown body_md.

(** A value inside an f-string. *)
Definition py_format (v : pyval) : pystr :=
  match v with
  | PStr s => s
  | _ => py_str v
  end.

Definition render_chapter_html (ch : Chapter) : M pystr :=
  template <- load_template (lit "chapter_template.html") ;
  let prev_num := day_num ch - 1 in
  let next_num := day_num ch + 1 in
  let prev_link := if 1 <? day_num ch then zfill_int 3 prev_num ++ lit ".html" else lit "#" in
  let next_link := if day_num ch <? 365 then zfill_int 3 next_num ++ lit ".html" else lit "#" in
  let prev_class := if 1 <? day_num ch then [] else lit "disabled" in
  let next_class := if day_num ch <? 365 then [] else lit "disabled" in
  let date_formatted := strftime_long (chapter_date ch) in
  let body_lines := splitlines (strip (html_body ch)) in
  let indented := join nl (map (fun ln => tab ++ tab ++ tab ++ ln) body_lines) in
  lift (str_format template
          [(lit "num", PInt (day_num ch));
           (lit "title", PStr (title ch));
           (lit "date_formatted", PStr date_formatted);
           (lit "content_html", PStr indented);
           (lit "prev_link", PStr prev_link);
           (lit "next_link", PStr next_link);
           (lit "prev_class", PStr prev_class);
           (lit "next_class", PStr next_class)]).

(** The items of [chapters] with their day numbers: the keys [sorted] sorts
    by, which the loops read again as [int(day_str)]. *)
Definition keyed_items (chapters : pyval) : result (list (Z * (pystr * pyval))) :=
  items <~ py_items chapters ;
  map_result (fun kv => n <~ py_int (fst kv) ; Ok (n, kv)) items.

(** [months.setdefault(month_key, []).append(item)] *)
Fixpoint months_add (month_key : pystr) (item : Z * pyval)
    (months : list (pystr * list (Z * pyval))) : list (pystr * list (Z * pyval)) :=
  match months with
  | [] => [(month_key, [item])]
  | (k, items) :: rest =>
      if bool_decide (k = month_key) then (k, items ++ [item]) :: rest
      else (k, items) :: months_add month_key item rest
  end.

(** The first loop of [rebuild_chapters_page]. *)
Fixpoint group_by_month (items : list (Z * (pystr * pyval)))
    (months : list (pystr * list (Z * pyval))) : result (list (pystr * list (Z * pyval))) :=
  match items with
  | [] => Ok months
  | (day_num, (_, info)) :: rest =>
      d <~ date_for_day_number day_num ;
      let month_key := strftime_month d in
      group_by_month rest (months_add month_key (day_num, info) months)
  end.

Definition listing_months (chapters : pyval) : result (list (pystr * list (Z * pyval))) :=
  keyed <~ keyed_items chapters ;
  group_by_month (sorted_by ascending keyed) [].

Definition listing_li (item : Z * pyval) : result pystr :=
  let '(day_num, info) := item in
  file <~ py_subscript info (lit "file") ;
  title <~ py_subscript info (lit "title") ;
  date <~ py_subscript info (lit "date") ;
  Ok (tab ++ tab ++ tab ++ tab ++ litq "<li><a href=~chapters/" ++ py_format file
      ++ litq "~><span class=~chapter-title~>Chapter " ++ str_of_int day_num ++ lit ": "
      ++ py_format title ++ litq "</span><span class=~chapter-meta~>" ++ py_format date
      ++ lit "</span></a></li>").

Definition listing_section (group : pystr * list (Z * pyval)) : result pystr :=
  let '(month, items) := group in
  lis <~ map_result listing_li items ;
  Ok (join nl
        [tab ++ tab ++ litq "<section class=~archive-section~>";
         tab ++ tab ++ tab ++ lit "<h2>" ++ month ++ lit "</h2>";
         tab ++ tab ++ tab ++ litq "<ul class=~chapter-list~>";
         join nl lis;
         tab ++ tab ++ tab ++ lit "</ul>";
         tab ++ tab ++ lit "</section>"]).

(** The text of the listing page. *)
Definition chapters_page (index : pyval) : result pystr :=
  chapters <~ py_get_default index (lit "chapters") (PDict []) ;
  months <~ listing_months chapters ;
  sections <~ map_result listing_section months ;
  items <~ py_items chapters ;
  let total := str_of_int (Z.of_nat (length items)) in
  let chapters_list :=
    match sections with
    | [] => PLACEHOLDER
    | _ => join nl sections
    end in
  Ok (PAGE_HEAD ++ total ++ PAGE_COUNT ++ total ++ PAGE_MAIN ++ chapters_list ++ PAGE_FOOT).

Definition rebuild_chapters_page (index : pyval) : M unit :=
  html <- lift (chapters_page index) ;
  write_text CHAPTERS_HTML (html ++ nl).

(** [esc] of [rebuild_rss]. *)
Definition esc (s : pystr) : pystr :=
  replace_char 34 (lit "&quot;")
    (replace_char 62 (lit "&gt;")
       (replace_char 60 (lit "&lt;")
          (replace_char 38 (lit "&amp;") s))).

(** [esc(v)]: only a [str] has [replace]. *)
Definition esc_val (v : pyval) : result pystr :=
  match v with
  | PStr s => Ok (esc s)
  | _ => Raise AttributeError
  end.

(** The records of the feed: latest first, thirty at most. *)
Definition rss_entries (chapters : pyval) : result (list (Z * (pystr * pyval))) :=
  keyed <~ keyed_items chapters ;
  Ok (take 30 (sorted_by descending keyed)).

(** What one turn of the loop of [rebuild_rss] reads from a record. *)
Record FeedItem := mkFeedItem {
  item_title : pystr;
  item_link : pystr;
  item_pub_date : option pystr;
  item_description : option pystr }.

Definition feed_item (entry : Z * (pystr * pyval)) : result FeedItem :=
  let '(day_num, (_, info)) := entry in
  file <~ py_subscript info (lit "file") ;
  let link := SITE_URL ++ lit "/chapters/" ++ py_format file in
  stamp <~ py_get info (lit "rfc2822") ;
  let pub_date := match stamp with
                  | Some v => if truthy v then v else PStr []
                  | None => PStr []
                  end in
  excerpt <~ py_get_default info (lit "excerpt") (PStr []) ;
  title <~ py_get_default info (lit "title") (PStr (lit "Chapter " ++ str_of_int day_num)) ;
  t <~ esc_val title ;
  p <~ (if truthy pub_date then (e <~ esc_val pub_date ; Ok (Some e)) else Ok None) ;
  x <~ (if truthy excerpt then (e <~ esc_val excerpt ; Ok (Some e)) else Ok None) ;
  Ok (mkFeedItem (lit "Chapter " ++ str_of_int day_num ++ lit ": " ++ t) (esc link) p x).

Definition item_text (it : FeedItem) : pystr :=
  join nl
    [lit "  <item>";
     lit "    <title>" ++ item_title it ++ lit "</title>";
     lit "    <link>" ++ item_link it ++ lit "</link>";
     litq "    <guid isPermaLink=~true~>" ++ item_link it ++ lit "</guid>";
     match item_pub_date it with
     | Some p => lit "    <pubDate>" ++ p ++ lit "</pubDate>"
     | None => []
     end;
     match item_description it with
     | Some x => lit "    <description>" ++ x ++ lit "</description>"
     | None => []
     end;
     lit "  </item>"].

Definition feed_items (chapters : pyval) : result (list FeedItem) :=
  entries <~ rss_entries chapters ;
  map_result feed_item entries.

(** The feed document around the items. *)
Definition channel_text (items : list FeedItem) : pystr :=
  join nl
    [litq "<?xml version=~1.0~ encoding=~UTF-8~?>";
     litq "<rss version=~2.0~>";
     lit "<channel>";
     lit "  <title>" ++ SITE_TITLE ++ lit "</title>";
     lit "  <link>" ++ SITE_URL ++ lit "</link>";
     lit "  <description>" ++ SITE_DESCRIPTION ++ lit "</description>";
     lit "  <language>en</language>";
     join nl (map item_text items);
     lit "</channel>";
     lit "</rss>";
     []].

(** The text of the feed. *)
Definition rss_text (index : pyval) : result pystr :=
  chapters <~ py_get_default index (lit "chapters") (PDict []) ;
  items <~ feed_items chapters ;
  Ok (channel_text items).

Definition rebuild_rss (index : pyval) : M unit :=
  rss <- lift (rss_text index) ;
  write_text RSS_XML rss.

(** The record [publish] stores under the day. *)
Definition index_record (title date_formatted filename excerpt : pystr) (ch_date : date)
    : pyval :=
  PDict [(lit "title", PStr title);
         (lit "date", PStr date_formatted);
         (lit "file", PStr filename);
         (lit "excerpt", PStr excerpt);
         (lit "rfc2822", PStr (strftime_rfc2822 ch_date))].

(** [index.setdefault("chapters", {})] and then
    [index["chapters"][str(day_num)] = record], on the loaded index. *)
Definition merge_record (index : pyval) (day_num : Z) (record : pyval) : result pyval :=
  match index with
  | PDict d =>
      let d := dict_setdefault (lit "chapters") (PDict []) d in
      match dict_get (lit "chapters") d with
      | Some (PDict chapters) =>
          Ok (PDict (dict_set (lit "chapters")
                       (PDict (dict_set (str_of_int day_num) record chapters)) d))
      | Some _ => Raise TypeError
      | None => Raise KeyError
      end
  | _ => Raise AttributeError
  end.

Definition publish (day_num : Z) (dry_run : bool) : M Chapter :=
  manuscript_path <- find_manuscript_for_day day_num ;
  raw <- read_text manuscript_path ;
  parsed <- lift (parse_frontmatter raw) ;
  let '(fm, body_md) := parsed in
  title <- lift (derive_title fm body_md day_num) ;
  excerpt <- lift (derive_excerpt fm body_md) ;
  let body_html := markdown_to_html body_md in
  ch_date <- lift (date_for_day_number day_num) ;
  let date_formatted := strftime_long ch_date in
  let chapter := mkChapter day_num ch_date title excerpt raw body_html in
  let '(out_path, filename) := chapter_paths day_num in
  html <- render_chapter_html chapter ;
  _ <- (if dry_run then ret tt
   else
     _ <- mkdir CHAPTERS_DIR ;
     _ <- write_text out_path html ;
     index <- load_index ;
     index <- lift (merge_record index day_num
                      (index_record title date_formatted filename excerpt ch_date)) ;
     _ <- save_index index ;
     _ <- rebuild_chapters_page index ;
     rebuild_rss index) ;
  ret chapter.

End WithHost.

End Publish.

(** ** A small host, to run the pipeline on concrete inputs

    Front matter of [key: value] lines, a one-paragraph Markdown, templates
    with plain [{name}] fields, decimal [int], and a length-prefixed
    serialisation in the place of JSON text. *)

Module ModelHost.
Import Py Datetime Re PyVal Fs Publish.
Local Open Scope N_scope.

(** [s] cut at the first [c]. *)
Fixpoint break_at (c : N) (s : pystr) : option (pystr * pystr) :=
  match s with
  | [] => None
  | x :: r =>
      if x =? c then Some ([], r)
      else match break_at c r with
           | Some (a, b) => Some (x :: a, b)
           | None => None
           end
  end.

Definition yaml_line (line : pystr) : result (pystr * pyval) :=
  match break_at 58 line with
  | Some (k, v) => Ok (strip k, PStr (strip v))
  | None => Raise YAMLError
  end.

Definition model_yaml (s : pystr) : result pyval :=
  match strip s with
  | [] => Ok PNone
  | t => rbind (map_result yaml_line (splitlines t)) (fun d => Ok (PDict d))
  end.

Definition model_markdown (body : pystr) : pystr :=
  lit "<p>" ++ strip body ++ lit "</p>".

Definition model_str (v : pyval) : pystr :=
  match v with
  | PNone => lit "None"
  | PBool true => lit "True"
  | PBool false => lit "False"
  | PInt z => str_of_int z
  | PFloat _ r => r
  | PStr s => s
  | PList _ => lit "[...]"
  | PDict _ => lit "{...}"
  end.

(** [name] holds the field being read, reversed. *)
Fixpoint format_aux (fields : list (pystr * pyval)) (name : option pystr) (s : pystr)
    : result pystr :=
  match s with
  | [] => match name with None => Ok [] | Some _ => Raise ValueError end
  | c :: r =>
      match name with
      | None =>
          if c =? 123 then format_aux fields (Some []) r
          else rbind (format_aux fields None r) (fun rest => Ok (c :: rest))
      | Some acc =>
          if c =? 125
          then match dict_get (rev acc) fields with
               | Some v => rbind (format_aux fields None r) (fun rest => Ok (model_str v ++ rest))
               | None => Raise KeyError
               end
          else format_aux fields (Some (c :: acc)) r
      end
  end.

Definition model_format (template : pystr) (fields : list (pystr * pyval)) : result pystr :=
  format_aux fields None template.

Fixpoint digits_value (acc : N) (s : pystr) : option N :=
  match s with
  | [] => Some acc
  | c :: r => if (48 <=? c) && (c <=? 57) then digits_value (acc * 10 + (c - 48)) r else None
  end.

Definition model_int (s : pystr) : result Z :=
  match strip s with
  | [] => Raise ValueError
  | [45] => Raise ValueError
  | 45 :: r => match digits_value 0 r with
               | Some n => Ok (- Z.of_N n)%Z
               | None => Raise ValueError
               end
  | r => match digits_value 0 r with
         | Some n => Ok (Z.of_N n)
         | None => Raise ValueError
         end
  end.

Definition flag (b : bool) : N := if b then 1 else 0.

(** The serialisation: a tag, then lengths before what varies in length. *)
Fixpoint encode (v : pyval) : pystr :=
  match v with
  | PNone => [0]
  | PBool b => [1; flag b]
  | PInt z => [2; flag (z <? 0)%Z; Z.abs_N z]
  | PFloat nz r => 3 :: flag nz :: N.of_nat (length r) :: r
  | PStr s => 4 :: N.of_nat (length s) :: s
  | PList l => 5 :: N.of_nat (length l) :: concat (map encode l)
  | PDict d =>
      6 :: N.of_nat (length d)
        :: concat (map (fun kv => N.of_nat (length (fst kv)) :: fst kv ++ encode (snd kv)) d)
  end.

Definition unflag (n : N) : bool := negb (n =? 0).

(** [n] documents in a row, read by [dec]. *)
Fixpoint many {A} (dec : pystr -> option (A * pystr)) (n : nat) (s : pystr)
    : option (list A * pystr) :=
  match n with
  | O => Some ([], s)
  | S n' =>
      match dec s with
      | Some (v, r) =>
          match many dec n' r with
          | Some (vs, r') => Some (v :: vs, r')
          | None => None
          end
      | None => None
      end
  end.

(** A key with its length before it, then the value. *)
Definition keyed (dec : pystr -> option (pyval * pystr)) (s : pystr)
    : option ((pystr * pyval) * pystr) :=
  match s with
  | len :: r =>
      match dec (drop (N.to_nat len) r) with
      | Some (v, r') => Some ((take (N.to_nat len) r, v), r')
      | None => None
      end
  | [] => None
  end.

Fixpoint decode (fuel : nat) (s : pystr) : option (pyval * pystr) :=
  match fuel with
  | O => None
  | S f =>
      match s with
      | 0 :: r => Some (PNone, r)
      | 1 :: b :: r => Some (PBool (unflag b), r)
      | 2 :: sg :: a :: r => Some (PInt (if unflag sg then - Z.of_N a else Z.of_N a)%Z, r)
      | 3 :: nz :: len :: r =>
          Some (PFloat (unflag nz) (take (N.to_nat len) r), drop (N.to_nat len) r)
      | 4 :: len :: r => Some (PStr (take (N.to_nat len) r), drop (N.to_nat len) r)
      | 5 :: n :: r =>
          match many (decode f) (N.to_nat n) r with
          | Some (vs, r') => Some (PList vs, r')
          | None => None
          end
      | 6 :: n :: r =>
          match many (keyed (decode f)) (N.to_nat n) r with
          | Some (kvs, r') => Some (PDict kvs, r')
          | None => None
          end
      | _ => None
      end
  end.

Definition model_dumps (v : pyval) : pystr := encode v.

(** Like [json.loads], the reader accepts white space after the document. *)
Definition model_loads (s : pystr) : result pyval :=
  match decode (length s) s with
  | Some (v, rest) => if forallb isspace rest then Ok v else Raise JSONDecodeError
  | None => Raise JSONDecodeError
  end.

Definition model_host : Host :=
  {| yaml_safe_load := model_yaml;
     markdown := model_markdown;
     str_format := model_format;
     json_dumps := model_dumps;
     json_loads := model_loads;
     py_int := model_int;
     py_str := model_str |}.

End ModelHost.

(** ** The command line *)

Module Script.
Import Py PyVal.

(** How a script ends: [main] returns, the interpreter exits through
    [SystemExit], or an exception escapes. *)
Inductive outcome (A : Type) :=
| Returned (a : A)
| SystemExit (arg : pyval)
| Uncaught (e : exn).
Arguments Returned {A} a.
Arguments SystemExit {A} arg.
Arguments Uncaught {A} e.

(** [str.lower]; [json.dump] with [indent=2], as the pieces it writes to the
    file, in order; and the characters the encoding of the locale has, which
    is the encoding of a file opened without one. *)
Class Shell := {
  py_lower : pystr -> pystr;
  json_dump : pyval -> list pystr;
  locale_encodes : N -> bool }.

End Script.

(** ** [scripts/publish.py]: [main] *)

Module PublishMain.
Import Py Datetime PyVal Fs Publish Script.
Local Open Scope Z_scope.

Section WithShell.
Context `{Host} `{Shell}.

(** The day [main] settles on. [today] is what [date.today()] returns; the
    arguments are those [argparse] has read. *)
Definition main_day (day : pystr) (today : date) : outcome Z :=
  if bool_decide (py_lower day = lit "today")
  then match day_number_for_date today with
       | Some dn => Returned dn
       | None =>
           SystemExit (PStr (lit "Today (" ++ isoformat today
                             ++ lit ") is not in 2026. Use an explicit day number."))
       end
  else match py_int day with
       | Ok dn =>
           if negb ((1 <=? dn) && (dn <=? 365))
           then SystemExit (PStr (lit "day must be 1-365 or 'today'"))
           else Returned dn
       | Raise e => Uncaught e
       end.

(** [main]; the result is the line it prints. *)
Definition main (day : pystr) (dry_run : bool) (today : date)
    : world -> world * outcome pystr :=
  fun w =>
    match main_day day today with
    | Returned dn =>
        match publish dn dry_run w with
        | (w', Ok ch) =>
            (w', Returned (lit "Prepared Chapter " ++ zfill_int 3 (day_num ch) ++ lit ": "
                           ++ title ch))
        | (w', Raise e) => (w', Uncaught e)
        end
    | SystemExit arg => (w, SystemExit arg)
    | Uncaught e => (w, Uncaught e)
    end.

End WithShell.

End PublishMain.

(** ** [generate_chapter.py] *)

Module Generate.
Import Py Datetime PyVal Fs Publish Script.
Local Open Scope Z_scope.

Definition CHAPTERS_DIR : pystr := lit "chapters".
Definition CHAPTERS_JSON : pystr := lit "chapters.json".
Definition CHAPTERS_HTML : pystr := lit "chapters.html".

Definition CHAPTER_TEMPLATE : pystr := litq "<!DOCTYPE html>
<html lang=~en~>
<head>
	<meta charset=~UTF-8~>
	<meta name=~viewport~ content=~width=device-width, initial-scale=1.0~>
	<title>{title} - A Likely Story</title>
	<meta name=~description~ content=~Chapter {num}: {title}. {date_formatted}.~>

	<!-- Fonts -->
	<link rel=~preconnect~ href=~https://fonts.googleapis.com~>
	<link rel=~preconnect~ href=~https://fonts.gstatic.com~ crossorigin>
	<link href=~https://fonts.googleapis.com/css2?family=Roboto:wght@400;500;600&family=Source+Serif+4:opsz,wght@8..60,400;8..60,500;8..60,600&display=swap~ rel=~stylesheet~>

	<!-- Styles -->
	<link rel=~stylesheet~ href=~../css/design-tokens.css~>
	<link rel=~stylesheet~ href=~../css/style.css~>
</head>
<body>
	<nav>
		<div class=~nav-inner~>
			<a href=~../index.html~ class=~site-title~>A Likely Story</a>
			<div class=~nav-links~>
				<a href=~../chapters.html~>Chapters</a>
				<a href=~../about.html~>About</a>
				<button class=~theme-toggle~ id=~themeToggle~ aria-label=~Toggle theme~>
					<span class=~theme-icon~>&#9790;</span>
				</button>
			</div>
		</div>
	</nav>

	<div class=~reading-progress~>
		<div class=~progress-bar~ id=~progressBar~></div>
	</div>

	<article class=~container~>
		<header class=~chapter-header~>
			<p class=~chapter-number~>Chapter {num} of 365</p>
			<h1>{title}</h1>
			<p class=~chapter-date~>{date_formatted}</p>
		</header>

		<div class=~chapter-content~>
{content}
		</div>

		<nav class=~chapter-nav~>
			<a href=~{prev_link}~ class=~{prev_class}~>&larr; Previous</a>
			<a href=~../chapters.html~>All Chapters</a>
			<a href=~{next_link}~ class=~{next_class}~>Next &rarr;</a>
		</nav>
	</article>

	<footer>
		<p>Written by AI &middot; A Likely Story &middot; 2026</p>
	</footer>

	<script>
		// Theme toggle
		const themeToggle = document.getElementById('themeToggle');
		const themeIcon = themeToggle.querySelector('.theme-icon');

		function setTheme(theme) {{
			document.documentElement.className = theme;
			localStorage.setItem('theme', theme);
			themeIcon.textContent = theme === 'dark' ? '\u2600' : '\u263E';
		}}

		const savedTheme = localStorage.getItem('theme');
		if (savedTheme) {{
			setTheme(savedTheme);
		}} else if (window.matchMedia('(prefers-color-scheme: dark)').matches) {{
			themeIcon.textContent = '\u2600';
		}}

		themeToggle.addEventListener('click', () => {{
			const currentTheme = document.documentElement.className;
			setTheme(currentTheme === 'dark' ? 'light' : 'dark');
		}});

		// Reading progress
		const progressBar = document.getElementById('progressBar');
		window.addEventListener('scroll', () => {{
			const scrollTop = window.scrollY;
			const docHeight = document.documentElement.scrollHeight - window.innerHeight;
			const progress = (scrollTop / docHeight) * 100;
			progressBar.style.width = progress + '%';
		}});
	</script>
</body>
</html>".

Definition PAGE_HEAD : pystr := litq "<!DOCTYPE html>
<html lang=~en~>
<head>
	<meta charset=~UTF-8~>
	<meta name=~viewport~ content=~width=device-width, initial-scale=1.0~>
	<title>All Chapters - A Likely Story</title>
	<meta name=~description~ content=~Browse all ".

Definition PAGE_COUNT : pystr := litq " published chapters of A Likely Story.~>

	<!-- Fonts -->
	<link rel=~preconnect~ href=~https://fonts.googleapis.com~>
	<link rel=~preconnect~ href=~https://fonts.gstatic.com~ crossorigin>
	<link href=~https://fonts.googleapis.com/css2?family=Roboto:wght@400;500;600&family=Source+Serif+4:opsz,wght@8..60,400;8..60,500;8..60,600&display=swap~ rel=~stylesheet~>

	<!-- Styles -->
	<link rel=~stylesheet~ href=~css/design-tokens.css~>
	<link rel=~stylesheet~ href=~css/style.css~>
</head>
<body>
	<nav>
		<div class=~nav-inner~>
			<a href=~index.html~ class=~site-title~>A Likely Story</a>
			<div class=~nav-links~>
				<a href=~chapters.html~>Chapters</a>
				<a href=~about.html~>About</a>
				<button class=~theme-toggle~ id=~themeToggle~ aria-label=~Toggle theme~>
					<span class=~theme-icon~>&#9790;</span>
				</button>
			</div>
		</div>
	</nav>

	<header class=~container~ style=~padding-top: calc(var(--space-16) + 60px);~>
		<h1 style=~font-size: var(--text-3xl); text-transform: none; letter-spacing: var(--tracking-tight);~>All Chapters</h1>
		<p class=~subtitle~>".

Definition PAGE_MAIN : pystr := litq " of 365 chapters published</p>
	</header>

	<main class=~container~>
".

Definition PAGE_FOOT : pystr := litq "
	</main>

	<footer>
		<p>Written by AI &middot; A Likely Story &middot; 2026</p>
	</footer>

	<script>
		const themeToggle = document.getElementById('themeToggle');
		const themeIcon = themeToggle.querySelector('.theme-icon');

		function setTheme(theme) {
			document.documentElement.className = theme;
			localStorage.setItem('theme', theme);
			themeIcon.textContent = theme === 'dark' ? '\u2600' : '\u263E';
		}

		const savedTheme = localStorage.getItem('theme');
		if (savedTheme) {
			setTheme(savedTheme);
		} else if (window.matchMedia('(prefers-color-scheme: dark)').matches) {
			themeIcon.textContent = '\u2600';
		}

		themeToggle.addEventListener('click', () => {
			const currentTheme = document.documentElement.className;
			setTheme(currentTheme === 'dark' ? 'light' : 'dark');
		});
	</script>
</body>
</html>".

Definition PLACEHOLDER : pystr :=
  litq "
		<section class=~archive-section~>
			<p style=~text-align: center; color: var(--color-text-muted);~>No chapters published yet. The story begins January 1, 2026.</p>
		</section>
".

(** [s.split(sep)] for a one-character [sep]. [cur] is the piece being read,
    reversed. *)
Fixpoint split_char_aux (sep : N) (cur : pystr) (s : pystr) : list pystr :=
  match s with
  | [] => [rev cur]
  | c :: r =>
      if (c =? sep)%N then rev cur :: split_char_aux sep [] r
      else split_char_aux sep (c :: cur) r
  end.

Definition split_char (sep : N) (s : pystr) : list pystr := split_char_aux sep [] s.

(** [template.format] with named arguments, for a template whose fields are
    plain names and whose values are strings: doubled braces stand for
    themselves. [name] holds the field being read, reversed. *)
Fixpoint format_fields_aux (fields : list (pystr * pystr)) (name : option pystr)
    (s : pystr) : result pystr :=
  match s with
  | [] => match name with None => Ok [] | Some _ => Raise ValueError end
  | c :: r =>
      match name with
      | None =>
          if (c =? 123)%N
          then match r with
               | c' :: r' =>
                   if (c' =? 123)%N
                   then rbind (format_fields_aux fields None r') (fun rest => Ok (123%N :: rest))
                   else format_fields_aux fields (Some []) r
               | [] => Raise ValueError
               end
          else if (c =? 125)%N
          then match r with
               | c' :: r' =>
                   if (c' =? 125)%N
                   then rbind (format_fields_aux fields None r') (fun rest => Ok (125%N :: rest))
                   else Raise ValueError
               | [] => Raise ValueError
               end
          else rbind (format_fields_aux fields None r) (fun rest => Ok (c :: rest))
      | Some acc =>
          if (c =? 125)%N
          then match dict_get (rev acc) fields with
               | Some v => rbind (format_fields_aux fields None r) (fun rest => Ok (v ++ rest))
               | None => Raise KeyError
               end
          else if (c =? 123)%N then Raise ValueError
          else format_fields_aux fields (Some (c :: acc)) r
      end
  end.

Definition format_fields (template : pystr) (fields : list (pystr * pystr)) : result pystr :=
  format_fields_aux fields None template.

(** The entry the first loop of [rebuild_chapters_html] appends: the [dict]
    with the keys [day], [title], [date] and [file]. *)
Record Entry := mkEntry {
  entry_day : Z;
  entry_title : pyval;
  entry_date : pyval;
  entry_file : pyval }.

(** [if month_key not in months: months[month_key] = []] and then
    [months[month_key].append(entry)] *)
Fixpoint months_append (month_key : pystr) (entry : Entry)
    (months : list (pystr * list Entry)) : list (pystr * list Entry) :=
  match months with
  | [] => [(month_key, [entry])]
  | (k, entries) :: rest =>
      if bool_decide (k = month_key) then (k, entries ++ [entry]) :: rest
      else (k, entries) :: months_append month_key entry rest
  end.

(** [index["chapters"][str(day_num)] = record], on the loaded index. *)
Definition store_record (index : pyval) (day_num : Z) (record : pyval) : result pyval :=
  chapters <~ py_subscript index (lit "chapters") ;
  match index, chapters with
  | PDict d, PDict c =>
      Ok (PDict (dict_set (lit "chapters") (PDict (dict_set (str_of_int day_num) record c)) d))
  | _, _ => Raise TypeError
  end.

Section WithHost.
Context `{Host} `{Shell}.

Definition load_chapters_index : M pyval :=
  b <- exists_ CHAPTERS_JSON ;
  if b : bool
  then text <- read_text CHAPTERS_JSON ; lift (json_loads text)
  else ret (PDict [(lit "chapters", PDict [])]).

Definition save_chapters_index (index : pyval) : M unit :=
  write_pieces locale_encodes CHAPTERS_JSON (json_dump index).

(** The result is the path of the page. What is printed is left out. *)
Definition generate_chapter (day_num : Z) (title content : pystr) : M pystr :=
  _ <- mkdir CHAPTERS_DIR ;
  current_date <- lift (GenerateChapter.get_date_for_day day_num) ;
  let date_formatted := strftime_long current_date in
  let prev_num := zfill_int 3 (day_num - 1) in
  let next_num := zfill_int 3 (day_num + 1) in
  let prev_link := if 1 <? day_num then prev_num ++ lit ".html" else lit "#" in
  let next_link := if day_num <? 365 then next_num ++ lit ".html" else lit "#" in
  let prev_class := if 1 <? day_num then [] else lit "disabled" in
  let next_class := if day_num <? 365 then [] else lit "disabled" in
  let content_lines := split_char 10 (strip content) in
  let indented_content := join nl (map (fun line => tab ++ tab ++ tab ++ line) content_lines) in
  chapter_html <- lift (format_fields CHAPTER_TEMPLATE
                          [(lit "num", str_of_int day_num);
                           (lit "title", title);
                           (lit "date_formatted", date_formatted);
                           (lit "content", indented_content);
                           (lit "prev_link", prev_link);
                           (lit "next_link", next_link);
                           (lit "prev_class", prev_class);
                           (lit "next_class", next_class)]) ;
  let filename := zfill_int 3 day_num ++ lit ".html" in
  let filepath := path_join CHAPTERS_DIR filename in
  _ <- write_pieces locale_encodes filepath [chapter_html] ;
  index <- load_chapters_index ;
  index <- lift (store_record index day_num
                   (PDict [(lit "title", PStr title);
                           (lit "date", PStr date_formatted);
                           (lit "file", PStr filename)])) ;
  _ <- save_chapters_index index ;
  ret filepath.

(** The first loop of [rebuild_chapters_html]. *)
Fixpoint group_entries (items : list (Z * (pystr * pyval)))
    (months : list (pystr * list Entry)) : result (list (pystr * list Entry)) :=
  match items with
  | [] => Ok months
  | (day_num, (_, info)) :: rest =>
      chapter_date <~ GenerateChapter.get_date_for_day day_num ;
      let month_key := strftime_month chapter_date in
      title <~ py_subscript info (lit "title") ;
      date <~ py_subscript info (lit "date") ;
      file <~ py_subscript info (lit "file") ;
      group_entries rest (months_append month_key (mkEntry day_num title date file) months)
  end.

Definition entry_li (ch : Entry) : pystr :=
  tab ++ tab ++ tab ++ tab ++ litq "<li><a href=~chapters/" ++ py_format (entry_file ch)
  ++ litq "~><span class=~chapter-title~>Chapter " ++ str_of_int (entry_day ch) ++ lit ": "
  ++ py_format (entry_title ch) ++ litq "</span><span class=~chapter-meta~>"
  ++ py_format (entry_date ch) ++ lit "</span></a></li>" ++ nl.

(** What one turn of the second loop adds to [chapters_list]. *)
Definition month_section (group : pystr * list Entry) : pystr :=
  let '(month, chapter_list) := group in
  nl ++ tab ++ tab ++ litq "<section class=~archive-section~>" ++ nl
  ++ tab ++ tab ++ tab ++ lit "<h2>" ++ month ++ lit "</h2>" ++ nl
  ++ tab ++ tab ++ tab ++ litq "<ul class=~chapter-list~>" ++ nl
  ++ concat (map entry_li chapter_list)
  ++ tab ++ tab ++ tab ++ lit "</ul>" ++ nl
  ++ tab ++ tab ++ lit "</section>" ++ nl.

(** The text of the listing page. *)
Definition chapters_html (index : pyval) : result pystr :=
  chapters <~ py_get_default index (lit "chapters") (PDict []) ;
  keyed <~ keyed_items chapters ;
  months <~ group_entries (sorted_by ascending keyed) [] ;
  let chapters_list := concat (map month_section months) in
  let chapters_list := match chapters_list with [] => PLACEHOLDER | _ => chapters_list end in
  items <~ py_items chapters ;
  let total_chapters := str_of_int (Z.of_nat (length items)) in
  Ok (PAGE_HEAD ++ total_chapters ++ PAGE_COUNT ++ total_chapters ++ PAGE_MAIN
      ++ chapters_list ++ PAGE_FOOT).

(** The result is the path of the page. What is printed is left out. *)
Definition rebuild_chapters_html : M pystr :=
  index <- load_chapters_index ;
  html <- lift (chapters_html index) ;
  _ <- write_pieces locale_encodes CHAPTERS_HTML [html] ;
  ret CHAPTERS_HTML.

(** The day [main] settles on; [sys.exit(1)] where it gives up. *)
Definition main_day (day_arg : pystr) (today : date) : outcome Z :=
  if bool_decide (py_lower day_arg = lit "today")
  then match GenerateChapter.get_day_number_for_date today with
       | Some day_num => Returned day_num
       | None => SystemExit (PInt 1)
       end
  else match py_int day_arg with
       | Ok day_num =>
           if negb ((1 <=? day_num) && (day_num <=? 365)) then SystemExit (PInt 1)
           else Returned day_num
       | Raise ValueError => SystemExit (PInt 1)
       | Raise e => Uncaught e
       end.

Definition run {A} (c : M A) : world -> world * outcome unit :=
  fun w =>
    match c w with
    | (w', Ok _) => (w', Returned tt)
    | (w', Raise e) => (w', Uncaught e)
    end.

(** [main] on [sys.argv]; [today] is what [date.today()] returns. *)
Definition main (argv : list pystr) (today : date) : world -> world * outcome unit :=
  fun w =>
    match argv with
    | [] | [_] => (w, SystemExit (PInt 1))
    | _ :: arg1 :: rest =>
        if bool_decide (arg1 = lit "--rebuild-index") then run rebuild_chapters_html w
        else match rest with
             | title :: content :: _ =>
                 match main_day arg1 today with
                 | Returned day_num =>
                     run (_ <- generate_chapter day_num title content ;
                          rebuild_chapters_html) w
                 | SystemExit arg => (w, SystemExit arg)
                 | Uncaught e => (w, Uncaught e)
                 end
             | _ => (w, SystemExit (PInt 1))
             end
    end.

End WithHost.

End Generate.

(** * Properties *)

(** ** The calendar mapper *)

Module CalendarTheory.
Import Py Datetime.
Local Open Scope Z_scope.

(** Day [n] maps to a date of 2026 that maps back to [n]. *)
Definition round_trips (n : Z) : bool :=
  match Publish.date_for_day_number n with
  | Ok d =>
      (year d =? 2026)
      && match Publish.day_number_for_date d with
         | Some m => m =? n
         | None => false
         end
  | Raise _ => false
  end.

Lemma round_trips_year : forallb round_trips (seqZ 1 365) = true.
Proof. vm_compute. reflexivity. Qed.

Lemma round_trips_in_range (n : Z) : 1 <= n <= 365 -> round_trips n = true.
Proof.
  intros Hn.
  pose proof round_trips_year as Hall.
  rewrite forallb_forall in Hall.
  apply Hall, list_elem_of_In, elem_of_seqZ. lia.
Qed.

Lemma mappers_agree_on_dates (d : date) :
  GenerateChapter.get_day_number_for_date d = Publish.day_number_for_date d.
Proof.
  unfold GenerateChapter.get_day_number_for_date, Publish.day_number_for_date.
  destruct (negb (year d =? 2026)); [reflexivity|].
  cbv zeta. reflexivity.
Qed.

Lemma mappers_agree_on_days (n : Z) :
  GenerateChapter.get_date_for_day n = Publish.date_for_day_number n.
Proof. reflexivity. Qed.

(** C1. For every day number [n] in [1, 365], the date of day [n] exists, lies
    in 2026, and its day number is [n] again; this holds for the mapper of
    [publish.py] and for the one of [generate_chapter.py], both anchored at
    2026-01-01. *)
Theorem day_number_round_trip (n : Z) :
  1 <= n <= 365 ->
  (exists d, Publish.date_for_day_number n = Ok d /\ year d = 2026
             /\ Publish.day_number_for_date d = Some n)
  /\ (exists d, GenerateChapter.get_date_for_day n = Ok d
                /\ GenerateChapter.get_day_number_for_date d = Some n)
  /\ Publish.date_for_day_number 1 = Ok (mkdate 2026 1 1).
Proof.
  intros Hn.
  pose proof (round_trips_in_range n Hn) as Hrt.
  unfold round_trips in Hrt.
  destruct (Publish.date_for_day_number n) as [d|e] eqn:Hd; [|discriminate].
  apply andb_true_iff in Hrt as [Hy Hback].
  destruct (Publish.day_number_for_date d) as [m|] eqn:Hm; [|discriminate].
  apply Z.eqb_eq in Hy, Hback. subst m.
  split; [|split].
  - exists d. auto.
  - exists d. rewrite mappers_agree_on_days, mappers_agree_on_dates. auto.
  - reflexivity.
Qed.

Lemma day_number_round_trip_witness :
  1 <= 60 <= 365
  /\ exists d, Publish.date_for_day_number 60 = Ok d /\ year d = 2026
               /\ Publish.day_number_for_date d = Some 60.
Proof.
  split; [lia|].
  apply (proj1 (day_number_round_trip 60 ltac:(lia))).
Defined.

(** C10. The calendar mappers of the two scripts agree: on every date they
    give the same day number or both give none, on every day number they give
    the same date or both fail, and on [1, 365] both give a date. *)
Theorem calendar_mappers_agree :
  (forall d, GenerateChapter.get_day_number_for_date d = Publish.day_number_for_date d)
  /\ (forall n, GenerateChapter.get_date_for_day n = Publish.date_for_day_number n)
  /\ (forall n, 1 <= n <= 365 ->
        exists d, GenerateChapter.get_date_for_day n = Ok d
                  /\ Publish.date_for_day_number n = Ok d).
Proof.
  split; [exact mappers_agree_on_dates|].
  split; [exact mappers_agree_on_days|].
  intros n Hn.
  pose proof (round_trips_in_range n Hn) as Hrt.
  unfold round_trips in Hrt.
  destruct (Publish.date_for_day_number n) as [d|e] eqn:Hd; [|discriminate].
  exists d. rewrite mappers_agree_on_days. auto.
Qed.

Lemma calendar_mappers_agree_witness :
  1 <= 365 <= 365
  /\ exists d, GenerateChapter.get_date_for_day 365 = Ok d
               /\ Publish.date_for_day_number 365 = Ok d.
Proof.
  split; [lia|].
  apply (proj2 (proj2 calendar_mappers_agree) 365). lia.
Defined.

End CalendarTheory.

(** ** Titles and excerpts *)

Module MetadataTheory.
Import Py Datetime Re PyVal Publish.

Lemma nonblank_str_text (e : pystr) :
  strip e <> [] -> nonblank_str (Some (PStr e)) = Some (strip e).
Proof. unfold nonblank_str. destruct (strip e); congruence. Qed.

(** A frontmatter title that is text and not blank wins, trimmed. *)
Lemma derive_title_frontmatter (fm : list (pystr * pyval)) (t body : pystr) (day : Z) :
  dict_get (lit "title") fm = Some (PStr t) -> strip t <> [] ->
  derive_title (PDict fm) body day = Ok (strip t).
Proof.
  intros Hget Ht. unfold derive_title. cbn [py_get rbind].
  rewrite Hget, (nonblank_str_text _ Ht). reflexivity.
Qed.

(** Without such a title, the first line that starts with [#] gives it. *)
Lemma derive_title_heading (fm : list (pystr * pyval)) (body h : pystr) (day : Z) :
  nonblank_str (dict_get (lit "title") fm) = None ->
  first_heading (splitlines body) = Some h ->
  derive_title (PDict fm) body day = Ok h.
Proof.
  intros Hnb Hh. unfold derive_title. cbn [py_get rbind]. rewrite Hnb, Hh. reflexivity.
Qed.

Lemma derive_title_fallback (fm : list (pystr * pyval)) (body : pystr) (day : Z) :
  nonblank_str (dict_get (lit "title") fm) = None ->
  first_heading (splitlines body) = None ->
  derive_title (PDict fm) body day = Ok (lit "Chapter " ++ str_of_int day).
Proof.
  intros Hnb Hh. unfold derive_title. cbn [py_get rbind]. rewrite Hnb, Hh. reflexivity.
Qed.

(** C4. The precedence holds, but the title is not always non-empty: a body
    whose first heading line carries only [#] marks gives the empty title,
    whatever the day number. *)
Theorem derive_title_empty_heading (day : Z) :
  derive_title (PDict []) (lit "#") day = Ok []
  /\ derive_title (PDict []) (lit "##  
text") day = Ok [].
Proof. split; reflexivity. Qed.

(** The paragraphs [derive_excerpt] scans. *)
Definition paragraphs (body_md : pystr) : list pystr :=
  re_split PARA_RE (strip_markup body_md).

(** A paragraph cut to 200 characters, with the ellipsis when it was longer. *)
Definition truncated (s : pystr) : pystr :=
  take 200 s ++ (if Nat.ltb 200 (length s) then ELLIPSIS else []).





Lemma derive_excerpt_body (fm : list (pystr * pyval)) (body : pystr) :
  nonblank_str (dict_get (lit "excerpt") fm) = None ->
  derive_excerpt (PDict fm) body = Ok (first_excerpt (paragraphs body)).
Proof.
  intros Hnb. unfold derive_excerpt. cbn [py_get rbind]. rewrite Hnb. reflexivity.
Qed.


(** A paragraph that is 40 characters long without its markers, and one
    that is 39 characters long. *)
Definition forty : pystr := lit "A bright cold day in *April*, clocks at 13".



(** A frontmatter excerpt of white space only is passed over, and one with
    white space around it is trimmed. *)
Example blank_frontmatter_excerpt :
  derive_excerpt (PDict [(lit "excerpt", PStr (lit "  "))]) forty
  = Ok (lit "A bright cold day in April, clocks at 13")
  /\ derive_excerpt (PDict [(lit "excerpt", PStr (lit " Noon. "))]) forty = Ok (lit "Noon.").
Proof. split; vm_compute; reflexivity. Qed.

End MetadataTheory.

(** ** Manuscript lookup *)

Module SourceTheory.
Import Py Datetime PyVal Fs Publish.
Local Open Scope Z_scope.

Definition present (w : world) (p : pystr) : bool := bool_decide (is_Some (files w !! p)).

(** The loop returns the first candidate that is there, and changes nothing. *)
Lemma first_existing_find (ps : list pystr) (w : world) :
  first_existing ps w = (w, Ok (List.find (present w) ps)).
Proof.
  induction ps as [|p ps IH]; [reflexivity|].
  cbn [first_existing List.find]. unfold bind, exists_ at 1. fold (present w p).
  destruct (present w p); [reflexivity|exact IH].
Qed.

Lemma find_first_present (w : world) (pre post : list pystr) (p : pystr) :
  Forall (fun q => files w !! q = None) pre -> is_Some (files w !! p) ->
  List.find (present w) (pre ++ p :: post) = Some p.
Proof.
  intros Hpre Hp. induction Hpre as [|q pre Hq _ IH]; cbn [app List.find].
  - unfold present. rewrite bool_decide_eq_true_2; [reflexivity|exact Hp].
  - unfold present at 1. rewrite bool_decide_eq_false_2; [exact IH|].
    cbv beta in Hq. rewrite Hq. intros [? ?]. discriminate.
Qed.

Lemma find_none_present (w : world) (ps : list pystr) :
  Forall (fun q => files w !! q = None) ps -> List.find (present w) ps = None.
Proof.
  induction 1 as [|q ps Hq _ IH]; cbn [List.find]; [reflexivity|].
  unfold present at 1. rewrite bool_decide_eq_false_2; [exact IH|].
  cbv beta in Hq. rewrite Hq. intros [? ?]. discriminate.
Qed.

(** Every part of a joined list stands in the result. *)
Lemma join_contains (sep : pystr) (parts : list pystr) (c : pystr) :
  In c parts -> exists a b, join sep parts = a ++ c ++ b.
Proof.
  induction parts as [|p [|q parts] IH]; intros Hin.
  - destruct Hin.
  - destruct Hin as [->|[]]. exists [], []. cbn. rewrite app_nil_r. reflexivity.
  - destruct Hin as [->|Hin].
    + exists [], (sep ++ join sep (q :: parts)). reflexivity.
    + destruct (IH Hin) as (a & b & Hab).
      exists (p ++ sep ++ a), b.
      change (join sep (p :: q :: parts)) with (p ++ sep ++ join sep (q :: parts)).
      rewrite Hab, <- !app_assoc. reflexivity.
Qed.

(** C9. For a day number in [1, 365] the date exists and three names are
    probed in this order: the ISO date, the day padded to three digits, the
    bare day. The first one that exists is returned; when none exists the
    lookup raises [FileNotFoundError] with a message that holds each of the
    three paths. The files are left as they were. *)
Theorem find_manuscript_for_day_spec (w : world) (day : Z) :
  1 <= day <= 365 ->
  exists d,
    date_for_day_number day = Ok d
    /\ let cands := [path_join MANUSCRIPT_DIR (isoformat d ++ lit ".md");
                     path_join MANUSCRIPT_DIR (zfill_int 3 day ++ lit ".md");
                     path_join MANUSCRIPT_DIR (str_of_int day ++ lit ".md")] in
       (forall pre p post,
           cands = pre ++ p :: post ->
           Forall (fun q => files w !! q = None) pre -> is_Some (files w !! p) ->
           find_manuscript_for_day day w = (w, Ok p))
       /\ (Forall (fun q => files w !! q = None) cands ->
           exists msg,
             find_manuscript_for_day day w = (w, Raise (FileNotFoundError msg))
             /\ forall c, In c cands -> exists a b, msg = a ++ c ++ b).
Proof.
  intros Hday.
  pose proof (CalendarTheory.round_trips_in_range day Hday) as Hrt.
  unfold CalendarTheory.round_trips in Hrt.
  destruct (date_for_day_number day) as [d|e] eqn:Hd; [clear Hrt|discriminate].
  exists d. split; [reflexivity|]. cbv zeta. fold (candidates d day).
  assert (Hfind : forall o, List.find (present w) (candidates d day) = o ->
            find_manuscript_for_day day w
            = (w, match o with
                  | Some p => Ok p
                  | None => Raise (FileNotFoundError
                                     (not_found_message day (candidates d day)))
                  end)).
  { intros o Ho. unfold find_manuscript_for_day, bind, lift. rewrite Hd.
    rewrite first_existing_find, Ho. destruct o; reflexivity. }
  split.
  - intros pre p post Hsplit Hpre Hp.
    apply (Hfind (Some p)). rewrite Hsplit. apply find_first_present; assumption.
  - intros Hnone. eexists. split.
    + apply (Hfind None). apply find_none_present, Hnone.
    + intros c Hc. unfold not_found_message.
      destruct (join_contains (lit ", ") (candidates d day) c Hc) as (a & b & ->).
      exists (lit "No manuscript found for day " ++ str_of_int day
              ++ lit ". Expected one of: " ++ a), b.
      rewrite <- !app_assoc. reflexivity.
Qed.

(** A project that holds the chapter of day 2 under its padded and its bare
    name, and no ISO-dated file: the padded name is found. *)
Definition two_names : world :=
  mkworld (list_to_map [(lit "manuscript/002.md", lit "# Two");
                        (lit "manuscript/2.md", lit "# Other")]) None ∅.

Lemma find_manuscript_for_day_spec_witness :
  find_manuscript_for_day 2 two_names = (two_names, Ok (lit "manuscript/002.md")).
Proof.
  destruct (find_manuscript_for_day_spec two_names 2 ltac:(lia)) as (d & Hd & Hfound & _).
  injection Hd as <-.
  apply (Hfound [lit "manuscript/2026-01-02.md"] (lit "manuscript/002.md")
           [lit "manuscript/2.md"]).
  - reflexivity.
  - constructor; [vm_compute; reflexivity|constructor].
  - vm_compute. eauto.
Defined.

End SourceTheory.

(** ** Sorting and loops over results *)

Module LoopTheory.
Import Py PyVal.

Section SortedBy.
Context {X : Type} (before : Z -> Z -> bool).
Hypothesis before_total : forall a b, before a b = true \/ before b a = true.
Hypothesis before_trans :
  forall a b c, before a b = true -> before b c = true -> before a c = true.

(** [x] may stand before [y]. *)
Definition precedes (x y : Z * X) : Prop := before (fst x) (fst y) = true.

Lemma insert_by_perm (x : Z * X) (l : list (Z * X)) : insert_by before x l ≡ₚ x :: l.
Proof.
  induction l as [|y l IH]; cbn [insert_by]; [reflexivity|].
  destruct (before (fst x) (fst y)); [reflexivity|].
  rewrite IH. apply Permutation_swap.
Qed.

Lemma sorted_by_perm (l : list (Z * X)) : sorted_by before l ≡ₚ l.
Proof.
  induction l as [|x l IH]; [reflexivity|].
  cbn [sorted_by foldr]. fold (sorted_by before l).
  rewrite insert_by_perm, IH. reflexivity.
Qed.

Lemma insert_by_sorted (x : Z * X) (l : list (Z * X)) :
  StronglySorted precedes l -> StronglySorted precedes (insert_by before x l).
Proof.
  induction 1 as [|y l Hl IH Hy]; cbn [insert_by].
  - repeat constructor.
  - destruct (before (fst x) (fst y)) eqn:Hxy.
    + constructor; [constructor; assumption|].
      constructor; [exact Hxy|].
      eapply Forall_impl; [exact Hy|].
      intros z Hz. exact (before_trans _ _ _ Hxy Hz).
    + constructor; [exact IH|].
      rewrite insert_by_perm. constructor; [|exact Hy].
      destruct (before_total (fst x) (fst y)) as [Hc|Hc]; [congruence|exact Hc].
Qed.

Lemma sorted_by_sorted (l : list (Z * X)) : StronglySorted precedes (sorted_by before l).
Proof.
  induction l as [|x l IH]; [constructor|].
  cbn [sorted_by foldr]. apply insert_by_sorted, IH.
Qed.


End SortedBy.

Lemma ascending_total (a b : Z) : ascending a b = true \/ ascending b a = true.
Proof. unfold ascending. lia. Qed.

Lemma ascending_trans (a b c : Z) :
  ascending a b = true -> ascending b c = true -> ascending a c = true.
Proof. unfold ascending. lia. Qed.




End LoopTheory.

(** ** The feed *)

Module FeedTheory.
Import Py Datetime PyVal Fs Publish LoopTheory.
Local Open Scope N_scope.

(** What [esc] does to one character. *)
Definition esc_char (c : N) : pystr :=
  if (c =? 38)%N then lit "&amp;"
  else if c =? 60 then lit "&lt;"
  else if c =? 62 then lit "&gt;"
  else if c =? 34 then lit "&quot;"
  else [c].

Definition special (c : N) : bool := (c =? 38) || (c =? 60) || (c =? 62) || (c =? 34).


Lemma flat_map_compose {A B C} (f : A -> list B) (g : B -> list C) (l : list A) :
  flat_map g (flat_map f l) = flat_map (fun x => flat_map g (f x)) l.
Proof.
  induction l as [|x l IH]; [reflexivity|].
  cbn [flat_map]. rewrite flat_map_app, IH. reflexivity.
Qed.

Lemma esc_pointwise (s : pystr) : esc s = flat_map esc_char s.
Proof.
  unfold esc, replace_char. rewrite !flat_map_compose.
  apply flat_map_ext. intros c. unfold esc_char.
  destruct (N.eqb_spec c 38) as [->|H38]; [reflexivity|].
  destruct (N.eqb_spec c 60) as [->|H60]; [reflexivity|].
  destruct (N.eqb_spec c 62) as [->|H62]; [reflexivity|].
  destruct (N.eqb_spec c 34) as [->|H34]; [reflexivity|].
  cbn [flat_map app].
  rewrite (proj2 (N.eqb_neq c 60) H60). cbn [flat_map app].
  rewrite (proj2 (N.eqb_neq c 62) H62). cbn [flat_map app].
  rewrite (proj2 (N.eqb_neq c 34) H34). reflexivity.
Qed.






Local Open Scope nat_scope.




Section Feed.
Context `{Host}.









End Feed.



End FeedTheory.

(** ** The listing page *)

Module ListingTheory.
Import Py Datetime PyVal Fs Publish LoopTheory.

(** A keyed item of the index as the loops see it: day number and record. *)
Definition seen (e : Z * (pystr * pyval)) : Z * pyval := (fst e, snd (snd e)).

(** The section label of a day. *)
Definition month_key_of (n : Z) : result pystr :=
  rbind (date_for_day_number n) (fun d => Ok (strftime_month d)).

(** The first entry of every section. *)
Definition firsts (months : list (pystr * list (Z * pyval))) : list (Z * pyval) :=
  flat_map (fun g => take 1 (snd g)) months.

(** A section is not empty, holds entries of its month only, and holds them
    in the order they were met. *)
Definition group_ok (met : list (Z * pyval)) (g : pystr * list (Z * pyval)) : Prop :=
  snd g <> []
  /\ Forall (fun it => month_key_of (fst it) = Ok (fst g)) (snd g)
  /\ snd g `sublist_of` met.

Definition months_ok (met : list (Z * pyval)) (months : list (pystr * list (Z * pyval)))
    : Prop :=
  NoDup (map fst months)
  /\ Forall (group_ok met) months
  /\ firsts months `sublist_of` met
  /\ concat (map snd months) ≡ₚ met.

Lemma months_add_keys key x months k :
  k ∈ map fst (months_add key x months) -> k = key \/ k ∈ map fst months.
Proof.
  induction months as [|[k' its] months IH]; cbn [months_add map fst].
  - intros ->%list_elem_of_singleton. auto.
  - case_bool_decide as Hk; cbn [map fst]; [auto|].
    intros [->|Hin]%elem_of_cons; [right; left|].
    destruct (IH Hin) as [->|Hin']; [auto|right; right; exact Hin'].
Qed.

Lemma months_add_nodup key x months :
  NoDup (map fst months) -> NoDup (map fst (months_add key x months)).
Proof.
  induction months as [|[k' its] months IH]; cbn [months_add map fst]; intros Hnd.
  - apply NoDup_singleton.
  - apply NoDup_cons in Hnd as [Hk' Hnd].
    case_bool_decide as Hk; cbn [map fst]; apply NoDup_cons.
    + auto.
    + split; [|auto]. intros [->|Hin]%months_add_keys; [congruence|contradiction].
Qed.

Lemma group_ok_later met x g : group_ok met g -> group_ok (met ++ [x]) g.
Proof.
  intros (Hne & Hall & Hsub). repeat split; [exact Hne|exact Hall|].
  apply sublist_inserts_r, Hsub.
Qed.

Lemma months_add_groups met key x months :
  month_key_of (fst x) = Ok key ->
  Forall (group_ok met) months ->
  Forall (group_ok (met ++ [x])) (months_add key x months).
Proof.
  intros Hx. induction 1 as [|[k its] months Hg Hrest IH]; cbn [months_add].
  - repeat constructor; cbn [fst snd]; [discriminate|exact Hx|].
    apply sublist_inserts_l. reflexivity.
  - case_bool_decide as Hk.
    + subst k. constructor.
      * destruct Hg as (Hne & Hall & Hsub). cbn [fst snd] in *. repeat split; cbn [fst snd].
        -- destruct its; discriminate.
        -- apply Forall_app. split; [exact Hall|]. repeat constructor. exact Hx.
        -- apply sublist_app; [exact Hsub|reflexivity].
      * eapply Forall_impl; [exact Hrest|]. intros g. apply group_ok_later.
    + constructor; [apply group_ok_later, Hg|exact IH].
Qed.

Lemma months_add_firsts met key x months :
  Forall (group_ok met) months ->
  firsts (months_add key x months) = firsts months
  \/ firsts (months_add key x months) = firsts months ++ [x].
Proof.
  induction 1 as [|[k its] months Hg Hrest IH]; cbn [months_add].
  - right. reflexivity.
  - case_bool_decide as Hk.
    + left. unfold firsts. cbn [flat_map snd].
      destruct Hg as (Hne & _). cbn [snd] in Hne. destruct its; [congruence|reflexivity].
    + unfold firsts in *. cbn [flat_map snd].
      destruct IH as [->| ->]; [left; reflexivity|right]. rewrite app_assoc. reflexivity.
Qed.

Lemma months_add_all key x months :
  concat (map snd (months_add key x months)) ≡ₚ concat (map snd months) ++ [x].
Proof.
  induction months as [|[k its] months IH]; cbn [months_add map snd concat].
  - reflexivity.
  - case_bool_decide as Hk; cbn [map snd concat].
    + rewrite <- !app_assoc. apply Permutation_app_head. apply Permutation_app_comm.
    + rewrite IH, app_assoc. reflexivity.
Qed.

Lemma months_add_ok met key x months :
  month_key_of (fst x) = Ok key ->
  months_ok met months -> months_ok (met ++ [x]) (months_add key x months).
Proof.
  intros Hx (Hnd & Hgroups & Hfirsts & Hall).
  split; [apply months_add_nodup, Hnd|].
  split; [apply months_add_groups; assumption|].
  split.
  - destruct (months_add_firsts met key x months Hgroups) as [-> | ->].
    + apply sublist_inserts_r, Hfirsts.
    + apply sublist_app; [exact Hfirsts|reflexivity].
  - rewrite months_add_all, Hall. reflexivity.
Qed.

Lemma group_by_month_ok items met months0 months :
  group_by_month items months0 = Ok months ->
  months_ok met months0 -> months_ok (met ++ map seen items) months.
Proof.
  revert met months0. induction items as [|[n [k info]] items IH]; intros met months0.
  - cbn [group_by_month map]. intros [= <-]. rewrite app_nil_r. auto.
  - cbn [group_by_month map].
    destruct (date_for_day_number n) as [d|?] eqn:Hd; cbn [rbind]; [|discriminate].
    intros Hloop Hok.
    change (seen (n, (k, info)) :: map seen items) with ([(n, info)] ++ map seen items).
    rewrite app_assoc. apply (IH _ _ Hloop).
    apply months_add_ok; [|exact Hok].
    unfold month_key_of. cbn [fst]. rewrite Hd. reflexivity.
Qed.

Local Open Scope Z_scope.

Definition by_day (a b : Z * pyval) : Prop := fst a <= fst b.

Lemma strongly_sorted_sublist {A} (R : A -> A -> Prop) (l1 l2 : list A) :
  l1 `sublist_of` l2 -> StronglySorted R l2 -> StronglySorted R l1.
Proof.
  induction 1 as [|x l1 l2 Hsub IH|x l1 l2 Hsub IH]; intros Hs.
  - constructor.
  - apply StronglySorted_inv in Hs as [Hs Hx]. constructor; [auto|].
    rewrite Forall_forall in Hx |- *. intros y Hy. apply Hx.
    exact (sublist_subseteq _ _ Hsub y Hy).
  - apply StronglySorted_inv in Hs as [Hs _]. auto.
Qed.

Lemma seen_sorted (keyed : list (Z * (pystr * pyval))) :
  StronglySorted by_day (map seen (sorted_by ascending keyed)).
Proof.
  pose proof (sorted_by_sorted ascending ascending_total ascending_trans keyed) as Hs.
  induction Hs as [|x l Hl IH Hx]; cbn [map]; constructor; [exact IH|].
  apply Forall_map. eapply Forall_impl; [exact Hx|].
  intros y. unfold precedes, ascending, by_day. cbn [seen fst]. lia.
Qed.



Section Listing.
Context `{Host}.

Lemma listing_months_spec (chapters : pyval) (months : list (pystr * list (Z * pyval))) :
  listing_months chapters = Ok months ->
  exists keyed,
    keyed_items chapters = Ok keyed
    /\ concat (map snd months) ≡ₚ map seen keyed
    /\ NoDup (map fst months)
    /\ Forall (fun g => snd g <> []
                        /\ Forall (fun it => month_key_of (fst it) = Ok (fst g)) (snd g)
                        /\ StronglySorted by_day (snd g)) months
    /\ StronglySorted by_day (firsts months).
Proof.
  unfold listing_months.
  destruct (keyed_items chapters) as [keyed|?]; cbn [rbind]; [|discriminate].
  intros Hloop. exists keyed. split; [reflexivity|].
  assert (Hstart : months_ok [] []).
  { split; [apply NoDup_nil_2|]. split; [constructor|]. split; reflexivity. }
  destruct (group_by_month_ok _ [] [] months Hloop Hstart) as (Hnd & Hgroups & Hfirsts & Hall).
  cbn [app] in *.
  pose proof (seen_sorted keyed) as Hsorted.
  split; [rewrite Hall, (sorted_by_perm ascending keyed); reflexivity|].
  split; [exact Hnd|].
  split; [|exact (strongly_sorted_sublist _ _ _ Hfirsts Hsorted)].
  eapply Forall_impl; [exact Hgroups|].
  intros g (Hne & Hmonth & Hsub). repeat split; [exact Hne|exact Hmonth|].
  exact (strongly_sorted_sublist _ _ _ Hsub Hsorted).
Qed.






End Listing.

(** Four records over two months, stored out of order. *)
Definition out_of_order : pyval :=
  PDict [(lit "chapters",
          PDict [(lit "40", index_record (lit "Forty") (lit "February 09, 2026")
                              (lit "040.html") [] (mkdate 2026 2 9));
                 (lit "2", index_record (lit "Two") (lit "January 02, 2026")
                             (lit "002.html") [] (mkdate 2026 1 2));
                 (lit "35", index_record (lit "Thirty-five") (lit "February 04, 2026")
                              (lit "035.html") [] (mkdate 2026 2 4));
                 (lit "1", index_record (lit "One") (lit "January 01, 2026")
                             (lit "001.html") [] (mkdate 2026 1 1))])].



End ListingTheory.

(** ** The small host *)

Module HostTheory.
Import Py Datetime PyVal Fs Publish ModelHost.

Lemma unflag_flag (b : bool) : unflag (flag b) = b.
Proof. destruct b; reflexivity. Qed.

Lemma many_encoded {A} (enc : A -> pystr) (dec : pystr -> option (A * pystr))
    (l : list A) (rest : pystr) :
  Forall (fun x => forall r, dec (enc x ++ r) = Some (x, r)) l ->
  many dec (length l) (concat (map enc l) ++ rest) = Some (l, rest).
Proof.
  induction 1 as [|x l Hx _ IH]; [reflexivity|].
  cbn [length many map concat]. rewrite <- app_assoc, Hx, IH. reflexivity.
Qed.

Lemma encode_part_le {A} (enc : A -> pystr) (l : list A) (x : A) :
  x ∈ l -> length (enc x) <= length (concat (map enc l)).
Proof.
  induction 1 as [x l|x y l _ IH]; cbn [map concat]; rewrite length_app; lia.
Qed.

Lemma decode_encode (fuel : nat) (v : pyval) (rest : pystr) :
  length (encode v) <= fuel -> decode fuel (encode v ++ rest) = Some (v, rest).
Proof.
  revert v rest. induction fuel as [|f IH]; intros v rest Hlen.
  - destruct v; cbn [encode length] in Hlen; lia.
  - destruct v as [|b|z|nz r|s|l|d]; cbn [encode app decode].
    + reflexivity.
    + rewrite unflag_flag. reflexivity.
    + rewrite unflag_flag. do 3 f_equal.
      destruct (Z.ltb_spec z 0); rewrite N2Z.inj_abs_N; lia.
    + rewrite unflag_flag, Nat2N.id, take_app_length, drop_app_length. reflexivity.
    + rewrite Nat2N.id, take_app_length, drop_app_length. reflexivity.
    + rewrite Nat2N.id, many_encoded; [reflexivity|].
      apply Forall_forall. intros x Hx r. apply IH.
      pose proof (encode_part_le encode l x Hx). cbn [encode length] in Hlen. lia.
    + rewrite Nat2N.id.
      rewrite (many_encoded
                 (fun kv => N.of_nat (length (fst kv)) :: fst kv ++ encode (snd kv)));
        [reflexivity|].
      apply Forall_forall. intros [k x] Hx r. cbn [fst snd app keyed].
      rewrite Nat2N.id, <- app_assoc, take_app_length, drop_app_length, IH; [reflexivity|].
      pose proof (encode_part_le
                    (fun kv => N.of_nat (length (fst kv)) :: fst kv ++ encode (snd kv))
                    d (k, x) Hx) as Hle.
      cbn [encode length fst snd] in Hlen, Hle. rewrite length_app in Hle. lia.
Qed.

(** The model reader inverts the model writer, also before a final newline. *)
Lemma model_loads_dumps (j : pyval) : model_loads (model_dumps j ++ nl) = Ok j.
Proof.
  unfold model_loads, model_dumps.
  rewrite decode_encode; [reflexivity|]. rewrite length_app. lia.
Qed.

End HostTheory.

(** ** Publishing *)

Module PublishTheory.
Import Py Datetime PyVal Fs Publish.
Local Open Scope Z_scope.

Section Run.
Context `{Host}.

(** What [publish] does before it writes: the chapter, its page and its
    index record. *)
Definition prepare (day_num : Z) : M (Chapter * pystr * pyval) :=
  manuscript_path <- find_manuscript_for_day day_num ;
  raw <- read_text manuscript_path ;
  parsed <- lift (parse_frontmatter raw) ;
  let '(fm, body_md) := parsed in
  title <- lift (derive_title fm body_md day_num) ;
  excerpt <- lift (derive_excerpt fm body_md) ;
  let body_html := markdown_to_html body_md in
  ch_date <- lift (date_for_day_number day_num) ;
  let date_formatted := strftime_long ch_date in
  let chapter := mkChapter day_num ch_date title excerpt raw body_html in
  html <- render_chapter_html chapter ;
  ret (chapter, html,
       index_record title date_formatted (snd (chapter_paths day_num)) excerpt ch_date).

(** What [publish] writes when it is not a dry run. *)
Definition commit (day_num : Z) (html : pystr) (record : pyval) : M unit :=
  _ <- mkdir CHAPTERS_DIR ;
  _ <- write_text (fst (chapter_paths day_num)) html ;
  index <- load_index ;
  index <- lift (merge_record index day_num record) ;
  _ <- save_index index ;
  _ <- rebuild_chapters_page index ;
  rebuild_rss index.

Lemma publish_split (day_num : Z) (dry_run : bool) (w : world) :
  publish day_num dry_run w
  = match prepare day_num w with
    | (w1, Ok (ch, html, record)) =>
        if dry_run then (w1, Ok ch)
        else match commit day_num html record w1 with
             | (w2, Ok _) => (w2, Ok ch)
             | (w2, Raise e) => (w2, Raise e)
             end
    | (w1, Raise e) => (w1, Raise e)
    end.
Proof.
  unfold publish, prepare, commit, bind.
  destruct (find_manuscript_for_day day_num w) as [w1 [path|e]]; [|reflexivity].
  destruct (read_text path w1) as [w2 [raw|e]]; [|reflexivity].
  unfold lift, chapter_paths, mkdir, ret. cbv beta iota zeta.
  destruct (parse_frontmatter raw) as [[fm body_md]|e]; [|reflexivity].
  cbv beta iota zeta.
  destruct (derive_title fm body_md day_num) as [title|e]; [|reflexivity].
  destruct (derive_excerpt fm body_md) as [excerpt|e]; [|reflexivity].
  destruct (date_for_day_number day_num) as [ch_date|e]; [|reflexivity].
  cbv beta iota zeta.
  match goal with
  | |- context [render_chapter_html ?c w2] =>
      destruct (render_chapter_html c w2) as [w3 [html|e]]; [|reflexivity]
  end.
  cbn [fst snd].
  destruct dry_run; [reflexivity|].
  repeat match goal with
         | |- context [match ?c with (_, _) => _ end] =>
             lazymatch c with
             | (_, _) => fail
             | _ => destruct c as [? [?|?]]
             end
         | |- context [match ?c with Ok _ => _ | Raise _ => _ end] =>
             lazymatch c with
             | Ok _ => fail
             | Raise _ => fail
             | _ => destruct c
             end
         end; reflexivity.
Qed.

(** *** Commands that only read *)

Definition reads_only {A} (c : M A) : Prop := forall w, fst (c w) = w.

Lemma reads_only_ret {A} (a : A) : reads_only (ret a).
Proof. intros w. reflexivity. Qed.

Lemma reads_only_raise {A} (e : exn) : reads_only (@raise A e).
Proof. intros w. reflexivity. Qed.

Lemma reads_only_lift {A} (r : result A) : reads_only (lift r).
Proof. intros w. reflexivity. Qed.

Lemma reads_only_exists (p : pystr) : reads_only (exists_ p).
Proof. intros w. reflexivity. Qed.

Lemma reads_only_read_text (p : pystr) : reads_only (read_text p).
Proof. intros w. unfold read_text. destruct (files w !! p); reflexivity. Qed.

Lemma reads_only_mkdir (p : pystr) : reads_only (mkdir p).
Proof.
  intros w. unfold mkdir. destruct (files w !! p); [reflexivity|].
  destruct (denied w !! p); reflexivity.
Qed.

Lemma reads_only_bind {A B} (c : M A) (k : A -> M B) :
  reads_only c -> (forall a, reads_only (k a)) -> reads_only (bind c k).
Proof.
  intros Hc Hk w. unfold bind. specialize (Hc w).
  destruct (c w) as [w' [a|e]]; cbn [fst] in Hc; subst w'; [apply Hk|reflexivity].
Qed.

Lemma reads_only_find (day_num : Z) : reads_only (find_manuscript_for_day day_num).
Proof.
  unfold find_manuscript_for_day.
  apply reads_only_bind; [apply reads_only_lift|]. intros d.
  apply reads_only_bind.
  - intros w. rewrite SourceTheory.first_existing_find. reflexivity.
  - intros [p|]; [apply reads_only_ret|apply reads_only_raise].
Qed.

Lemma reads_only_render (ch : Chapter) : reads_only (render_chapter_html ch).
Proof.
  unfold render_chapter_html, load_template.
  apply reads_only_bind; [apply reads_only_read_text|]. intros t. apply reads_only_lift.
Qed.

Lemma reads_only_prepare (day_num : Z) : reads_only (prepare day_num).
Proof.
  unfold prepare.
  apply reads_only_bind; [apply reads_only_find|]. intros path.
  apply reads_only_bind; [apply reads_only_read_text|]. intros raw.
  apply reads_only_bind; [apply reads_only_lift|]. intros [fm body_md].
  apply reads_only_bind; [apply reads_only_lift|]. intros title.
  apply reads_only_bind; [apply reads_only_lift|]. intros excerpt.
  apply reads_only_bind; [apply reads_only_lift|]. intros ch_date.
  apply reads_only_bind; [apply reads_only_render|]. intros html.
  apply reads_only_ret.
Qed.

Lemma reads_only_load_index : reads_only load_index.
Proof.
  unfold load_index.
  apply reads_only_bind; [apply reads_only_exists|]. intros [|].
  - apply reads_only_bind; [apply reads_only_read_text|]. intros t. apply reads_only_lift.
  - apply reads_only_ret.
Qed.

(** *** What a run reads *)

(** The manuscripts and the templates. *)
Definition is_input (p : pystr) : bool :=
  startswith p (lit "manuscript/") || startswith p (lit "templates/").

(** Two states of the project with the same manuscripts and templates. *)
Definition same_inputs (w1 w2 : world) : Prop :=
  forall p, is_input p = true -> files w2 !! p = files w1 !! p.

(** A command whose result is settled by the manuscripts and templates. *)
Definition reads_inputs {A} (c : M A) : Prop :=
  forall w1 w2, same_inputs w1 w2 -> snd (c w2) = snd (c w1).

Lemma reads_inputs_lift {A} (r : result A) : reads_inputs (lift r).
Proof. intros w1 w2 _. reflexivity. Qed.

Lemma reads_inputs_ret {A} (a : A) : reads_inputs (ret a).
Proof. intros w1 w2 _. reflexivity. Qed.

Lemma reads_inputs_read_text (p : pystr) : is_input p = true -> reads_inputs (read_text p).
Proof.
  intros Hp w1 w2 Hsame. unfold read_text. rewrite (Hsame p Hp).
  destruct (files w1 !! p); reflexivity.
Qed.

Lemma reads_inputs_bind {A B} (c : M A) (k : A -> M B) :
  reads_only c -> reads_inputs c ->
  (forall a w, snd (c w) = Ok a -> reads_inputs (k a)) ->
  reads_inputs (bind c k).
Proof.
  intros Hro Hc Hk w1 w2 Hsame. unfold bind.
  pose proof (Hro w1) as H1. pose proof (Hro w2) as H2. pose proof (Hc w1 w2 Hsame) as Hr.
  destruct (c w1) as [w1' [a1|e1]] eqn:E1; destruct (c w2) as [w2' [a2|e2]] eqn:E2;
    cbn [fst snd] in *; subst; try discriminate.
  - injection Hr as ->. apply (Hk a1 w1); [rewrite E1; reflexivity|exact Hsame].
  - injection Hr as ->. reflexivity.
Qed.

Lemma candidate_is_input (d : date) (day_num : Z) (p : pystr) :
  In p (candidates d day_num) -> is_input p = true.
Proof.
  unfold candidates. cbn [In]. intros [<-|[<-|[<-|[]]]]; reflexivity.
Qed.

Lemma find_manuscript_for_day_eq (day_num : Z) (w : world) :
  find_manuscript_for_day day_num w
  = (w, match date_for_day_number day_num with
        | Ok d =>
            match List.find (SourceTheory.present w) (candidates d day_num) with
            | Some p => Ok p
            | None => Raise (FileNotFoundError
                               (not_found_message day_num (candidates d day_num)))
            end
        | Raise e => Raise e
        end).
Proof.
  unfold find_manuscript_for_day, bind, lift.
  destruct (date_for_day_number day_num) as [d|e]; [|reflexivity].
  rewrite SourceTheory.first_existing_find.
  destruct (List.find _ _); reflexivity.
Qed.

Lemma found_is_input (day_num : Z) (w : world) (p : pystr) :
  snd (find_manuscript_for_day day_num w) = Ok p -> is_input p = true.
Proof.
  rewrite find_manuscript_for_day_eq. cbn [snd].
  destruct (date_for_day_number day_num) as [d|e]; [|discriminate].
  destruct (List.find _ _) as [q|] eqn:Hfind; [|discriminate].
  intros [= <-]. apply find_some in Hfind as [Hin _].
  exact (candidate_is_input d day_num q Hin).
Qed.

Lemma reads_inputs_find (day_num : Z) : reads_inputs (find_manuscript_for_day day_num).
Proof.
  intros w1 w2 Hsame. rewrite !find_manuscript_for_day_eq. cbn [snd].
  destruct (date_for_day_number day_num) as [d|e]; [|reflexivity].
  assert (Hfind : List.find (SourceTheory.present w2) (candidates d day_num)
                  = List.find (SourceTheory.present w1) (candidates d day_num)).
  { pose proof (candidate_is_input d day_num) as Hin.
    induction (candidates d day_num) as [|q l IH]; [reflexivity|].
    cbn [List.find]. unfold SourceTheory.present at 1 3.
    rewrite (Hsame q (Hin q (or_introl eq_refl))).
    rewrite IH; [reflexivity|]. intros p Hp. apply Hin. right. exact Hp. }
  rewrite Hfind. reflexivity.
Qed.

Lemma reads_inputs_render (ch : Chapter) : reads_inputs (render_chapter_html ch).
Proof.
  unfold render_chapter_html, load_template.
  apply reads_inputs_bind.
  - apply reads_only_read_text.
  - apply reads_inputs_read_text. reflexivity.
  - intros t w _. apply reads_inputs_lift.
Qed.

Lemma reads_inputs_prepare (day_num : Z) : reads_inputs (prepare day_num).
Proof.
  unfold prepare.
  apply reads_inputs_bind; [apply reads_only_find|apply reads_inputs_find|].
  intros path w Hpath.
  apply reads_inputs_bind;
    [apply reads_only_read_text
    |apply reads_inputs_read_text, (found_is_input day_num w), Hpath|].
  intros raw _ _.
  apply reads_inputs_bind; [apply reads_only_lift|apply reads_inputs_lift|].
  intros [fm body_md] _ _.
  apply reads_inputs_bind; [apply reads_only_lift|apply reads_inputs_lift|].
  intros title _ _.
  apply reads_inputs_bind; [apply reads_only_lift|apply reads_inputs_lift|].
  intros excerpt _ _.
  apply reads_inputs_bind; [apply reads_only_lift|apply reads_inputs_lift|].
  intros ch_date _ _.
  apply reads_inputs_bind; [apply reads_only_render|apply reads_inputs_render|].
  intros html _ _. apply reads_inputs_ret.
Qed.

(** The preparation run again on a project with the same inputs. *)
Lemma prepare_again (day_num : Z) (w1 w2 : world) :
  same_inputs w1 w2 -> prepare day_num w2 = (w2, snd (prepare day_num w1)).
Proof.
  intros Hsame.
  pose proof (reads_only_prepare day_num w2) as Hw.
  pose proof (reads_inputs_prepare day_num w1 w2 Hsame) as Hr.
  destruct (prepare day_num w2) as [w r]. cbn [fst snd] in *. congruence.
Qed.

(** *** Dictionaries *)

Lemma dict_get_set {V} (k : pystr) (v : V) (d : list (pystr * V)) :
  dict_get k (dict_set k v d) = Some v.
Proof.
  induction d as [|[k' v'] d IH]; cbn [dict_set dict_get].
  - rewrite bool_decide_eq_true_2; reflexivity.
  - case_bool_decide as Hk; cbn [dict_get].
    + rewrite bool_decide_eq_true_2; [reflexivity|exact Hk].
    + rewrite bool_decide_eq_false_2; [exact IH|exact Hk].
Qed.

Lemma dict_set_same {V} (k : pystr) (v : V) (d : list (pystr * V)) :
  dict_get k d = Some v -> dict_set k v d = d.
Proof.
  induction d as [|[k' v'] d IH]; cbn [dict_set dict_get]; [discriminate|].
  case_bool_decide as Hk.
  - intros [= ->]. reflexivity.
  - intros Hget. rewrite (IH Hget). reflexivity.
Qed.

(** Storing the record of a day twice is storing it once. *)
Lemma merge_record_again (index merged record : pyval) (day_num : Z) :
  merge_record index day_num record = Ok merged ->
  merge_record merged day_num record = Ok merged.
Proof.
  destruct index as [| | | | | |d]; cbn [merge_record]; try discriminate.
  set (d' := dict_setdefault (lit "chapters") (PDict []) d).
  destruct (dict_get (lit "chapters") d') as [[| | | | | |chapters]|]; try discriminate.
  intros [= <-]. cbn [merge_record].
  unfold dict_setdefault. rewrite !dict_get_set.
  rewrite (dict_set_same (str_of_int day_num) record); [|apply dict_get_set].
  rewrite (dict_set_same (lit "chapters")); [reflexivity|apply dict_get_set].
Qed.

Lemma dict_get_set_ne {V} (k k' : pystr) (v : V) (d : list (pystr * V)) :
  k' <> k -> dict_get k' (dict_set k v d) = dict_get k' d.
Proof.
  intros Hne. induction d as [|[k0 v0] d IH]; cbn [dict_set dict_get].
  - rewrite bool_decide_eq_false_2; [reflexivity|congruence].
  - case_bool_decide as Hk; cbn [dict_get].
    + subst k0. rewrite !bool_decide_eq_false_2 by congruence. reflexivity.
    + case_bool_decide; [reflexivity|exact IH].
Qed.

(** The merged index holds the record under the day, and under every other
    key what the index held before. *)
Lemma merge_record_stores (index merged record : pyval) (day_num : Z) :
  merge_record index day_num record = Ok merged ->
  exists chapters,
    py_subscript merged (lit "chapters") = Ok (PDict chapters)
    /\ dict_get (str_of_int day_num) chapters = Some record
    /\ forall old k,
         py_subscript index (lit "chapters") = Ok (PDict old) ->
         k <> str_of_int day_num ->
         dict_get k chapters = dict_get k old.
Proof.
  destruct index as [| | | | | |d]; cbn [merge_record]; try discriminate.
  unfold dict_setdefault.
  destruct (dict_get (lit "chapters") d) as [v|] eqn:Hget.
  - rewrite Hget. destruct v as [| | | | | |chapters]; try discriminate.
    intros [= <-]. exists (dict_set (str_of_int day_num) record chapters).
    cbn [py_subscript]. rewrite dict_get_set, Hget.
    split; [reflexivity|]. split; [apply dict_get_set|].
    intros old k [= <-] Hk. apply dict_get_set_ne, Hk.
  - rewrite dict_get_set. intros [= <-].
    exists (dict_set (str_of_int day_num) record []).
    cbn [py_subscript]. rewrite dict_get_set, Hget.
    split; [reflexivity|]. split; [apply dict_get_set|]. discriminate.
Qed.

(** *** The paths that are written *)

Lemma chapter_path_not_input (day_num : Z) : is_input (fst (chapter_paths day_num)) = false.
Proof. reflexivity. Qed.

Lemma chapter_path_not_index (day_num : Z) : fst (chapter_paths day_num) <> CHAPTERS_JSON.
Proof. intros Heq. apply (f_equal (take 9)) in Heq. vm_compute in Heq. discriminate. Qed.

Lemma chapter_path_not_listing (day_num : Z) : fst (chapter_paths day_num) <> CHAPTERS_HTML.
Proof. intros Heq. apply (f_equal (take 9)) in Heq. vm_compute in Heq. discriminate. Qed.

Lemma chapter_path_not_feed (day_num : Z) : fst (chapter_paths day_num) <> RSS_XML.
Proof. intros Heq. apply (f_equal (take 1)) in Heq. vm_compute in Heq. discriminate. Qed.

Lemma index_not_listing : CHAPTERS_JSON <> CHAPTERS_HTML.
Proof. intros Heq. vm_compute in Heq. discriminate. Qed.

Lemma index_not_feed : CHAPTERS_JSON <> RSS_XML.
Proof. intros Heq. vm_compute in Heq. discriminate. Qed.

Lemma listing_not_feed : CHAPTERS_HTML <> RSS_XML.
Proof. intros Heq. vm_compute in Heq. discriminate. Qed.

(** *** Commands that leave a file alone *)

Definition untouched {A} (q : pystr) (c : M A) : Prop :=
  forall w, files (fst (c w)) !! q = files w !! q.

Lemma untouched_reads_only {A} (q : pystr) (c : M A) : reads_only c -> untouched q c.
Proof. intros Hc w. rewrite Hc. reflexivity. Qed.

Lemma untouched_bind {A B} (q : pystr) (c : M A) (k : A -> M B) :
  untouched q c -> (forall a, untouched q (k a)) -> untouched q (bind c k).
Proof.
  intros Hc Hk w. unfold bind. specialize (Hc w).
  destruct (c w) as [w' [a|e]]; cbn [fst] in *; [|exact Hc].
  rewrite Hk. exact Hc.
Qed.

Lemma encoded_complete (enc : N -> bool) (pieces : list pystr) (text : pystr) :
  encoded enc pieces = (text, true) -> text = concat pieces.
Proof.
  revert text. induction pieces as [|piece rest IH]; intros text; cbn [encoded concat].
  - intros [= <-]. reflexivity.
  - destruct (forallb enc piece); [|discriminate].
    destruct (encoded enc rest) as [t c]. intros [= <- ->].
    rewrite (IH t eq_refl). reflexivity.
Qed.

Lemma untouched_write_pieces (enc : N -> bool) (q p : pystr) (pieces : list pystr) :
  q <> p -> untouched q (write_pieces enc p pieces).
Proof.
  intros Hq w. unfold write_pieces.
  destruct (denied w !! p); [reflexivity|].
  destruct (encoded enc pieces) as [text complete].
  destruct (fault w) as [n|]; [destruct (Nat.leb _ _)|]; cbn [fst files];
    apply lookup_insert_ne; congruence.
Qed.

Lemma write_pieces_done (enc : N -> bool) (p : pystr) (pieces : list pystr) (w w' : world) :
  write_pieces enc p pieces w = (w', Ok tt) -> files w' !! p = Some (concat pieces).
Proof.
  unfold write_pieces. destruct (denied w !! p); [discriminate|].
  destruct (encoded enc pieces) as [text [|]] eqn:Henc.
  - apply encoded_complete in Henc. subst text.
    destruct (fault w) as [n|]; [destruct (Nat.leb _ _)|]; intros [= <-];
      apply lookup_insert_eq.
  - destruct (fault w) as [n|]; [destruct (Nat.leb _ _)|]; discriminate.
Qed.

Lemma untouched_write_text (q p data : pystr) : q <> p -> untouched q (write_text p data).
Proof. apply untouched_write_pieces. Qed.

Lemma write_text_done (p data : pystr) (w w' : world) :
  write_text p data w = (w', Ok tt) -> files w' !! p = Some data.
Proof.
  intros Hw. apply write_pieces_done in Hw. cbn [concat] in Hw.
  rewrite app_nil_r in Hw. exact Hw.
Qed.

(** The outcomes of the write of one piece, one by one. *)
Lemma write_piece_eq (enc : N -> bool) (p data : pystr) (w : world) :
  write_pieces enc p [data] w
  = match denied w !! p with
    | Some e => (w, Raise e)
    | None =>
        if forallb enc data
        then match fault w with
             | None => (mkworld (<[p := data]> (files w)) None (denied w), Ok tt)
             | Some q =>
                 if Nat.leb (length data) q
                 then (mkworld (<[p := data]> (files w)) (Some (q - length data)%nat)
                         (denied w), Ok tt)
                 else (mkworld (<[p := take q data]> (files w)) (Some 0%nat) (denied w),
                       Raise OSError)
             end
        else (mkworld (<[p := []]> (files w)) (fault w) (denied w),
              Raise UnicodeEncodeError)
    end.
Proof.
  unfold write_pieces. destruct (denied w !! p); [reflexivity|].
  cbn [encoded]. destruct (forallb enc data); cbv zeta; rewrite ?app_nil_r.
  - reflexivity.
  - destruct (fault w) as [q|]; [|reflexivity].
    cbn [length Nat.leb]. rewrite Nat.sub_0_r. reflexivity.
Qed.

Lemma write_text_eq (p data : pystr) (w : world) :
  write_text p data w
  = match denied w !! p with
    | Some e => (w, Raise e)
    | None =>
        if forallb utf8 data
        then match fault w with
             | None => (mkworld (<[p := data]> (files w)) None (denied w), Ok tt)
             | Some q =>
                 if Nat.leb (length data) q
                 then (mkworld (<[p := data]> (files w)) (Some (q - length data)%nat)
                         (denied w), Ok tt)
                 else (mkworld (<[p := take q data]> (files w)) (Some 0%nat) (denied w),
                       Raise OSError)
             end
        else (mkworld (<[p := []]> (files w)) (fault w) (denied w),
              Raise UnicodeEncodeError)
    end.
Proof. apply write_piece_eq. Qed.



Lemma untouched_save_index (q : pystr) (index : pyval) :
  q <> CHAPTERS_JSON -> untouched q (save_index index).
Proof. intros Hq. apply untouched_write_text, Hq. Qed.

Lemma untouched_rebuild_chapters_page (q : pystr) (index : pyval) :
  q <> CHAPTERS_HTML -> untouched q (rebuild_chapters_page index).
Proof.
  intros Hq. unfold rebuild_chapters_page. apply untouched_bind.
  - apply untouched_reads_only, reads_only_lift.
  - intros html. apply untouched_write_text, Hq.
Qed.

Lemma untouched_rebuild_rss (q : pystr) (index : pyval) :
  q <> RSS_XML -> untouched q (rebuild_rss index).
Proof.
  intros Hq. unfold rebuild_rss. apply untouched_bind.
  - apply untouched_reads_only, reads_only_lift.
  - intros rss. apply untouched_write_text, Hq.
Qed.

(** The listing and the feed, rebuilt from the index. *)
Definition project (index : pyval) : M unit :=
  _ <- rebuild_chapters_page index ;
  rebuild_rss index.

Lemma untouched_project (q : pystr) (index : pyval) :
  q <> CHAPTERS_HTML -> q <> RSS_XML -> untouched q (project index).
Proof.
  intros Hh Hr. unfold project.
  apply untouched_bind; [apply untouched_rebuild_chapters_page, Hh|]. intros _.
  apply untouched_rebuild_rss, Hr.
Qed.

(** What follows the writing of the chapter page. *)
Definition reconcile (day_num : Z) (record : pyval) : M unit :=
  index <- load_index ;
  index <- lift (merge_record index day_num record) ;
  _ <- save_index index ;
  _ <- rebuild_chapters_page index ;
  rebuild_rss index.

Lemma untouched_reconcile (q : pystr) (day_num : Z) (record : pyval) :
  q <> CHAPTERS_JSON -> q <> CHAPTERS_HTML -> q <> RSS_XML ->
  untouched q (reconcile day_num record).
Proof.
  intros Hj Hh Hr. unfold reconcile.
  apply untouched_bind; [apply untouched_reads_only, reads_only_load_index|]. intros index0.
  apply untouched_bind; [apply untouched_reads_only, reads_only_lift|]. intros index.
  apply untouched_bind; [apply untouched_save_index, Hj|]. intros _.
  apply untouched_bind; [apply untouched_rebuild_chapters_page, Hh|]. intros _.
  apply untouched_rebuild_rss, Hr.
Qed.

Lemma commit_eq (day_num : Z) (html : pystr) (record : pyval) (w : world) :
  commit day_num html record w
  = match mkdir CHAPTERS_DIR w with
    | (w0, Ok _) =>
        match write_text (fst (chapter_paths day_num)) html w0 with
        | (w1, Ok _) => reconcile day_num record w1
        | (w1, Raise e) => (w1, Raise e)
        end
    | (w0, Raise e) => (w0, Raise e)
    end.
Proof. reflexivity. Qed.

Lemma untouched_commit (q : pystr) (day_num : Z) (html : pystr) (record : pyval) :
  q <> fst (chapter_paths day_num) -> q <> CHAPTERS_JSON -> q <> CHAPTERS_HTML ->
  q <> RSS_XML -> untouched q (commit day_num html record).
Proof.
  intros Hc Hj Hh Hr. unfold commit.
  apply untouched_bind; [apply untouched_reads_only, reads_only_mkdir|]. intros _.
  apply untouched_bind; [apply untouched_write_text, Hc|]. intros _.
  exact (untouched_reconcile q day_num record Hj Hh Hr).
Qed.

Lemma input_not_written (q : pystr) :
  is_input q = true -> q <> CHAPTERS_JSON /\ q <> CHAPTERS_HTML /\ q <> RSS_XML.
Proof. intros Hq. repeat split; intros ->; vm_compute in Hq; discriminate. Qed.

Lemma commit_same_inputs (day_num : Z) (html : pystr) (record : pyval) (w : world) :
  same_inputs w (fst (commit day_num html record w)).
Proof.
  intros q Hq.
  destruct (input_not_written q Hq) as (Hj & Hh & Hr).
  apply untouched_commit; [|exact Hj|exact Hh|exact Hr].
  intros ->. rewrite chapter_path_not_input in Hq. discriminate.
Qed.

(** What [commit] has done when it returns. *)
Lemma commit_ok (day_num : Z) (html : pystr) (record : pyval) (w w' : world) :
  commit day_num html record w = (w', Ok tt) ->
  mkdir CHAPTERS_DIR w = (w, Ok tt)
  /\ exists w1,
       write_text (fst (chapter_paths day_num)) html w = (w1, Ok tt)
       /\ reconcile day_num record w1 = (w', Ok tt).
Proof.
  rewrite commit_eq. pose proof (reads_only_mkdir CHAPTERS_DIR w) as Hm.
  destruct (mkdir CHAPTERS_DIR w) as [w0 [[]|e]]; [|discriminate].
  cbn [fst] in Hm. subst w0.
  destruct (write_text _ html w) as [w1 [[]|e]]; [|discriminate].
  intros Hrec. split; [reflexivity|]. exists w1. split; [reflexivity|exact Hrec].
Qed.

Lemma commit_chapter_written (day_num : Z) (html : pystr) (record : pyval) (w w' : world) :
  commit day_num html record w = (w', Ok tt) ->
  files w' !! fst (chapter_paths day_num) = Some html.
Proof.
  intros Hrun. destruct (commit_ok _ _ _ _ _ Hrun) as (_ & w1 & Hw & Hrec).
  pose proof (untouched_reconcile _ day_num record (chapter_path_not_index day_num)
                (chapter_path_not_listing day_num) (chapter_path_not_feed day_num) w1) as Hkeep.
  rewrite Hrec in Hkeep. cbn [fst] in Hkeep. rewrite Hkeep.
  exact (write_text_done _ _ _ _ Hw).
Qed.

Lemma load_index_eq (w : world) :
  load_index w
  = (w, match files w !! CHAPTERS_JSON with
        | Some text => json_loads text
        | None => Ok (PDict [(lit "chapters", PDict [])])
        end).
Proof.
  unfold load_index, bind, exists_, read_text, lift, ret.
  destruct (files w !! CHAPTERS_JSON) as [text|] eqn:Hfile.
  - rewrite bool_decide_eq_true_2 by eauto. rewrite Hfile. reflexivity.
  - rewrite bool_decide_eq_false_2; [reflexivity|]. intros [? ?]. discriminate.
Qed.

(** What [reconcile] has done when it returns. *)
Lemma reconcile_ok (day_num : Z) (record : pyval) (w w' : world) :
  reconcile day_num record w = (w', Ok tt) ->
  exists loaded index page rss,
    snd (load_index w) = Ok loaded
    /\ merge_record loaded day_num record = Ok index
    /\ chapters_page index = Ok page
    /\ rss_text index = Ok rss
    /\ files w' !! CHAPTERS_JSON = Some (json_dumps index ++ nl)
    /\ files w' !! CHAPTERS_HTML = Some (page ++ nl)
    /\ files w' !! RSS_XML = Some rss.
Proof.
  unfold reconcile, bind. rewrite load_index_eq. cbn [snd].
  destruct (match files w !! CHAPTERS_JSON with Some _ => _ | None => _ end) as [loaded|?];
    [|discriminate].
  unfold lift at 1. destruct (merge_record loaded day_num record) as [index|?] eqn:Hmerge;
    [|discriminate].
  destruct (save_index index w) as [w1 [[]|?]] eqn:Hsave; [|discriminate].
  unfold rebuild_chapters_page, bind, lift.
  destruct (chapters_page index) as [page|?] eqn:Hpg; [|discriminate].
  destruct (write_text CHAPTERS_HTML (page ++ nl) w1) as [w2 [[]|?]] eqn:Hpage; [|discriminate].
  unfold rebuild_rss, bind, lift.
  destruct (rss_text index) as [rss|?] eqn:Hfeed; [|discriminate].
  intros Hrss. exists loaded, index, page, rss.
  split; [reflexivity|]. split; [exact Hmerge|]. split; [exact Hpg|]. split; [exact Hfeed|].
  pose proof (write_text_done _ _ _ _ Hsave) as Hj.
  pose proof (write_text_done _ _ _ _ Hpage) as Hh.
  pose proof (write_text_done _ _ _ _ Hrss) as Hr.
  pose proof (untouched_write_text CHAPTERS_JSON CHAPTERS_HTML (page ++ nl)
                index_not_listing w1) as Hj1.
  rewrite Hpage in Hj1. cbn [fst] in Hj1.
  pose proof (untouched_write_text CHAPTERS_JSON RSS_XML rss index_not_feed w2) as Hj2.
  rewrite Hrss in Hj2. cbn [fst] in Hj2.
  pose proof (untouched_write_text CHAPTERS_HTML RSS_XML rss listing_not_feed w2) as Hh2.
  rewrite Hrss in Hh2. cbn [fst] in Hh2.
  split; [rewrite Hj2, Hj1; exact Hj|]. split; [rewrite Hh2; exact Hh|exact Hr].
Qed.

(** *** A storage that does not fail *)

(** A command that leaves the rights as they are, and a sound storage sound. *)
Definition calm {A} (c : M A) : Prop :=
  forall w, denied (fst (c w)) = denied w /\ (fault w = None -> fault (fst (c w)) = None).

Lemma calm_reads_only {A} (c : M A) : reads_only c -> calm c.
Proof. intros Hc w. rewrite Hc. auto. Qed.

Lemma calm_bind {A B} (c : M A) (k : A -> M B) :
  calm c -> (forall a, calm (k a)) -> calm (bind c k).
Proof.
  intros Hc Hk w. unfold bind. destruct (Hc w) as [Hd Hf].
  destruct (c w) as [w' [a|e]]; cbn [fst] in *; [|auto].
  destruct (Hk a w') as [Hd' Hf']. split; [congruence|auto].
Qed.

Lemma calm_write_text (p data : pystr) : calm (write_text p data).
Proof.
  intros w. rewrite write_text_eq.
  destruct (denied w !! p); [auto|].
  destruct (forallb utf8 data); [|auto].
  destruct (fault w) as [q|]; [destruct (Nat.leb _ _)|]; cbn [fst denied fault];
    split; [reflexivity|discriminate|reflexivity|discriminate|reflexivity|reflexivity].
Qed.

Lemma calm_rebuild_rss (index : pyval) : calm (rebuild_rss index).
Proof.
  unfold rebuild_rss. apply calm_bind; [apply calm_reads_only, reads_only_lift|].
  intros rss. apply calm_write_text.
Qed.

Lemma calm_project (index : pyval) : calm (project index).
Proof.
  unfold project, rebuild_chapters_page.
  apply calm_bind; [|intros _; apply calm_rebuild_rss].
  apply calm_bind; [apply calm_reads_only, reads_only_lift|].
  intros html. apply calm_write_text.
Qed.

Lemma calm_reconcile (day_num : Z) (record : pyval) : calm (reconcile day_num record).
Proof.
  unfold reconcile.
  apply calm_bind; [apply calm_reads_only, reads_only_load_index|]. intros loaded.
  apply calm_bind; [apply calm_reads_only, reads_only_lift|]. intros index.
  apply calm_bind; [apply calm_write_text|]. intros _.
  exact (calm_project index).
Qed.

(** A write that did not stop at the encoding, seen from a later state of
    the project in which the file is as the write left it: there the write
    changes nothing, and ends as it ended. *)
Lemma write_text_again (p data : pystr) (w w' : world) (r : result unit) :
  fault w = None -> write_text p data w = (w', r) -> r <> Raise UnicodeEncodeError ->
  forall w2,
    fault w2 = None -> denied w2 = denied w -> files w2 !! p = files w' !! p ->
    write_text p data w2 = (w2, r).
Proof.
  intros Hf Hw Hr w2 Hf2 Hd2 Hp. revert Hw. rewrite !write_text_eq, Hd2.
  destruct (denied w !! p) as [e|]; [intros [= <- <-]; reflexivity|].
  destruct (forallb utf8 data); [|intros [= _ <-]; congruence].
  rewrite Hf, Hf2. intros [= <- <-]. cbn [files] in Hp.
  rewrite lookup_insert_eq in Hp. rewrite (insert_id _ _ _ Hp).
  destruct w2 as [fs flt dn]. cbn [fault denied files] in *. subst. reflexivity.
Qed.

(** A write that raised something else than the encoding error changed
    nothing at all. *)
Lemma write_text_refused (p data : pystr) (w w' : world) (e : exn) :
  fault w = None -> write_text p data w = (w', Raise e) -> e <> UnicodeEncodeError ->
  w' = w.
Proof.
  intros Hf. rewrite write_text_eq.
  destruct (denied w !! p); [intros [= <- _]; reflexivity|].
  destruct (forallb utf8 data); [rewrite Hf; discriminate|].
  intros [= _ <-] He. congruence.
Qed.

Lemma rebuild_rss_again (index : pyval) (w w' : world) (r : result unit) :
  fault w = None -> rebuild_rss index w = (w', r) -> r <> Raise UnicodeEncodeError ->
  rebuild_rss index w' = (w', r).
Proof.
  intros Hf Hrun Hr.
  destruct (calm_rebuild_rss index w) as [Hd Hf']. rewrite Hrun in Hd, Hf'. cbn [fst] in *.
  revert Hrun. unfold rebuild_rss, bind, lift.
  destruct (rss_text index) as [rss|e]; [|intros [= <- <-]; reflexivity].
  intros Hw. exact (write_text_again _ _ _ _ _ Hf Hw Hr w' (Hf' Hf) Hd eq_refl).
Qed.

Lemma project_again (index : pyval) (w w' : world) (r : result unit) :
  fault w = None -> project index w = (w', r) -> r <> Raise UnicodeEncodeError ->
  project index w' = (w', r).
Proof.
  intros Hf Hrun Hr. pose proof Hrun as Hrun0.
  destruct (calm_project index w) as [Hd Hf']. rewrite Hrun in Hd, Hf'. cbn [fst] in *.
  revert Hrun. unfold project, rebuild_chapters_page, bind, lift.
  destruct (chapters_page index) as [page|e]; [|intros [= <- <-]; reflexivity].
  destruct (write_text CHAPTERS_HTML (page ++ nl) w) as [w1 [[]|e]] eqn:Hw.
  - intros Hrss.
    destruct (calm_write_text CHAPTERS_HTML (page ++ nl) w) as [Hd1 Hf1].
    rewrite Hw in Hd1, Hf1. cbn [fst] in *.
    pose proof (untouched_rebuild_rss CHAPTERS_HTML index listing_not_feed w1) as Hkeep.
    rewrite Hrss in Hkeep. cbn [fst] in Hkeep.
    rewrite (write_text_again _ _ _ _ _ Hf Hw ltac:(discriminate) w' (Hf' Hf) Hd Hkeep).
    exact (rebuild_rss_again index w1 w' r (Hf1 Hf) Hrss Hr).
  - intros [= <- <-].
    assert (He : e <> UnicodeEncodeError) by congruence.
    pose proof (write_text_refused _ _ _ _ _ Hf Hw He) as Heq. subst w1.
    rewrite Hw. reflexivity.
Qed.

(** [json.loads] reads back what [json.dumps] wrote, final newline included. *)
Definition json_round_trip : Prop := forall j, json_loads (json_dumps j ++ nl) = Ok j.

Lemma reconcile_again (day_num : Z) (record : pyval) (w w' : world) (r : result unit) :
  json_round_trip -> fault w = None ->
  reconcile day_num record w = (w', r) -> r <> Raise UnicodeEncodeError ->
  reconcile day_num record w' = (w', r).
Proof.
  intros Hlaw Hf Hrun Hr. pose proof Hrun as Hrun0.
  destruct (calm_reconcile day_num record w) as [Hd Hf']. rewrite Hrun in Hd, Hf'.
  cbn [fst] in *.
  revert Hrun. unfold reconcile at 1. unfold bind. rewrite load_index_eq.
  destruct (match files w !! CHAPTERS_JSON with Some _ => _ | None => _ end) as [loaded|e];
    [|intros [= <- <-]; exact Hrun0].
  unfold lift at 1.
  destruct (merge_record loaded day_num record) as [index|e] eqn:Hmerge;
    [|intros [= <- <-]; exact Hrun0].
  unfold save_index at 1.
  destruct (write_text CHAPTERS_JSON (json_dumps index ++ nl) w) as [w1 [[]|e]] eqn:Hw.
  - fold (bind (rebuild_chapters_page index) (fun _ => rebuild_rss index) w1).
    fold (project index). intros Hproj.
    destruct (calm_write_text CHAPTERS_JSON (json_dumps index ++ nl) w) as [Hd1 Hf1].
    rewrite Hw in Hd1, Hf1. cbn [fst] in *.
    pose proof (untouched_project CHAPTERS_JSON index index_not_listing index_not_feed w1)
      as Hkeep.
    rewrite Hproj in Hkeep. cbn [fst] in Hkeep.
    unfold reconcile, bind. rewrite load_index_eq.
    rewrite Hkeep, (write_text_done _ _ _ _ Hw), Hlaw.
    unfold lift. rewrite (merge_record_again _ _ _ _ Hmerge).
    unfold save_index.
    rewrite (write_text_again _ _ _ _ _ Hf Hw ltac:(discriminate) w' (Hf' Hf) Hd Hkeep).
    exact (project_again index w1 w' r (Hf1 Hf) Hproj Hr).
  - intros [= <- <-].
    assert (He : e <> UnicodeEncodeError) by congruence.
    pose proof (write_text_refused _ _ _ _ _ Hf Hw He) as Heq. subst w1. exact Hrun0.
Qed.

Lemma chapters_dir_not_written (day_num : Z) :
  CHAPTERS_DIR <> fst (chapter_paths day_num) /\ CHAPTERS_DIR <> CHAPTERS_JSON
  /\ CHAPTERS_DIR <> CHAPTERS_HTML /\ CHAPTERS_DIR <> RSS_XML.
Proof.
  repeat split; intros Heq; apply (f_equal length) in Heq; revert Heq;
    unfold chapter_paths, path_join; cbn [fst]; rewrite ?length_app; cbn; lia.
Qed.

Lemma commit_again (day_num : Z) (html : pystr) (record : pyval) (w w' : world)
    (r : result unit) :
  json_round_trip -> fault w = None ->
  commit day_num html record w = (w', r) -> r <> Raise UnicodeEncodeError ->
  commit day_num html record w' = (w', r).
Proof.
  intros Hlaw Hf Hrun Hr. pose proof Hrun as Hrun0.
  destruct (chapters_dir_not_written day_num) as (Hc & Hj & Hh & Hx).
  pose proof (untouched_commit CHAPTERS_DIR day_num html record Hc Hj Hh Hx w) as Hdir.
  rewrite Hrun in Hdir. cbn [fst] in Hdir.
  revert Hrun. rewrite !commit_eq. unfold mkdir. rewrite Hdir.
  destruct (files w !! CHAPTERS_DIR); [intros [= <- <-]; reflexivity|].
  destruct (denied w !! CHAPTERS_DIR) as [e|] eqn:Hden; [intros [= <- <-]; rewrite Hden; reflexivity|].
  destruct (write_text (fst (chapter_paths day_num)) html w) as [w1 [[]|e]] eqn:Hw.
  - intros Hrec.
    destruct (calm_write_text (fst (chapter_paths day_num)) html w) as [Hd1 Hf1].
    rewrite Hw in Hd1, Hf1. cbn [fst] in *.
    destruct (calm_reconcile day_num record w1) as [Hd2 Hf2].
    rewrite Hrec in Hd2, Hf2. cbn [fst] in *.
    assert (Hd : denied w' = denied w) by congruence.
    rewrite Hd, Hden.
    pose proof (untouched_reconcile _ day_num record (chapter_path_not_index day_num)
                  (chapter_path_not_listing day_num) (chapter_path_not_feed day_num) w1)
      as Hkeep.
    rewrite Hrec in Hkeep. cbn [fst] in Hkeep.
    rewrite (write_text_again _ _ _ _ _ Hf Hw ltac:(discriminate) w' (Hf2 (Hf1 Hf)) Hd Hkeep).
    exact (reconcile_again day_num record w1 w' r Hlaw (Hf1 Hf) Hrec Hr).
  - intros [= <- <-].
    assert (He : e <> UnicodeEncodeError) by congruence.
    pose proof (write_text_refused _ _ _ _ _ Hf Hw He) as Heq. subst w1.
    rewrite Hden, Hw. reflexivity.
Qed.

Lemma dict_set_keys {V} (k : pystr) (v : V) (d : list (pystr * V)) :
  map fst (dict_set k v d)
  = match dict_get k d with
    | Some _ => map fst d
    | None => map fst d ++ [k]
    end.
Proof.
  induction d as [|[k' v'] d IH]; cbn [dict_set dict_get map fst app]; [reflexivity|].
  case_bool_decide as Hk; cbn [map fst]; [reflexivity|].
  rewrite IH. destruct (dict_get k d); reflexivity.
Qed.

(** The days of an index. *)
Definition days_of (index : pyval) : list (pystr * pyval) :=
  match index with
  | PDict d =>
      match dict_get (lit "chapters") d with
      | Some (PDict chapters) => chapters
      | _ => []
      end
  | _ => []
  end.

(** The merge puts the record under the day, in the place of the one that
    was there or after all the others, and leaves the other days alone. *)
Lemma merge_record_days (index merged record : pyval) (day_num : Z) :
  merge_record index day_num record = Ok merged ->
  py_subscript merged (lit "chapters") = Ok (PDict (days_of merged))
  /\ dict_get (str_of_int day_num) (days_of merged) = Some record
  /\ map fst (days_of merged)
     = match dict_get (str_of_int day_num) (days_of index) with
       | Some _ => map fst (days_of index)
       | None => map fst (days_of index) ++ [str_of_int day_num]
       end
  /\ forall k, k <> str_of_int day_num ->
       dict_get k (days_of merged) = dict_get k (days_of index).
Proof.
  destruct index as [| | | | | |d]; cbn [merge_record]; try discriminate.
  unfold dict_setdefault.
  destruct (dict_get (lit "chapters") d) as [v|] eqn:Hget.
  - rewrite Hget. destruct v as [| | | | | |chapters]; try discriminate.
    intros [= <-]. cbn [py_subscript days_of]. rewrite dict_get_set, Hget.
    split; [reflexivity|]. split; [apply dict_get_set|].
    split; [apply dict_set_keys|]. intros k Hk. apply dict_get_set_ne, Hk.
  - rewrite dict_get_set. intros [= <-]. cbn [py_subscript days_of].
    rewrite dict_get_set, Hget.
    split; [reflexivity|].
    split; [exact (dict_get_set (str_of_int day_num) record [])|].
    split; [reflexivity|].
    intros k Hk. exact (dict_get_set_ne (str_of_int day_num) k record [] Hk).
Qed.

(** *** What a prepared chapter is made of *)

Lemma prepare_ok (day_num : Z) (w w' : world) (ch : Chapter) (html : pystr)
    (record : pyval) :
  prepare day_num w = (w', Ok (ch, html, record)) ->
  w' = w
  /\ record = index_record (title ch) (strftime_long (chapter_date ch))
                (snd (chapter_paths day_num)) (excerpt ch) (chapter_date ch)
  /\ exists path raw fm body_md,
       find_manuscript_for_day day_num w = (w, Ok path)
       /\ files w !! path = Some raw
       /\ parse_frontmatter raw = Ok (fm, body_md)
       /\ derive_title fm body_md day_num = Ok (title ch)
       /\ derive_excerpt fm body_md = Ok (excerpt ch)
       /\ date_for_day_number day_num = Ok (chapter_date ch)
       /\ markdown_source ch = raw
       /\ html_body ch = markdown_to_html body_md
       /\ render_chapter_html ch w = (w, Ok html).
Proof.
  intros Hrun.
  pose proof (reads_only_prepare day_num w) as Hw. rewrite Hrun in Hw. cbn [fst] in Hw.
  subst w'. split; [reflexivity|].
  revert Hrun. unfold prepare, bind.
  pose proof (reads_only_find day_num w) as Hfw.
  destruct (find_manuscript_for_day day_num w) as [w1 [path|e]]; [|discriminate].
  cbn [fst] in Hfw. subst w1.
  unfold read_text at 1.
  destruct (files w !! path) as [raw|] eqn:Hraw; [|discriminate].
  unfold lift, ret.
  destruct (parse_frontmatter raw) as [[fm body_md]|e] eqn:Hparse; [|discriminate].
  destruct (derive_title fm body_md day_num) as [t|e] eqn:Ht; [|discriminate].
  destruct (derive_excerpt fm body_md) as [x|e] eqn:Hx; [|discriminate].
  destruct (date_for_day_number day_num) as [d|e] eqn:Hd; [|discriminate].
  cbv zeta.
  match goal with
  | |- context [render_chapter_html ?c w] =>
      pose proof (reads_only_render c w) as Hrw;
      destruct (render_chapter_html c w) as [w3 [page|e]] eqn:Hrender; [|discriminate]
  end.
  cbn [fst] in Hrw. subst w3. intros [= <- <- <-]. cbn [title excerpt chapter_date].
  split; [reflexivity|].
  exists path, raw, fm, body_md. auto 10.
Qed.

(** C8. A dry run leaves the project as it was: the index, the listing, the
    feed and every other file. It fails exactly as a real run fails before
    its first write; when it returns a chapter, the manuscript was found and
    read, its front matter parsed, and the page rendered. A real run that
    succeeds returns the chapter the dry run returns, and the page it writes
    is the page the dry run rendered. *)
Theorem publish_dry_run (day_num : Z) (w : world) :
  fst (publish day_num true w) = w
  /\ (forall e, snd (publish day_num true w) = Raise e ->
        publish day_num false w = (w, Raise e))
  /\ (forall ch,
        snd (publish day_num true w) = Ok ch ->
        exists path raw fm body_md html,
          find_manuscript_for_day day_num w = (w, Ok path)
          /\ files w !! path = Some raw
          /\ parse_frontmatter raw = Ok (fm, body_md)
          /\ derive_title fm body_md day_num = Ok (title ch)
          /\ derive_excerpt fm body_md = Ok (excerpt ch)
          /\ html_body ch = markdown_to_html body_md
          /\ render_chapter_html ch w = (w, Ok html))
  /\ (forall w' ch,
        publish day_num false w = (w', Ok ch) ->
        publish day_num true w = (w, Ok ch)
        /\ exists html,
             render_chapter_html ch w = (w, Ok html)
             /\ files w' !! fst (chapter_paths day_num) = Some html).
Proof.
  rewrite !publish_split.
  destruct (prepare day_num w) as [w1 [[[ch html] record]|e]] eqn:Hprep.
  - destruct (prepare_ok _ _ _ _ _ _ Hprep)
      as (-> & Hrec & path & raw & fm & body_md & Hfind & Hraw & Hparse & Ht & Hx & Hd
          & Hsrc & Hbody & Hrender).
    cbn [fst snd].
    split; [reflexivity|]. split; [discriminate|].
    split.
    + intros ch' [= <-]. exists path, raw, fm, body_md, html. auto 10.
    + intros w' ch' Hreal.
      destruct (commit day_num html record w) as [w2 [[]|e]] eqn:Hcommit; [|discriminate].
      injection Hreal as <- <-.
      split; [reflexivity|]. exists html. split; [exact Hrender|].
      exact (commit_chapter_written _ _ _ _ _ Hcommit).
  - pose proof (reads_only_prepare day_num w) as Hw. rewrite Hprep in Hw. cbn [fst] in Hw.
    subst w1. cbn [fst snd].
    split; [reflexivity|]. split; [intros e' [= <-]; reflexivity|].
    split; [discriminate|]. intros w' ch' [=].
Qed.

(** C2. With a JSON library that reads back what it writes, and on a storage
    that does not fail: a run of [publish] stores the record of the day in
    the index under the key of the day, in the place of the record the day
    had, or after the other days when it had none, so that no day gets a
    second entry; the index file then holds that index, and the listing and
    the feed are the pages made from that index alone. Storing the record
    again changes nothing in that index, and publishing the day again right
    after changes no file and gives the same result: the index, the listing
    and the feed are byte for byte those of the first run. This holds after
    a first run that failed as well, unless it stopped at a text that could
    not be encoded, which empties the file being written. *)
Theorem publish_twice (day_num : Z) (w0 w1 : world) (r : result Chapter) :
  json_round_trip -> fault w0 = None ->
  publish day_num false w0 = (w1, r) ->
  (r <> Raise UnicodeEncodeError -> publish day_num false w1 = (w1, r))
  /\ (forall ch,
        r = Ok ch ->
        exists loaded index page rss,
          let record := index_record (title ch) (strftime_long (chapter_date ch))
                          (snd (chapter_paths day_num)) (excerpt ch) (chapter_date ch) in
          load_index w0 = (w0, Ok loaded)
          /\ merge_record loaded day_num record = Ok index
          /\ py_subscript index (lit "chapters") = Ok (PDict (days_of index))
          /\ dict_get (str_of_int day_num) (days_of index) = Some record
          /\ map fst (days_of index)
             = match dict_get (str_of_int day_num) (days_of loaded) with
               | Some _ => map fst (days_of loaded)
               | None => map fst (days_of loaded) ++ [str_of_int day_num]
               end
          /\ (forall k, k <> str_of_int day_num ->
                dict_get k (days_of index) = dict_get k (days_of loaded))
          /\ merge_record index day_num record = Ok index
          /\ files w1 !! CHAPTERS_JSON = Some (json_dumps index ++ nl)
          /\ chapters_page index = Ok page
          /\ files w1 !! CHAPTERS_HTML = Some (page ++ nl)
          /\ rss_text index = Ok rss
          /\ files w1 !! RSS_XML = Some rss).
Proof.
  intros Hlaw Hf. rewrite !publish_split.
  destruct (prepare day_num w0) as [w [[[ch html] record]|e]] eqn:Hprep.
  - destruct (prepare_ok _ _ _ _ _ _ Hprep) as (-> & Hrec & _).
    destruct (commit day_num html record w0) as [w2 rc] eqn:Hcommit.
    intros Hrun.
    assert (Hw : w2 = w1) by (destruct rc as [[]|?]; congruence).
    subst w2. split.
    + intros Hr.
      pose proof (commit_same_inputs day_num html record w0) as Hsame.
      rewrite Hcommit in Hsame. cbn [fst] in Hsame.
      rewrite (prepare_again day_num w0 w1 Hsame), Hprep. cbn [snd].
      rewrite (commit_again _ _ _ _ _ _ Hlaw Hf Hcommit); [exact Hrun|].
      intros ->. injection Hrun as <-. congruence.
    + intros ch' ->. destruct rc as [[]|e]; [|discriminate]. injection Hrun as <-.
      destruct (commit_ok _ _ _ _ _ Hcommit) as (_ & wa & Hpage & Hreconcile).
      destruct (reconcile_ok _ _ _ _ Hreconcile)
        as (loaded & index & page & rss & Hload & Hmerge & Hpg & Hfeed & Hj & Hh & Hx).
      destruct (merge_record_days _ _ _ _ Hmerge) as (Hsub & Hget & Hkeys & Hothers).
      exists loaded, index, page, rss. cbv zeta. rewrite <- Hrec.
      split.
      { rewrite load_index_eq in Hload |- *. cbn [snd] in Hload.
        pose proof (untouched_write_text CHAPTERS_JSON _ html
                      (not_eq_sym (chapter_path_not_index day_num)) w0) as Hkeep.
        rewrite Hpage in Hkeep. cbn [fst] in Hkeep. rewrite <- Hkeep, Hload. reflexivity. }
      split; [exact Hmerge|]. split; [exact Hsub|]. split; [exact Hget|].
      split; [exact Hkeys|]. split; [exact Hothers|].
      split; [exact (merge_record_again _ _ _ _ Hmerge)|].
      auto 10.
  - pose proof (reads_only_prepare day_num w0) as Hw. rewrite Hprep in Hw. cbn [fst] in Hw.
    subst w. intros [= <- <-]. rewrite Hprep. split; [reflexivity|discriminate].
Qed.


End Run.

(** A project with the manuscript of day 1 and a chapter template. *)
Definition sample_project : world :=
  mkworld
    (list_to_map
       [(lit "manuscript/2026-01-01.md", lit "---
title: Hello
---
# Heading

A bright cold day in *April*, and the clocks were striking thirteen.
");
        (lit "templates/chapter_template.html", lit "<h1>{num}: {title}</h1>
{content_html}
")])
    None ∅.

Lemma model_round_trip : @json_round_trip ModelHost.model_host.
Proof. intros j. apply HostTheory.model_loads_dumps. Qed.

Lemma publish_dry_run_witness :
  exists w' ch,
    @publish ModelHost.model_host 1 false sample_project = (w', Ok ch)
    /\ @publish ModelHost.model_host 1 true sample_project = (sample_project, Ok ch)
    /\ exists html,
         @render_chapter_html ModelHost.model_host ch sample_project
         = (sample_project, Ok html)
         /\ files w' !! fst (chapter_paths 1) = Some html.
Proof.
  destruct (@publish ModelHost.model_host 1 false sample_project) as [w' [ch|e]] eqn:Hrun;
    [|vm_compute in Hrun; discriminate].
  exists w', ch. split; [reflexivity|].
  exact (proj2 (proj2 (proj2 (@publish_dry_run ModelHost.model_host 1 sample_project)))
           w' ch Hrun).
Defined.

Lemma publish_twice_witness :
  exists w1 ch index,
    @publish ModelHost.model_host 1 false sample_project = (w1, Ok ch)
    /\ @publish ModelHost.model_host 1 false w1 = (w1, Ok ch)
    /\ files w1 !! CHAPTERS_JSON = Some (@json_dumps ModelHost.model_host index ++ nl)
    /\ map fst (days_of index) = [lit "1"]
    /\ dict_get (lit "1") (days_of index)
       = Some (index_record (title ch) (strftime_long (chapter_date ch))
                 (snd (chapter_paths 1)) (excerpt ch) (chapter_date ch)).
Proof.
  destruct (@publish ModelHost.model_host 1 false sample_project) as [w1 [ch|e]] eqn:Hrun;
    [|vm_compute in Hrun; discriminate].
  destruct (@publish_twice ModelHost.model_host 1 sample_project w1 (Ok ch)
              model_round_trip eq_refl Hrun) as [Hagain Hfacts].
  destruct (Hfacts ch eq_refl)
    as (loaded & index & page & rss & Hload & _ & _ & Hget & Hkeys & _ & _ & Hj & _).
  exists w1, ch, index.
  split; [reflexivity|]. split; [apply Hagain; discriminate|]. split; [exact Hj|].
  vm_compute in Hload. injection Hload as <-.
  split; [exact Hkeys|exact Hget].
Defined.

(** An index without chapters, and one with the chapter of day 1. *)
Definition empty_index : pyval := PDict [(lit "chapters", PDict [])].
Definition first_index : pyval :=
  PDict [(lit "chapters",
          PDict [(lit "1", index_record (lit "Hello") (lit "January 01, 2026")
                             (lit "001.html") [] (mkdate 2026 1 1))])].




(** An index that was loaded with a lone surrogate in a title, and a
    project whose index file cannot be opened for writing. *)
Definition surrogate_index : pyval :=
  PDict [(lit "chapters",
          PDict [(lit "1", index_record [55357%N] (lit "January 01, 2026")
                             (lit "001.html") [] (mkdate 2026 1 1))])].

Definition read_only_index : world :=
  mkworld {[CHAPTERS_JSON := @json_dumps ModelHost.model_host empty_index ++ nl]}
    None {[CHAPTERS_JSON := PermissionError]}.

(** The two other ways the write fails: a text that cannot be encoded
    leaves the index file empty, and a file that cannot be opened is left
    as it was. *)
Example save_index_other_failures :
  (exists w',
      @save_index ModelHost.model_host surrogate_index sample_project
      = (w', Raise UnicodeEncodeError)
      /\ files w' !! CHAPTERS_JSON = Some [])
  /\ @save_index ModelHost.model_host first_index read_only_index
     = (read_only_index, Raise PermissionError).
Proof.
  split; [eexists; split; vm_compute; reflexivity|vm_compute; reflexivity].
Qed.

End PublishTheory.

Module ReTheory.
Import Py Re.

(** What a pattern matches: from offset [pos] with [s] ahead and the groups
    [caps] closed, it can stop at offset [pos'] with [s'] ahead and the groups
    [caps']. *)
Fixpoint matches (r : regex) (pos : nat) (s : pystr) (caps : list pystr)
    (pos' : nat) (s' : pystr) (caps' : list pystr) : Prop :=
  match r with
  | Eps => pos' = pos /\ s' = s /\ caps' = caps
  | Chr c => s = c :: s' /\ pos' = S pos /\ caps' = caps
  | Cls p => exists c, p c = true /\ s = c :: s' /\ pos' = S pos /\ caps' = caps
  | Cat r1 r2 =>
      exists p1 s1 c1, matches r1 pos s caps p1 s1 c1 /\ matches r2 p1 s1 c1 pos' s' caps'
  | Star _ p =>
      exists a, s = a ++ s' /\ forallb p a = true /\ pos' = pos + length a /\ caps' = caps
  | Group r1 =>
      exists c1, matches r1 pos s caps pos' s' c1 /\ caps' = c1 ++ [take (pos' - pos) s]
  | Bos => pos = 0 /\ pos' = pos /\ s' = s /\ caps' = caps
  | Eos => (s = [] \/ s = [10%N]) /\ pos' = pos /\ s' = s /\ caps' = caps
  end.

Lemma star_greedy_sound {A} (p : N -> bool) (s : pystr) :
  forall (pos : nat) (k : nat -> pystr -> option A) (x : A),
    star_greedy p pos s k = Some x ->
    exists a b, s = a ++ b /\ forallb p a = true /\ k (pos + length a) b = Some x.
Proof.
  induction s as [|c rest IH]; intros pos k x; cbn [star_greedy].
  - intros Hk. exists [], []. rewrite Nat.add_0_r. auto.
  - destruct (p c) eqn:Hc.
    + destruct (star_greedy p (S pos) rest k) as [y|] eqn:Hrest.
      * intros [= <-]. destruct (IH _ _ _ Hrest) as (a & b & -> & Ha & Hk).
        exists (c :: a), b. cbn [app forallb length]. rewrite Hc, Ha.
        rewrite Nat.add_succ_r. auto.
      * intros Hk. exists [], (c :: rest). rewrite Nat.add_0_r. auto.
    + intros Hk. exists [], (c :: rest). rewrite Nat.add_0_r. auto.
Qed.

Lemma star_greedy_complete {A} (p : N -> bool) (a : pystr) :
  forall (b : pystr) (pos : nat) (k : nat -> pystr -> option A) (x : A),
    forallb p a = true -> k (pos + length a) b = Some x ->
    exists y, star_greedy p pos (a ++ b) k = Some y.
Proof.
  induction a as [|c a IH]; intros b pos k x Ha Hk.
  - cbn [app length] in *. rewrite Nat.add_0_r in Hk.
    destruct b as [|c b]; cbn [star_greedy]; [eauto|].
    destruct (p c); [|eauto]. destruct (star_greedy p (S pos) b k); eauto.
  - cbn [app forallb length] in *. apply andb_true_iff in Ha as [Hc Ha].
    cbn [star_greedy]. rewrite Hc. rewrite Nat.add_succ_r in Hk.
    destruct (IH b (S pos) k x Ha Hk) as [y ->]. eauto.
Qed.

Lemma star_lazy_sound {A} (p : N -> bool) (s : pystr) :
  forall (pos : nat) (k : nat -> pystr -> option A) (x : A),
    star_lazy p pos s k = Some x ->
    exists a b, s = a ++ b /\ forallb p a = true /\ k (pos + length a) b = Some x.
Proof.
  induction s as [|c rest IH]; intros pos k x; cbn [star_lazy].
  - destruct (k pos []) as [y|] eqn:Hk; [|discriminate].
    intros [= <-]. exists [], []. rewrite Nat.add_0_r. auto.
  - destruct (k pos (c :: rest)) as [y|] eqn:Hk.
    + intros [= <-]. exists [], (c :: rest). rewrite Nat.add_0_r. auto.
    + destruct (p c) eqn:Hc; [|discriminate]. intros Hrest.
      destruct (IH _ _ _ Hrest) as (a & b & -> & Ha & Hkb).
      exists (c :: a), b. cbn [app forallb length]. rewrite Hc, Ha.
      rewrite Nat.add_succ_r. auto.
Qed.

Lemma star_lazy_complete {A} (p : N -> bool) (a : pystr) :
  forall (b : pystr) (pos : nat) (k : nat -> pystr -> option A) (x : A),
    forallb p a = true -> k (pos + length a) b = Some x ->
    exists y, star_lazy p pos (a ++ b) k = Some y.
Proof.
  induction a as [|c a IH]; intros b pos k x Ha Hk.
  - cbn [app length] in *. rewrite Nat.add_0_r in Hk.
    destruct b as [|c b]; cbn [star_lazy]; rewrite Hk; eauto.
  - cbn [app forallb length] in *. apply andb_true_iff in Ha as [Hc Ha].
    cbn [star_lazy]. destruct (k pos (c :: a ++ b)); [eauto|]. rewrite Hc.
    rewrite Nat.add_succ_r in Hk. exact (IH b (S pos) k x Ha Hk).
Qed.

Lemma eos_cases {A} (s : pystr) (o : option A) (x : A) :
  match s with
  | [] => o
  | [10%N] => o
  | _ => None
  end = Some x ->
  (s = [] \/ s = [10%N]) /\ o = Some x.
Proof.
  destruct s as [|c rest]; [auto|].
  destruct (N.eqb_spec c 10) as [->|Hc].
  - destruct rest; [auto|discriminate].
  - intros Hk. exfalso. revert Hk.
    repeat match goal with
           | |- context [match ?c with _ => _ end] => is_var c; destruct c; try discriminate
           end; congruence.
Qed.

(** The matcher finds only matches of the pattern. *)
Lemma run_sound {A} (r : regex) :
  forall (pos : nat) (s : pystr) (caps : list pystr)
         (k : nat -> pystr -> list pystr -> option A) (x : A),
    run r pos s caps k = Some x ->
    exists pos' s' caps', matches r pos s caps pos' s' caps' /\ k pos' s' caps' = Some x.
Proof.
  induction r as [|c|p|r1 IH1 r2 IH2|g p|r1 IH1| |]; intros pos s caps k x; cbn [run matches].
  - intros Hk. exists pos, s, caps. auto.
  - destruct s as [|y rest]; [discriminate|].
    destruct (N.eqb_spec y c) as [->|]; [|discriminate].
    intros Hk. exists (S pos), rest, caps. auto.
  - destruct s as [|y rest]; [discriminate|].
    destruct (p y) eqn:Hy; [|discriminate].
    intros Hk. exists (S pos), rest, caps. split; [exists y|]; auto.
  - intros Hrun. destruct (IH1 _ _ _ _ _ Hrun) as (p1 & s1 & c1 & Hm1 & Hrun2).
    destruct (IH2 _ _ _ _ _ Hrun2) as (p2 & s2 & c2 & Hm2 & Hk).
    exists p2, s2, c2. split; [exists p1, s1, c1|]; auto.
  - destruct g; intros Hrun.
    + apply star_greedy_sound in Hrun as (a & b & -> & Ha & Hk).
      exists (pos + length a), b, caps. split; [exists a|]; auto.
    + apply star_lazy_sound in Hrun as (a & b & -> & Ha & Hk).
      exists (pos + length a), b, caps. split; [exists a|]; auto.
  - intros Hrun. destruct (IH1 _ _ _ _ _ Hrun) as (p1 & s1 & c1 & Hm1 & Hk).
    exists p1, s1, (c1 ++ [take (p1 - pos) s]). split; [exists c1|]; auto.
  - destruct (Nat.eqb_spec pos 0) as [->|]; [|discriminate].
    intros Hk. exists 0, s, caps. auto.
  - intros Hk. exists pos, s, caps.
    destruct (eos_cases s (k pos s caps) x Hk) as [Hs Hk']. auto 10.
Qed.

(** The matcher finds a match when the pattern has one the rest accepts. *)
Lemma run_complete {A} (r : regex) :
  forall (pos : nat) (s : pystr) (caps : list pystr) (pos' : nat) (s' : pystr)
         (caps' : list pystr) (k : nat -> pystr -> list pystr -> option A) (x : A),
    matches r pos s caps pos' s' caps' -> k pos' s' caps' = Some x ->
    exists y, run r pos s caps k = Some y.
Proof.
  induction r as [|c|p|r1 IH1 r2 IH2|g p|r1 IH1| |];
    intros pos s caps pos' s' caps' k x; cbn [run matches].
  - intros (-> & -> & ->) Hk. eauto.
  - intros (-> & -> & ->) Hk. rewrite N.eqb_refl. eauto.
  - intros (c & Hc & -> & -> & ->) Hk. rewrite Hc. eauto.
  - intros (p1 & s1 & c1 & Hm1 & Hm2) Hk.
    destruct (IH2 _ _ _ _ _ _ _ _ Hm2 Hk) as [y Hy].
    exact (IH1 _ _ _ _ _ _ _ _ Hm1 Hy).
  - intros (a & -> & Ha & -> & ->) Hk.
    destruct g.
    + exact (star_greedy_complete p a s' pos (fun pos' s' => k pos' s' caps) x Ha Hk).
    + exact (star_lazy_complete p a s' pos (fun pos' s' => k pos' s' caps) x Ha Hk).
  - intros (c1 & Hm1 & ->) Hk.
    exact (IH1 _ _ _ _ _ _ (fun pos' s' caps' => k pos' s' (caps' ++ [take (pos' - pos) s]))
             _ Hm1 Hk).
  - intros (-> & -> & -> & ->) Hk. cbn. eauto.
  - intros ([-> | ->] & -> & -> & ->) Hk; eauto.
Qed.

(** A match consumes a prefix of the subject, and the offset counts it. *)
Lemma matches_span (r : regex) :
  forall pos s caps pos' s' caps',
    matches r pos s caps pos' s' caps' ->
    exists a, s = a ++ s' /\ pos' = pos + length a.
Proof.
  induction r as [|c|p|r1 IH1 r2 IH2|g p|r1 IH1| |];
    intros pos s caps pos' s' caps'; cbn [matches].
  - intros (-> & -> & _). exists []. rewrite Nat.add_0_r. auto.
  - intros (-> & -> & _). exists [c]. cbn [length]. rewrite Nat.add_1_r. auto.
  - intros (c & _ & -> & -> & _). exists [c]. cbn [length]. rewrite Nat.add_1_r. auto.
  - intros (p1 & s1 & c1 & Hm1 & Hm2).
    destruct (IH1 _ _ _ _ _ _ Hm1) as (a1 & -> & ->).
    destruct (IH2 _ _ _ _ _ _ Hm2) as (a2 & -> & ->).
    exists (a1 ++ a2). rewrite length_app, <- app_assoc, Nat.add_assoc. auto.
  - intros (a & -> & _ & -> & _). exists a. auto.
  - intros (c1 & Hm1 & _). exact (IH1 _ _ _ _ _ _ Hm1).
  - intros (-> & -> & -> & _). exists []. auto.
  - intros (_ & -> & -> & _). exists []. rewrite Nat.add_0_r. auto.
Qed.

End ReTheory.

(** ** Strings *)

Module StringTheory.
Import Py.

Lemma lstrip_by_split (p : N -> bool) (s : pystr) :
  exists a, s = a ++ lstrip_by p s /\ forallb p a = true.
Proof.
  induction s as [|c s (a & Hs & Ha)]; [exists []; auto|].
  cbn [lstrip_by]. destruct (p c) eqn:Hc.
  - exists (c :: a). cbn [app forallb]. rewrite Hc, Ha, <- Hs. auto.
  - exists []. auto.
Qed.

Lemma lstrip_by_head (p : N -> bool) (s : pystr) (c : N) (r : pystr) :
  lstrip_by p s = c :: r -> p c = false.
Proof.
  induction s as [|x s IH]; cbn [lstrip_by]; [discriminate|].
  destruct (p x) eqn:Hx; [exact IH|]. intros [= <- _]. exact Hx.
Qed.

Lemma lstrip_by_fixed (p : N -> bool) (s : pystr) :
  (forall c r, s = c :: r -> p c = false) -> lstrip_by p s = s.
Proof.
  destruct s as [|c r]; [reflexivity|]. intros Hs. cbn [lstrip_by].
  rewrite (Hs c r eq_refl). reflexivity.
Qed.

Lemma lstrip_by_all (p : N -> bool) (s : pystr) :
  lstrip_by p s = [] -> forallb p s = true.
Proof.
  induction s as [|c s IH]; [reflexivity|]. cbn [lstrip_by forallb].
  destruct (p c); [exact IH|discriminate].
Qed.

Lemma rstrip_by_split (p : N -> bool) (s : pystr) :
  exists b, s = rstrip_by p s ++ b /\ forallb p b = true.
Proof.
  unfold rstrip_by. destruct (lstrip_by_split p (rev s)) as (a & Hs & Ha).
  exists (rev a). split.
  - rewrite <- rev_app_distr, <- Hs, rev_involutive. reflexivity.
  - rewrite forallb_forall in *. intros c Hc. apply Ha, in_rev, Hc.
Qed.

Lemma rstrip_by_last (p : N -> bool) (s a : pystr) (c : N) :
  rstrip_by p s = a ++ [c] -> p c = false.
Proof.
  unfold rstrip_by. intros Hs. apply (f_equal (@rev N)) in Hs.
  rewrite rev_involutive, rev_app_distr in Hs. cbn [rev app] in Hs.
  exact (lstrip_by_head p _ _ _ Hs).
Qed.

Lemma rstrip_by_fixed (p : N -> bool) (s : pystr) :
  (forall a c, s = a ++ [c] -> p c = false) -> rstrip_by p s = s.
Proof.
  intros Hs. unfold rstrip_by. rewrite lstrip_by_fixed; [apply rev_involutive|].
  intros c r Hrev. apply (Hs (rev r) c).
  rewrite <- (rev_involutive s), Hrev. reflexivity.
Qed.

Lemma rstrip_by_all (p : N -> bool) (s : pystr) :
  rstrip_by p s = [] -> forallb p s = true.
Proof.
  unfold rstrip_by. intros Hs. apply (f_equal (@rev N)) in Hs.
  rewrite rev_involutive in Hs. cbn [rev] in Hs. apply lstrip_by_all in Hs.
  rewrite forallb_forall in *. intros c Hc. apply Hs. apply in_rev in Hc. exact Hc.
Qed.

(** A stripped string neither starts nor ends with white space. *)
Lemma strip_head (s : pystr) (c : N) (r : pystr) : strip s = c :: r -> isspace c = false.
Proof.
  unfold strip. intros Hs.
  destruct (rstrip_by_split isspace (lstrip_by isspace s)) as (b & Hsplit & _).
  rewrite Hs in Hsplit. cbn [app] in Hsplit.
  exact (lstrip_by_head _ _ _ _ Hsplit).
Qed.

Lemma strip_last (s a : pystr) (c : N) : strip s = a ++ [c] -> isspace c = false.
Proof. apply rstrip_by_last. Qed.

Lemma strip_fixed (s : pystr) :
  (forall c r, s = c :: r -> isspace c = false) ->
  (forall a c, s = a ++ [c] -> isspace c = false) ->
  strip s = s.
Proof.
  intros Hhead Hlast. unfold strip.
  rewrite (lstrip_by_fixed _ _ Hhead). exact (rstrip_by_fixed _ _ Hlast).
Qed.

Lemma strip_strip (s : pystr) : strip (strip s) = strip s.
Proof. apply strip_fixed; [apply strip_head|apply strip_last]. Qed.

(** What [strip] removes is white space. *)
Lemma strip_split (s : pystr) :
  exists a b, s = a ++ strip s ++ b /\ forallb isspace a = true /\ forallb isspace b = true.
Proof.
  destruct (lstrip_by_split isspace s) as (a & Hs & Ha).
  destruct (rstrip_by_split isspace (lstrip_by isspace s)) as (b & Hs' & Hb).
  exists a, b. unfold strip. rewrite <- Hs'. auto.
Qed.

Lemma strip_empty (s : pystr) : strip s = [] -> forallb isspace s = true.
Proof.
  intros Hs. destruct (strip_split s) as (a & b & Heq & Ha & Hb).
  rewrite Hs in Heq. rewrite Heq, forallb_app, Ha. exact Hb.
Qed.

(** Decimal digits. *)
Definition isdigit (c : N) : bool := ((48 <=? c) && (c <=? 57))%N.

Lemma uint_chars_digits (d : Decimal.uint) : forallb isdigit (uint_chars d) = true.
Proof. induction d; cbn [uint_chars forallb]; [reflexivity|..]; rewrite IHd; reflexivity. Qed.

Lemma uint_chars_inj (d d' : Decimal.uint) : uint_chars d = uint_chars d' -> d = d'.
Proof.
  revert d'. induction d; intros d'; destruct d'; cbn [uint_chars]; try discriminate;
    try reflexivity; intros [= Heq]; f_equal; apply IHd, Heq.
Qed.

Lemma uint_chars_zeros (n : nat) (d : Decimal.uint) :
  uint_chars (Nat.iter n Decimal.D0 d) = repeat 48%N n ++ uint_chars d.
Proof. induction n as [|n IH]; [reflexivity|]. cbn [Nat.iter repeat app uint_chars] in *.
       unfold Nat.iter in *. cbn [nat_rect uint_chars]. rewrite IH. reflexivity. Qed.

Lemma digits_nonempty (n : N) : digits n <> [].
Proof.
  unfold digits. destruct n as [|p]; [discriminate|].
  cbn [N.to_uint]. pose proof (DecimalPos.Unsigned.to_uint_nonnil p) as Hp.
  destruct (Pos.to_uint p); [congruence|..]; discriminate.
Qed.

Lemma digits_inj (n n' : N) : digits n = digits n' -> n = n'.
Proof. intros Heq. apply DecimalN.Unsigned.to_uint_inj, uint_chars_inj, Heq. Qed.

Lemma digits_isdigit (n : N) : forallb isdigit (digits n) = true.
Proof. apply uint_chars_digits. Qed.

(** Zeros before the digits of a number do not change the number. *)
Lemma zeros_digits_inj (i j : nat) (n n' : N) :
  repeat 48%N i ++ digits n = repeat 48%N j ++ digits n' -> n = n'.
Proof.
  unfold digits. rewrite <- !uint_chars_zeros. intros Heq%uint_chars_inj.
  apply (f_equal N.of_uint) in Heq.
  rewrite <- (DecimalN.Unsigned.of_uint_norm (Nat.iter i _ _)) in Heq.
  rewrite <- (DecimalN.Unsigned.of_uint_norm (Nat.iter j _ _)) in Heq.
  rewrite !DecimalFacts.unorm_iter_D0, !DecimalN.Unsigned.of_uint_norm in Heq.
  rewrite !DecimalN.Unsigned.of_to in Heq. exact Heq.
Qed.

Lemma str_of_int_inj (a b : Z) : str_of_int a = str_of_int b -> a = b.
Proof.
  unfold str_of_int.
  pose proof (digits_isdigit (Z.abs_N a)) as Ha. pose proof (digits_isdigit (Z.abs_N b)) as Hb.
  pose proof (digits_nonempty (Z.abs_N a)) as Hna.
  pose proof (digits_nonempty (Z.abs_N b)) as Hnb.
  destruct (Z.ltb_spec a 0), (Z.ltb_spec b 0).
  - intros [= Heq%digits_inj]. lia.
  - intros Heq. rewrite <- Heq in Hb. discriminate.
  - intros Heq. rewrite Heq in Ha. discriminate.
  - intros Heq%digits_inj. lia.
Qed.

Lemma zfill_int_inj (w : nat) (a b : Z) : zfill_int w a = zfill_int w b -> a = b.
Proof.
  unfold zfill_int. cbv zeta.
  assert (Hz : forall i n, forallb isdigit (repeat 48%N i ++ digits n) = true).
  { intros i n. rewrite forallb_app, digits_isdigit, andb_true_r.
    induction i; [reflexivity|exact IHi]. }
  pose proof (Hz (w - length (digits (Z.abs_N a))) (Z.abs_N a)) as Ha.
  pose proof (Hz (w - length (digits (Z.abs_N b))) (Z.abs_N b)) as Hb.
  pose proof (digits_nonempty (Z.abs_N a)) as Hna.
  pose proof (digits_nonempty (Z.abs_N b)) as Hnb.
  destruct (Z.ltb_spec a 0), (Z.ltb_spec b 0).
  - intros [= Heq%zeros_digits_inj]. lia.
  - intros Heq. rewrite <- Heq in Hb. discriminate.
  - intros Heq. rewrite Heq in Ha. discriminate.
  - intros Heq%zeros_digits_inj. lia.
Qed.

Lemma str_of_int_chars (z : Z) :
  str_of_int z <> [] /\ Forall (fun c => isspace c = false) (str_of_int z).
Proof.
  unfold str_of_int.
  assert (Hd : Forall (fun c => isspace c = false) (digits (Z.abs_N z))).
  { pose proof (digits_isdigit (Z.abs_N z)) as Hall. rewrite forallb_forall in Hall.
    apply List.Forall_forall. intros c Hc. specialize (Hall c Hc).
    unfold isdigit in Hall. apply andb_true_iff in Hall as [Hlo Hhi].
    apply N.leb_le in Hlo, Hhi. unfold isspace.
    repeat match goal with
           | |- context [(?a <=? ?b)%N] => destruct (N.leb_spec a b); try lia
           | |- context [(?a =? ?b)%N] => destruct (N.eqb_spec a b); try lia
           end; reflexivity. }
  destruct (z <? 0)%Z.
  - split; [discriminate|]. constructor; [reflexivity|exact Hd].
  - split; [apply digits_nonempty|exact Hd].
Qed.

End StringTheory.

(** ** The calendar mapper, from dates to days *)

Module DateTheory.
Import Py Datetime.
Local Open Scope Z_scope.

(** [_days_in_month] *)
Definition days_in_month (y m : Z) : Z :=
  if (m =? 2) && is_leap y then 29 else table DAYS_IN_MONTH m.

(** The dates [date(y, m, d)] accepts. *)
Definition valid_date (d : date) : bool :=
  (1 <=? year d) && (year d <=? 9999) && (1 <=? month d) && (month d <=? 12)
  && (1 <=? day d) && (day d <=? days_in_month (year d) (month d)).

(** A date of 2026 has a day number in [1, 365] whose date it is. *)
Definition maps_back (d : date) : bool :=
  match Publish.day_number_for_date d with
  | Some n =>
      (1 <=? n) && (n <=? 365)
      && match Publish.date_for_day_number n with
         | Ok d' => (year d' =? year d) && (month d' =? month d) && (day d' =? day d)
         | Raise _ => false
         end
  | None => false
  end.

Lemma maps_back_2026 :
  forallb (fun m => forallb (fun dd => implb (valid_date (mkdate 2026 m dd))
                                         (maps_back (mkdate 2026 m dd)))
                      (seqZ 1 31))
    (seqZ 1 12) = true.
Proof. vm_compute. reflexivity. Qed.

Lemma valid_date_days (d : date) :
  valid_date d = true -> 1 <= month d <= 12 /\ 1 <= day d <= 31.
Proof.
  unfold valid_date. intros Hv.
  repeat (apply andb_true_iff in Hv as [Hv ?]).
  repeat match goal with H : (_ <=? _) = true |- _ => apply Z.leb_le in H end.
  assert (Hm : 1 <= month d <= 12) by lia. split; [exact Hm|].
  assert (Hdim : days_in_month (year d) (month d) <= 31); [|lia].
  unfold days_in_month.
  assert (Hcases : month d = 1 \/ month d = 2 \/ month d = 3 \/ month d = 4 \/ month d = 5
                   \/ month d = 6 \/ month d = 7 \/ month d = 8 \/ month d = 9
                   \/ month d = 10 \/ month d = 11 \/ month d = 12) by lia.
  destruct Hcases as [->|[->|[->|[->|[->|[->|[->|[->|[->|[->|[->| ->]]]]]]]]]]];
    try (vm_compute; discriminate).
  destruct (is_leap (year d)); vm_compute; discriminate.
Qed.

(** A date of 2026 maps to a day whose date it is. *)
Lemma valid_date_maps_back (d : date) :
  valid_date d = true -> year d = 2026 ->
  exists n, Publish.day_number_for_date d = Some n /\ 1 <= n <= 365
            /\ Publish.date_for_day_number n = Ok d.
Proof.
  intros Hv Hy. destruct (valid_date_days d Hv) as [Hm Hd].
  pose proof maps_back_2026 as Hall. rewrite forallb_forall in Hall.
  specialize (Hall (month d)). rewrite forallb_forall in Hall.
  assert (Hback : maps_back d = true).
  { destruct d as [y m dd]. cbn [year month day] in *. subst y.
    assert (Himp : implb (valid_date (mkdate 2026 m dd)) (maps_back (mkdate 2026 m dd))
                   = true).
    { apply Hall; apply list_elem_of_In, elem_of_seqZ; lia. }
    rewrite Hv in Himp. exact Himp. }
  unfold maps_back in Hback.
  destruct (Publish.day_number_for_date d) as [n|] eqn:Hn; [|discriminate].
  apply andb_true_iff in Hback as [Hrange Hdate].
  apply andb_true_iff in Hrange as [Hlo Hhi]. apply Z.leb_le in Hlo, Hhi.
  destruct (Publish.date_for_day_number n) as [d'|e] eqn:Hd'; [|discriminate].
  exists n.
  assert (d' = d).
  { destruct d, d'. cbn [year month day] in *.
    repeat (apply andb_true_iff in Hdate as [Hdate ?]).
    repeat match goal with H : (_ =? _) = true |- _ => apply Z.eqb_eq in H end.
    f_equal; lia. }
  subst d'. split; [reflexivity|]. split; [lia|exact Hd'].
Qed.

(** The day number of a date is defined exactly for the dates of 2026; the
    day number then lies in [1, 365], and its date is the date one started
    from. The two scripts agree on this. *)
Theorem day_number_for_date_inverse (d : date) :
  valid_date d = true ->
  (year d <> 2026 ->
   Publish.day_number_for_date d = None
   /\ GenerateChapter.get_day_number_for_date d = None)
  /\ (year d = 2026 ->
      exists n, Publish.day_number_for_date d = Some n
                /\ GenerateChapter.get_day_number_for_date d = Some n
                /\ 1 <= n <= 365
                /\ Publish.date_for_day_number n = Ok d
                /\ GenerateChapter.get_date_for_day n = Ok d).
Proof.
  intros Hv. split.
  - intros Hy.
    assert (Hnone : Publish.day_number_for_date d = None).
    { unfold Publish.day_number_for_date.
      destruct (Z.eqb_spec (year d) 2026); [contradiction|]. reflexivity. }
    split; [exact Hnone|].
    etransitivity; [apply CalendarTheory.mappers_agree_on_dates|exact Hnone].
  - intros Hy. destruct (valid_date_maps_back d Hv Hy) as (n & Hn & Hrange & Hd).
    exists n. split; [exact Hn|].
    split; [etransitivity; [apply CalendarTheory.mappers_agree_on_dates|exact Hn]|].
    split; [exact Hrange|]. split; [exact Hd|].
    etransitivity; [apply CalendarTheory.mappers_agree_on_days|exact Hd].
Qed.

Lemma day_number_for_date_inverse_witness :
  Publish.day_number_for_date (mkdate 2026 3 1) = Some 60
  /\ Publish.date_for_day_number 60 = Ok (mkdate 2026 3 1).
Proof.
  destruct (proj2 (day_number_for_date_inverse (mkdate 2026 3 1) eq_refl) eq_refl)
    as (n & Hn & _ & _ & Hd & _).
  vm_compute in Hn. injection Hn as <-. split; [reflexivity|exact Hd].
Defined.

(** The day numbers that have a date. *)
Lemma date_for_day_number_ok (n : Z) :
  (-739615 <= n <= 2912443 ->
   Publish.date_for_day_number n = Ok (ord2ymd (739616 + n)))
  /\ (n < -739615 \/ 2912443 < n ->
      Publish.date_for_day_number n = Raise OverflowError).
Proof.
  unfold Publish.date_for_day_number, add_days.
  change (toordinal Publish.START_DATE) with 739617. unfold MAXORDINAL.
  split; intros Hn.
  - replace (739617 + (n - 1)) with (739616 + n) by lia.
    rewrite (proj2 (Z.ltb_lt 0 _)), (proj2 (Z.leb_le _ _)) by lia. reflexivity.
  - destruct (Z.ltb_spec 0 (739617 + (n - 1))); [|reflexivity].
    destruct (Z.leb_spec (739617 + (n - 1)) 3652059); [lia|reflexivity].
Qed.

(** [date_for_day_number] and [get_date_for_day] do not check their
    argument: they give a date for every day number from the first day of
    year 1 to the last day of year 9999, day 366 and day 0 included, and
    raise [OverflowError] outside. No other exception is raised. *)
Theorem date_for_day_number_domain (n : Z) :
  (-739615 <= n <= 2912443 ->
   Publish.date_for_day_number n = Ok (ord2ymd (739616 + n))
   /\ GenerateChapter.get_date_for_day n = Ok (ord2ymd (739616 + n)))
  /\ (n < -739615 \/ 2912443 < n ->
      Publish.date_for_day_number n = Raise OverflowError
      /\ GenerateChapter.get_date_for_day n = Raise OverflowError)
  /\ (forall e, Publish.date_for_day_number n = Raise e -> e = OverflowError).
Proof.
  destruct (date_for_day_number_ok n) as [Hin Hout].
  split; [|split].
  - intros Hn. split; [exact (Hin Hn)|].
    etransitivity; [apply CalendarTheory.mappers_agree_on_days|exact (Hin Hn)].
  - intros Hn. split; [exact (Hout Hn)|].
    etransitivity; [apply CalendarTheory.mappers_agree_on_days|exact (Hout Hn)].
  - intros e He.
    destruct (Z_le_dec (-739615) n) as [Hlo|Hlo];
      [destruct (Z_le_dec n 2912443) as [Hhi|Hhi]|].
    + rewrite Hin in He by lia. discriminate.
    + rewrite Hout in He by lia. congruence.
    + rewrite Hout in He by lia. congruence.
Qed.

Lemma date_for_day_number_domain_witness :
  Publish.date_for_day_number 366 = Ok (mkdate 2027 1 1)
  /\ Publish.date_for_day_number 0 = Ok (mkdate 2025 12 31)
  /\ Publish.date_for_day_number 2912444 = Raise OverflowError.
Proof.
  split; [|split].
  - rewrite (proj1 (proj1 (date_for_day_number_domain 366) ltac:(lia))). reflexivity.
  - rewrite (proj1 (proj1 (date_for_day_number_domain 0) ltac:(lia))). reflexivity.
  - apply (proj1 (proj2 (date_for_day_number_domain 2912444))). lia.
Defined.

End DateTheory.

(** ** Front matter *)

Module FrontmatterTheory.
Import Py Re PyVal Publish ReTheory StringTheory.

(** A text with a front matter block: a line of three dashes, the front
    matter, another line of three dashes, the body. White space may follow
    the dashes. *)
Definition fenced (s fm body : pystr) : Prop :=
  exists w1 w2,
    s = lit "---" ++ w1 ++ nl ++ fm ++ nl ++ lit "---" ++ w2 ++ nl ++ body
    /\ forallb isspace w1 = true /\ forallb isspace w2 = true.

Lemma matches_word (w : pystr) :
  forall pos s caps pos' s' caps',
    matches (word w) pos s caps pos' s' caps'
    <-> s = w ++ s' /\ pos' = pos + length w /\ caps' = caps.
Proof.
  unfold word. induction w as [|c w IH]; intros pos s caps pos' s' caps'.
  - cbn [map cats foldr matches app length]. rewrite Nat.add_0_r. intuition congruence.
  - cbn [map cats foldr matches app length]. fold (cats (map Chr w)). split.
    + intros (p1 & s1 & c1 & (-> & -> & ->) & Hw). apply IH in Hw as (-> & -> & ->).
      rewrite Nat.add_succ_r. auto.
    + intros (-> & -> & ->). exists (S pos), (w ++ s'), caps.
      split; [auto|]. apply IH. rewrite Nat.add_succ_r. auto.
Qed.

Lemma re_match_sound (r : regex) (s : pystr) (caps : list pystr) :
  re_match r s = Some caps -> exists pos' s', matches r 0 s [] pos' s' caps.
Proof.
  unfold re_match, match_at.
  destruct (run r 0 s [] _) as [[rest caps']|] eqn:Hrun; [|discriminate].
  intros [= <-]. apply run_sound in Hrun as (pos' & s' & caps'' & Hm & [= <- <-]).
  eauto.
Qed.

Lemma re_match_complete (r : regex) (s : pystr) (pos' : nat) (s' : pystr)
    (caps : list pystr) :
  matches r 0 s [] pos' s' caps -> exists caps', re_match r s = Some caps'.
Proof.
  intros Hm. unfold re_match, match_at.
  destruct (run_complete r 0 s [] pos' s' caps (fun _ rest caps => Some (rest, caps))
              (s', caps) Hm eq_refl) as [[rest caps'] ->].
  eauto.
Qed.

Lemma forallb_dot_all (a : pystr) : forallb dot_all a = true.
Proof. induction a; [reflexivity|assumption]. Qed.

(** A match of [FM_RE] is a fenced text, up to a line feed at the end. *)
Lemma fm_matches (s : pystr) (pos' : nat) (s' : pystr) (caps : list pystr) :
  matches FM_RE 0 s [] pos' s' caps ->
  exists fm body whole,
    caps = [fm; body] /\ fenced whole fm body /\ s = whole ++ s' /\ (s' = [] \/ s' = [10%N]).
Proof.
  unfold FM_RE. cbn [cats foldr]. cbn [matches].
  intros (p1 & s1 & c1 & (_ & E1 & E2 & E3) & Hm).
  destruct Hm as (p2 & s2 & c2 & Hw1 & Hm). apply matches_word in Hw1 as (E4 & E5 & E6).
  destruct Hm as (p3 & s3 & c3 & (w1 & E7 & Hws1 & E8 & E9) & Hm).
  destruct Hm as (p4 & s4 & c4 & (E10 & E11 & E12) & Hm).
  destruct Hm as (p5 & s5 & c5 & (c6 & (fm & E13 & _ & E14 & E15) & E16) & Hm).
  destruct Hm as (p6 & s6 & c6' & (E17 & E18 & E19) & Hm).
  destruct Hm as (p7 & s7 & c7 & Hw2 & Hm). apply matches_word in Hw2 as (E20 & E21 & E22).
  destruct Hm as (p8 & s8 & c8 & (w2 & E23 & Hws2 & E24 & E25) & Hm).
  destruct Hm as (p9 & s9 & c9 & (E26 & E27 & E28) & Hm).
  destruct Hm as (p10 & s10 & c10 & (c11 & (body & E29 & _ & E30 & E31) & E32) & Hm).
  destruct Hm as (p11 & s11 & c11' & (Hend & E33 & E34 & E35) & (E36 & E37 & E38)).
  subst.
  exists fm, body,
    (lit "---" ++ w1 ++ nl ++ fm ++ nl ++ lit "---" ++ w2 ++ nl ++ body).
  split.
  { cbn [app]. rewrite !Nat.add_sub'. rewrite !take_app_length. reflexivity. }
  split; [exists w1, w2; auto|].
  split; [|exact Hend].
  unfold nl. rewrite <- !app_assoc. cbn [app]. do 2 f_equal.
Qed.

Lemma fenced_matches (s fm body : pystr) :
  fenced s fm body -> exists pos', matches FM_RE 0 s [] pos' [] [fm; body].
Proof.
  intros (w1 & w2 & -> & Hw1 & Hw2).
  unfold FM_RE. cbn [cats foldr]. cbn [matches].
  eexists. eexists 0, _, []. split; [repeat split|].
  eexists _, _, _. split; [apply matches_word; split; [reflexivity|split; reflexivity]|].
  eexists _, _, _. split; [exists w1; split; [reflexivity|split; [exact Hw1|split; reflexivity]]|].
  eexists _, _, _. split; [split; [reflexivity|split; reflexivity]|].
  eexists _, _, _. split.
  { eexists. split; [exists fm; split; [reflexivity|]|reflexivity].
    split; [apply forallb_dot_all|split; reflexivity]. }
  eexists _, _, _. split; [split; [reflexivity|split; reflexivity]|].
  eexists _, _, _. split; [apply matches_word; split; [reflexivity|split; reflexivity]|].
  eexists _, _, _. split; [exists w2; split; [reflexivity|split; [exact Hw2|split; reflexivity]]|].
  eexists _, _, _. split; [split; [reflexivity|split; reflexivity]|].
  eexists _, _, _. split.
  { eexists. split; [exists body; split; [symmetry; apply app_nil_r|]|reflexivity].
    split; [apply forallb_dot_all|split; reflexivity]. }
  eexists _, _, _. split; [split; [left; reflexivity|split; [|split]; reflexivity]|].
  cbn [app]. rewrite !Nat.add_sub'.
  replace (take (length fm) _) with fm by (symmetry; apply take_app_length).
  replace (take (length body) _) with body by (symmetry; rewrite take_ge; [reflexivity|lia]).
  split; [reflexivity|split; reflexivity].
Qed.

(** On a stripped text, the pattern matches exactly the fenced texts. *)
Lemma fm_match_stripped (text : pystr) (caps : list pystr) :
  re_match FM_RE (strip text) = Some caps ->
  exists fm body, caps = [fm; body] /\ fenced (strip text) fm body.
Proof.
  intros (pos' & s' & Hm)%re_match_sound.
  destruct (fm_matches _ _ _ _ Hm) as (fm & body & whole & -> & Hf & Hs & Hend).
  exists fm, body. split; [reflexivity|].
  destruct Hend as [-> | ->].
  - rewrite app_nil_r in Hs. rewrite Hs. exact Hf.
  - pose proof (strip_last text _ 10%N Hs) as Hsp. discriminate.
Qed.

Section Frontmatter.
Context `{Host}.

(** [parse_frontmatter]. A text that, stripped, does not start with a line
    of three dashes, or has no block fenced by two such lines, has no front
    matter: the text is returned as the body, as it was given, and YAML is
    not consulted. A text with a fenced block is cut into the front matter
    and the body of such a block: the front matter goes to YAML, whose
    exception is raised as it comes, and whose empty or false document counts
    as the empty mapping; the body is what follows the closing line in the
    stripped text. *)
Theorem parse_frontmatter_spec (text : pystr) :
  (startswith (strip text) (lit "---") = false ->
   parse_frontmatter text = Ok (PDict [], text))
  /\ ((forall fm body, ~ fenced (strip text) fm body) ->
      parse_frontmatter text = Ok (PDict [], text))
  /\ (forall fm body,
        fenced (strip text) fm body ->
        exists fm' body',
          fenced (strip text) fm' body'
          /\ parse_frontmatter text
             = rbind (yaml_safe_load fm')
                 (fun loaded => Ok (if truthy loaded then loaded else PDict [], body'))).
Proof.
  assert (Hnone : (forall fm body, ~ fenced (strip text) fm body) ->
                  parse_frontmatter text = Ok (PDict [], text)).
  { intros Hno. unfold parse_frontmatter.
    destruct (re_match FM_RE (strip text)) as [caps|] eqn:Hm; [|reflexivity].
    destruct (fm_match_stripped _ _ Hm) as (fm & body & _ & Hf).
    destruct (Hno fm body Hf). }
  split; [|split; [exact Hnone|]].
  - intros Hstart. apply Hnone. intros fm body (w1 & w2 & Hs & _).
    rewrite Hs in Hstart. discriminate.
  - intros fm body Hf. unfold parse_frontmatter.
    destruct (fenced_matches _ _ _ Hf) as (pos' & Hm).
    destruct (re_match_complete _ _ _ _ _ Hm) as (caps & Hcaps).
    rewrite Hcaps.
    destruct (fm_match_stripped _ _ Hcaps) as (fm' & body' & -> & Hf').
    exists fm', body'. split; [exact Hf'|reflexivity].
Qed.

End Frontmatter.

(** A manuscript with a title in its front matter. *)
Definition with_front_matter : pystr := lit "
---
title: Hello
---

# Heading
".

Lemma parse_frontmatter_spec_witness :
  exists fm' body',
    fenced (strip with_front_matter) fm' body'
    /\ @parse_frontmatter ModelHost.model_host with_front_matter
       = rbind (ModelHost.model_yaml fm')
           (fun loaded => Ok (if truthy loaded then loaded else PDict [], body')).
Proof.
  apply (proj2 (proj2 (@parse_frontmatter_spec ModelHost.model_host with_front_matter))
           (lit "title: Hello") (lit "# Heading")).
  exists [], [10%N]. split; [vm_compute; reflexivity|]. split; reflexivity.
Defined.

End FrontmatterTheory.

(** ** The title *)

Module TitleTheory.
Import Py Re PyVal Publish StringTheory.

(** A heading line that carries nothing: [#] marks, then white space only. *)
Definition bare_heading (line : pystr) : Prop :=
  exists marks ws, line = repeat 35%N (S marks) ++ ws /\ forallb isspace ws = true.

(** The first line that starts with [#]. *)
Definition first_hash_line (lines : list pystr) (line : pystr) : Prop :=
  exists pre post,
    lines = pre ++ line :: post
    /\ Forall (fun l => startswith l (lit "#") = false) pre
    /\ startswith line (lit "#") = true.

Lemma first_heading_some (lines : list pystr) (h : pystr) :
  first_heading lines = Some h ->
  exists line, first_hash_line lines line /\ h = strip (lstrip_chars (lit "#") line).
Proof.
  induction lines as [|l lines IH]; cbn [first_heading]; [discriminate|].
  destruct (startswith l (lit "#")) eqn:Hl.
  - intros [= <-]. exists l. split; [|reflexivity]. exists [], lines. auto.
  - intros (line & (pre & post & -> & Hpre & Hline) & ->)%IH.
    exists line. split; [|reflexivity]. exists (l :: pre), post. auto.
Qed.

Lemma first_hash_line_heading (lines : list pystr) (line : pystr) :
  first_hash_line lines line ->
  first_heading lines = Some (strip (lstrip_chars (lit "#") line)).
Proof.
  intros (pre & post & -> & Hpre & Hline).
  induction Hpre as [|l pre Hl _ IH]; cbn [app first_heading].
  - rewrite Hline. reflexivity.
  - rewrite Hl. exact IH.
Qed.

Lemma is_hash (c : N) : existsb (N.eqb c) (lit "#") = (c =? 35)%N.
Proof. change (existsb (N.eqb c) (lit "#")) with ((c =? 35)%N || false). apply orb_false_r. Qed.

Lemma startswith_hash (line : pystr) :
  startswith line (lit "#") = true -> exists r, line = 35%N :: r.
Proof.
  destruct line as [|c r]; [discriminate|].
  change (startswith (c :: r) (lit "#")) with ((35 =? c)%N && true).
  intros [Hc _]%andb_true_iff. apply N.eqb_eq in Hc as <-. eauto.
Qed.

Lemma hash_marks (a : pystr) :
  forallb (fun c => existsb (N.eqb c) (lit "#")) a = true -> a = repeat 35%N (length a).
Proof.
  induction a as [|c a IH]; [reflexivity|]. cbn [forallb length repeat].
  intros [Hc Ha]%andb_true_iff. rewrite <- (IH Ha).
  rewrite is_hash in Hc. apply N.eqb_eq in Hc as ->. reflexivity.
Qed.

Lemma lstrip_hash_marks (n : nat) (ws : pystr) :
  forallb isspace ws = true -> lstrip_chars (lit "#") (repeat 35%N n ++ ws) = ws.
Proof.
  intros Hws. unfold lstrip_chars. induction n as [|n IH]; cbn [repeat app].
  - apply lstrip_by_fixed. intros c r ->. cbn [forallb] in Hws.
    apply andb_true_iff in Hws as [Hc _]. rewrite is_hash.
    destruct (N.eqb_spec c 35) as [->|]; [discriminate|reflexivity].
  - cbn [lstrip_by]. exact IH.
Qed.

Lemma strip_spaces (ws : pystr) : forallb isspace ws = true -> strip ws = [].
Proof.
  intros Hws. unfold strip.
  assert (Hl : lstrip_by isspace ws = []).
  { induction ws as [|c ws IH]; [reflexivity|]. cbn [forallb lstrip_by] in *.
    apply andb_true_iff in Hws as [-> Hws]. exact (IH Hws). }
  rewrite Hl. reflexivity.
Qed.

(** The heading read from a line is empty exactly when the line is bare. *)
Lemma heading_empty (line : pystr) :
  startswith line (lit "#") = true ->
  (strip (lstrip_chars (lit "#") line) = [] <-> bare_heading line).
Proof.
  intros Hline. split.
  - intros Hempty%strip_empty. unfold lstrip_chars in Hempty.
    destruct (lstrip_by_split (fun c => existsb (N.eqb c) (lit "#")) line) as (a & Hs & Ha).
    apply hash_marks in Ha.
    destruct a as [|c a].
    + cbn [app] in Hs. rewrite <- Hs in Hempty.
      destruct (startswith_hash _ Hline) as [r ->]. discriminate.
    + exists (length a), (lstrip_by (fun c => existsb (N.eqb c) (lit "#")) line).
      split; [|exact Hempty]. rewrite Hs at 1. rewrite Ha. reflexivity.
  - intros (marks & ws & -> & Hws). rewrite (lstrip_hash_marks _ _ Hws).
    apply strip_spaces, Hws.
Qed.

Lemma chapter_n_trimmed (day : Z) :
  strip (lit "Chapter " ++ str_of_int day) = lit "Chapter " ++ str_of_int day.
Proof.
  destruct (str_of_int_chars day) as [Hne Hall].
  apply strip_fixed.
  - intros c r [= <- _]. reflexivity.
  - intros a c Heq. rewrite List.Forall_forall in Hall. apply Hall.
    destruct (exists_last Hne) as (ds & d & Hds). rewrite Hds in *.
    rewrite app_assoc in Heq. apply app_inj_tail in Heq as [_ ->].
    apply in_or_app. right. left. reflexivity.
Qed.

Lemma nonblank_str_some (o : option pyval) (s : pystr) :
  nonblank_str o = Some s -> s <> [] /\ strip s = s.
Proof.
  unfold nonblank_str. destruct o as [[| | | |x| |]|]; try discriminate.
  destruct (strip x) as [|c r] eqn:Hx; [discriminate|].
  intros [= <-]. split; [discriminate|]. rewrite <- Hx. apply strip_strip.
Qed.

(** [derive_title]. Whatever the title comes from, it carries no white
    space around it. It is empty in one case only: the front matter gives
    no usable title, and the first line of the body that starts with [#]
    is a bare heading. *)
Theorem derive_title_trimmed (fm : pyval) (body : pystr) (day : Z) (t : pystr) :
  derive_title fm body day = Ok t ->
  exists o,
    py_get fm (lit "title") = Ok o
    /\ strip t = t
    /\ (t = [] <->
        nonblank_str o = None
        /\ exists line, first_hash_line (splitlines body) line /\ bare_heading line).
Proof.
  unfold derive_title.
  destruct (py_get fm (lit "title")) as [o|e]; cbn [rbind]; [|discriminate].
  intros Ht. exists o. split; [reflexivity|].
  destruct (nonblank_str o) as [s|] eqn:Ho.
  - injection Ht as <-. destruct (nonblank_str_some _ _ Ho) as [Hne Hs].
    split; [exact Hs|]. split; [intros Hnil; contradiction|intros [[=] _]].
  - destruct (first_heading (splitlines body)) as [h|] eqn:Hh; injection Ht as <-.
    + destruct (first_heading_some _ _ Hh) as (line & Hline & ->).
      split; [apply strip_strip|].
      pose proof Hline as (pre & post & Hsplit & Hpre & Hstart).
      split.
      * intros Hempty. split; [reflexivity|]. exists line.
        split; [exact Hline|]. apply (heading_empty line Hstart), Hempty.
      * intros (_ & line' & Hline' & Hbare).
        rewrite (first_hash_line_heading _ _ Hline') in Hh. injection Hh as <-.
        destruct Hline' as (_ & _ & _ & _ & Hstart').
        apply (heading_empty line' Hstart'), Hbare.
    + split; [apply chapter_n_trimmed|]. split; [discriminate|].
      intros (_ & line & Hline & _).
      rewrite (first_hash_line_heading _ _ Hline) in Hh. discriminate.
Qed.

Lemma derive_title_trimmed_witness :
  exists o,
    py_get (PDict []) (lit "title") = Ok o
    /\ strip (lit "Dawn") = lit "Dawn"
    /\ (lit "Dawn" = [] <->
        nonblank_str o = None
        /\ exists line,
             first_hash_line (splitlines (lit "Prologue
##  Dawn ")) line
             /\ bare_heading line).
Proof.
  apply (derive_title_trimmed (PDict []) (lit "Prologue
##  Dawn ") 7 (lit "Dawn")).
  vm_compute. reflexivity.
Defined.

End TitleTheory.

(** ** The excerpt *)

Module ExcerptTheory.
Import Py Re PyVal Publish ReTheory StringTheory.

(** The markers [derive_excerpt] removes. *)
Definition is_marker (c : N) : bool := existsb (N.eqb c) (lit "#*_>`").

(** Every character of [s] is a character of [t]. *)
Definition chars_of (s t : pystr) : Prop := forall c, In c s -> In c t.

Lemma chars_of_refl (s : pystr) : chars_of s s.
Proof. intros c Hc. exact Hc. Qed.

Lemma chars_of_trans (s t u : pystr) : chars_of s t -> chars_of t u -> chars_of s u.
Proof. intros Hst Htu c Hc. apply Htu, Hst, Hc. Qed.

Lemma chars_of_take (n : nat) (s : pystr) : chars_of (take n s) s.
Proof. intros c Hc. apply list_elem_of_In. apply list_elem_of_In in Hc.
       exact (subseteq_take n s c Hc). Qed.

Lemma chars_of_app_r (a s : pystr) : chars_of s (a ++ s).
Proof. intros c Hc. apply in_or_app. right. exact Hc. Qed.

(** The groups a match closes are pieces of the subject. *)
Lemma matches_caps (r : regex) :
  forall pos s caps pos' s' caps',
    matches r pos s caps pos' s' caps' ->
    exists new, caps' = caps ++ new /\ Forall (fun g => chars_of g s) new.
Proof.
  induction r as [|c|p|r1 IH1 r2 IH2|g p|r1 IH1| |];
    intros pos s caps pos' s' caps'; cbn [matches].
  - intros (_ & _ & ->). exists []. rewrite app_nil_r. auto.
  - intros (_ & _ & ->). exists []. rewrite app_nil_r. auto.
  - intros (c & _ & _ & _ & ->). exists []. rewrite app_nil_r. auto.
  - intros (p1 & s1 & c1 & Hm1 & Hm2).
    destruct (IH1 _ _ _ _ _ _ Hm1) as (n1 & -> & Hn1).
    destruct (IH2 _ _ _ _ _ _ Hm2) as (n2 & -> & Hn2).
    destruct (matches_span _ _ _ _ _ _ _ Hm1) as (a & -> & _).
    exists (n1 ++ n2). rewrite app_assoc. split; [reflexivity|].
    apply Forall_app. split; [exact Hn1|].
    eapply Forall_impl; [exact Hn2|]. intros g Hg.
    exact (chars_of_trans _ _ _ Hg (chars_of_app_r a s1)).
  - intros (a & _ & _ & _ & ->). exists []. rewrite app_nil_r. auto.
  - intros (c1 & Hm1 & ->).
    destruct (IH1 _ _ _ _ _ _ Hm1) as (n1 & -> & Hn1).
    exists (n1 ++ [take (pos' - pos) s]). rewrite app_assoc. split; [reflexivity|].
    apply Forall_app. split; [exact Hn1|]. constructor; [apply chars_of_take|constructor].
  - intros (_ & _ & _ & ->). exists []. rewrite app_nil_r. auto.
  - intros (_ & _ & _ & ->). exists []. rewrite app_nil_r. auto.
Qed.

Lemma match_at_caps (r : regex) (pos : nat) (s rest : pystr) (caps : list pystr) :
  match_at r pos s = Some (rest, caps) -> Forall (fun g => chars_of g s) caps.
Proof.
  unfold match_at. intros (pos' & s' & caps' & Hm & [= <- <-])%run_sound.
  destruct (matches_caps _ _ _ _ _ _ _ Hm) as (new & -> & Hnew). exact Hnew.
Qed.

Lemma group_chars (i : nat) (caps : list pystr) (s : pystr) :
  Forall (fun g => chars_of g s) caps -> chars_of (group i caps) s.
Proof.
  intros Hcaps. unfold group.
  destruct (nth_in_or_default (i - 1) caps []) as [Hin| ->].
  - rewrite List.Forall_forall in Hcaps. exact (Hcaps _ Hin).
  - intros c [].
Qed.

(** A substitution that puts a group of the match in the place of the
    match adds no character. *)
Lemma sub_aux_chars (r : regex) (i : nat) (s : pystr) :
  forall skip pos, chars_of (sub_aux r (group i) skip pos s) s.
Proof.
  induction s as [|c rest IH]; intros skip pos x; cbn [sub_aux]; [auto|].
  destruct skip as [|n].
  - destruct (match_at r pos (c :: rest)) as [[rest' caps]|] eqn:Hm.
    + destruct (length (c :: rest) - length rest') as [|n].
      * intros [<-|Hx]; [left; reflexivity|right; exact (IH _ _ _ Hx)].
      * intros [Hx|Hx]%in_app_or.
        -- exact (group_chars i caps _ (match_at_caps _ _ _ _ _ Hm) x Hx).
        -- right. exact (IH _ _ _ Hx).
    + intros [<-|Hx]; [left; reflexivity|right; exact (IH _ _ _ Hx)].
  - intros Hx. right. exact (IH _ _ _ Hx).
Qed.

Lemma match_at_marker (pos : nat) (c : N) (rest : pystr) :
  match_at MARKER_RE pos (c :: rest) = if is_marker c then Some (rest, []) else None.
Proof. reflexivity. Qed.

(** Removing the markers is filtering them out. *)
Lemma sub_markers (s : pystr) :
  forall pos, sub_aux MARKER_RE (fun _ => []) 0 pos s = List.filter (fun c => negb (is_marker c)) s.
Proof.
  induction s as [|c rest IH]; intros pos; [reflexivity|].
  cbn [sub_aux]. rewrite match_at_marker.
  pose proof (IH (S pos)) as IH'.
  destruct (is_marker c) eqn:Hc.
  - replace (length (c :: rest) - length rest) with 1 by (cbn [length]; lia).
    cbn [app]. rewrite IH'. cbn [List.filter]. rewrite Hc. reflexivity.
  - rewrite IH'. cbn [List.filter]. rewrite Hc. reflexivity.
Qed.

Lemma strip_markup_chars (body : pystr) :
  Forall (fun c => is_marker c = false /\ In c body) (strip_markup body).
Proof.
  unfold strip_markup, re_sub. cbv zeta. rewrite sub_markers.
  apply List.Forall_forall. intros c Hc. apply filter_In in Hc as [Hc Hm].
  split; [destruct (is_marker c); [discriminate|reflexivity]|].
  exact (sub_aux_chars LINK_RE 1 body 0 0 c Hc).
Qed.

(** The pieces of a split are made of the characters of the text. *)
Lemma split_aux_chars (r : regex) (s : pystr) :
  forall skip pos cur piece,
    In piece (split_aux r skip pos cur s) -> chars_of piece (rev cur ++ s).
Proof.
  induction s as [|c rest IH]; intros skip pos cur piece; cbn [split_aux].
  - intros [<-|[]]. rewrite app_nil_r. apply chars_of_refl.
  - assert (Hnext : forall skip' pos',
               In piece (split_aux r skip' pos' (c :: cur) rest) ->
               chars_of piece (rev cur ++ c :: rest)).
    { intros skip' pos' Hin. specialize (IH _ _ _ _ Hin).
      cbn [rev] in IH. rewrite <- app_assoc in IH. exact IH. }
    assert (Hskip : forall skip' pos' cur',
               chars_of (rev cur') (rev cur) ->
               In piece (split_aux r skip' pos' cur' rest) ->
               chars_of piece (rev cur ++ c :: rest)).
    { intros skip' pos' cur' Hcur Hin x Hx. specialize (IH _ _ _ _ Hin x Hx).
      apply in_app_or in IH as [Hl|Hr]; apply in_or_app;
        [left; exact (Hcur x Hl)|right; right; exact Hr]. }
    destruct skip as [|n].
    + destruct (match_at r pos (c :: rest)) as [[rest' caps]|].
      * destruct (length (c :: rest) - length rest') as [|n]; [apply Hnext|].
        intros [<-|Hin].
        -- intros x Hx. apply in_or_app. left. exact Hx.
        -- apply (Hskip n (S pos) []); [intros x []|exact Hin].
      * apply Hnext.
    + apply (Hskip n (S pos) cur), chars_of_refl.
Qed.

Lemma re_split_chars (r : regex) (s piece : pystr) :
  In piece (re_split r s) -> chars_of piece s.
Proof. intros Hin. exact (split_aux_chars r s 0 0 [] piece Hin). Qed.

(** A word: not empty, and without white space. *)
Definition is_word (w : pystr) : Prop := w <> [] /\ Forall (fun c => isspace c = false) w.

Lemma split_ws_aux_words (s : pystr) :
  forall cur,
    Forall (fun c => isspace c = false) cur ->
    Forall (fun w => is_word w /\ chars_of w (rev cur ++ s)) (split_ws_aux cur s).
Proof.
  induction s as [|c rest IH]; intros cur Hcur; cbn [split_ws_aux].
  - destruct cur as [|x cur]; [constructor|].
    constructor; [|constructor]. rewrite app_nil_r.
    split; [|apply chars_of_refl]. split.
    + intros Hnil. apply (f_equal (@length N)) in Hnil.
      rewrite length_rev in Hnil. discriminate.
    + apply List.Forall_forall. intros y Hy. apply in_rev in Hy.
      rewrite List.Forall_forall in Hcur. exact (Hcur y Hy).
  - destruct (isspace c) eqn:Hc.
    + assert (Hrest : Forall (fun w => is_word w /\ chars_of w (rev cur ++ c :: rest))
                        (split_ws_aux [] rest)).
      { eapply Forall_impl; [exact (IH [] (List.Forall_nil _))|].
        intros w [Hw Hch]. split; [exact Hw|].
        intros x Hx. apply in_or_app. right. right. exact (Hch x Hx). }
      destruct cur as [|x cur]; [exact Hrest|].
      constructor; [|exact Hrest]. split.
      * split.
        -- intros Hnil. apply (f_equal (@length N)) in Hnil.
           rewrite length_rev in Hnil. discriminate.
        -- apply List.Forall_forall. intros y Hy. apply in_rev in Hy.
           rewrite List.Forall_forall in Hcur. exact (Hcur y Hy).
      * intros y Hy. apply in_or_app. left. exact Hy.
    + assert (Hcur' : Forall (fun c => isspace c = false) (c :: cur))
        by (constructor; assumption).
      specialize (IH (c :: cur) Hcur').
      cbn [rev] in IH. rewrite <- app_assoc in IH. exact IH.
Qed.

Lemma split_ws_words (s : pystr) :
  Forall (fun w => is_word w /\ chars_of w s) (split_ws s).
Proof. exact (split_ws_aux_words s [] (List.Forall_nil _)). Qed.

Lemma strip_chars (s : pystr) : chars_of (strip s) s.
Proof.
  destruct (strip_split s) as (a & b & Hs & _). intros c Hc.
  rewrite Hs. apply in_or_app. right. apply in_or_app. left. exact Hc.
Qed.

(** What the loop returns: nothing, or a paragraph of forty characters or
    more, normalised and cut. *)
Lemma first_excerpt_cases (paras : list pystr) :
  first_excerpt paras = []
  \/ exists p, In p paras /\ 40 <= length (normalize p)
               /\ first_excerpt paras = MetadataTheory.truncated (normalize p).
Proof.
  induction paras as [|q paras IH]; [left; reflexivity|].
  cbn [first_excerpt].
  destruct (Nat.leb_spec 40 (length (normalize q))) as [Hq|Hq].
  - right. exists q. split; [left; reflexivity|]. split; [exact Hq|reflexivity].
  - destruct IH as [IH|(p & Hp & Hlen & IH)]; [left; exact IH|].
    right. exists p. split; [right; exact Hp|]. split; [exact Hlen|exact IH].
Qed.

Lemma truncated_length (s : pystr) : length (MetadataTheory.truncated s) <= 201.
Proof.
  unfold MetadataTheory.truncated. rewrite length_app, length_take.
  destruct (Nat.ltb 200 (length s)); unfold ELLIPSIS; cbn [length]; lia.
Qed.

(** [derive_excerpt], when the front matter gives no usable excerpt. The
    excerpt is empty, or it is made of words of the body: runs of characters
    of the body that are neither white space nor markers, with one space
    between two words. Such an excerpt is forty characters long at least
    before it is cut to two hundred characters and the ellipsis; so it holds
    no line break, no tab and no marker, and 201 characters at most. *)
Theorem derive_excerpt_clean (fm : list (pystr * pyval)) (body e : pystr) :
  nonblank_str (dict_get (lit "excerpt") fm) = None ->
  derive_excerpt (PDict fm) body = Ok e ->
  e = []
  \/ exists words,
       Forall (fun w => is_word w
                        /\ Forall (fun c => is_marker c = false /\ In c body) w) words
       /\ 40 <= length (join (lit " ") words)
       /\ e = take 200 (join (lit " ") words)
              ++ (if Nat.ltb 200 (length (join (lit " ") words)) then ELLIPSIS else [])
       /\ length e <= 201.
Proof.
  intros Hnb. rewrite (MetadataTheory.derive_excerpt_body _ _ Hnb). intros [= <-].
  destruct (first_excerpt_cases (MetadataTheory.paragraphs body))
    as [Hnone|(p & Hp & Hlen & Hsome)]; [left; exact Hnone|].
  right. exists (split_ws (strip p)).
  split; [|split; [exact Hlen|split; [exact Hsome|rewrite Hsome; apply truncated_length]]].
  pose proof (re_split_chars _ _ _ Hp) as Hpara.
  pose proof (strip_markup_chars body) as Hmark. rewrite List.Forall_forall in Hmark.
  eapply Forall_impl; [exact (split_ws_words (strip p))|].
  intros w [Hw Hch]. split; [exact Hw|].
  apply List.Forall_forall. intros c Hc.
  apply Hmark, Hpara, strip_chars, Hch, Hc.
Qed.

Lemma derive_excerpt_clean_witness :
  lit "A bright cold day in April, clocks at 13" = []
  \/ exists words,
       Forall (fun w => is_word w
                        /\ Forall (fun c => is_marker c = false
                                            /\ In c MetadataTheory.forty) w) words
       /\ 40 <= length (join (lit " ") words)
       /\ lit "A bright cold day in April, clocks at 13"
          = take 200 (join (lit " ") words)
            ++ (if Nat.ltb 200 (length (join (lit " ") words)) then ELLIPSIS else [])
       /\ length (lit "A bright cold day in April, clocks at 13") <= 201.
Proof.
  apply (derive_excerpt_clean [] MetadataTheory.forty); vm_compute; reflexivity.
Defined.

End ExcerptTheory.

(** ** Escaping *)

Module EscapeTheory.
Import Py PyVal Publish FeedTheory.

Lemma esc_char_special (c : N) :
  special c = true -> exists r, esc_char c = 38%N :: r.
Proof.
  unfold special, esc_char.
  destruct (N.eqb_spec c 38); [eexists; reflexivity|].
  destruct (N.eqb_spec c 60); [eexists; reflexivity|].
  destruct (N.eqb_spec c 62); [eexists; reflexivity|].
  destruct (N.eqb_spec c 34); [eexists; reflexivity|discriminate].
Qed.

Lemma esc_char_plain (c : N) : special c = false -> esc_char c = [c].
Proof.
  unfold special, esc_char.
  destruct (N.eqb_spec c 38); [discriminate|].
  destruct (N.eqb_spec c 60); [discriminate|].
  destruct (N.eqb_spec c 62); [discriminate|].
  destruct (N.eqb_spec c 34); [discriminate|reflexivity].
Qed.

Lemma special_cases (c : N) :
  special c = true -> c = 38%N \/ c = 60%N \/ c = 62%N \/ c = 34%N.
Proof.
  unfold special.
  destruct (N.eqb_spec c 38); [auto|].
  destruct (N.eqb_spec c 60); [auto|].
  destruct (N.eqb_spec c 62); [auto|].
  destruct (N.eqb_spec c 34); [auto|discriminate].
Qed.

(** The text of one escaped character tells the character, whatever follows. *)
Lemma esc_char_inj (c d : N) (s t : pystr) :
  esc_char c ++ s = esc_char d ++ t -> c = d /\ s = t.
Proof.
  destruct (special c) eqn:Hc, (special d) eqn:Hd.
  - destruct (special_cases c Hc) as [->|[->|[->| ->]]],
      (special_cases d Hd) as [->|[->|[->| ->]]];
      intros Heq; vm_compute in Heq; try discriminate;
      injection Heq as ->; auto.
  - rewrite (esc_char_plain d Hd). destruct (esc_char_special c Hc) as [r ->].
    intros [= <- _]. discriminate.
  - rewrite (esc_char_plain c Hc). destruct (esc_char_special d Hd) as [r ->].
    intros [= -> _]. discriminate.
  - rewrite (esc_char_plain c Hc), (esc_char_plain d Hd). intros [= -> ->]. auto.
Qed.

Lemma esc_char_nonempty (c : N) : 1 <= length (esc_char c).
Proof.
  destruct (special c) eqn:Hc.
  - destruct (esc_char_special c Hc) as [r ->]. cbn [length]. lia.
  - rewrite (esc_char_plain c Hc). reflexivity.
Qed.

Lemma esc_char_special_length (c : N) : special c = true -> 2 <= length (esc_char c).
Proof.
  intros Hc. destruct (special_cases c Hc) as [->|[->|[->| ->]]]; vm_compute; lia.
Qed.

(** [esc], the escaping of the feed. Every character is escaped once: the
    ampersand that an entity starts with is not escaped again. The escaped
    text can be read back, so two texts with the same escaped text are the
    same text. Escaping goes through concatenation, never shortens a text,
    and leaves exactly the texts without an ampersand, an angle bracket or
    a double quote as they are. *)
Theorem esc_reversible (s t : pystr) :
  esc s = flat_map esc_char s
  /\ (esc s = esc t -> s = t)
  /\ esc (s ++ t) = esc s ++ esc t
  /\ length s <= length (esc s)
  /\ (esc s = s <-> forallb (fun c => negb (special c)) s = true).
Proof.
  rewrite !esc_pointwise.
  assert (Hlen : forall u, length u <= length (flat_map esc_char u)).
  { induction u as [|c u IH]; cbn [flat_map length]; [lia|].
    rewrite length_app. pose proof (esc_char_nonempty c). lia. }
  split; [reflexivity|]. split; [|split; [apply flat_map_app|split; [apply Hlen|]]].
  - revert t. induction s as [|c s IH]; intros [|d t]; cbn [flat_map].
    + reflexivity.
    + intros Heq. pose proof (esc_char_nonempty d) as Hd.
      apply (f_equal (@length N)) in Heq. rewrite length_app in Heq. cbn [length] in Heq. lia.
    + intros Heq. pose proof (esc_char_nonempty c) as Hc.
      apply (f_equal (@length N)) in Heq. rewrite length_app in Heq. cbn [length] in Heq. lia.
    + intros [-> Heq]%esc_char_inj. f_equal. apply IH, Heq.
  - induction s as [|c s IH]; cbn [flat_map forallb]; [tauto|].
    destruct (special c) eqn:Hc; cbn [negb andb].
    + split; [|discriminate]. intros Heq.
      apply (f_equal (@length N)) in Heq. rewrite length_app in Heq. cbn [length] in Heq.
      pose proof (Hlen s). pose proof (esc_char_special_length c Hc). lia.
    + rewrite (esc_char_plain c Hc). cbn [app]. rewrite <- IH.
      split; [intros [= Heq]; exact Heq|intros ->; reflexivity].
Qed.

Lemma esc_reversible_witness :
  esc (litq "Q & A: ~1 < 2~") = lit "Q &amp; A: &quot;1 &lt; 2&quot;"
  /\ (esc (lit "&lt;") = esc (lit "<") -> lit "&lt;" = lit "<")
  /\ (esc (lit "plain") = lit "plain").
Proof.
  split; [reflexivity|]. split.
  - apply (proj1 (proj2 (esc_reversible (lit "&lt;") (lit "<")))).
  - apply (proj2 (proj2 (proj2 (proj2 (esc_reversible (lit "plain") []))))). reflexivity.
Defined.

End EscapeTheory.

(** ** The index *)

Module IndexTheory.
Import Py Datetime PyVal Fs Publish PublishTheory.
Local Open Scope Z_scope.

(** [merge_record] keeps the index in order. A day that has a record keeps
    its place among the days; a new day goes after all the others, and is
    the only key added. The entries of the index beside [chapters] stay as
    they are, and an index without [chapters] gets it as its last entry. *)
Theorem merge_record_order (index merged record : pyval) (day_num : Z) :
  merge_record index day_num record = Ok merged ->
  exists d old d' new,
    index = PDict d /\ merged = PDict d'
    /\ old = match dict_get (lit "chapters") d with
             | Some (PDict chapters) => chapters
             | _ => []
             end
    /\ dict_get (lit "chapters") d' = Some (PDict new)
    /\ map fst new = match dict_get (str_of_int day_num) old with
                     | Some _ => map fst old
                     | None => map fst old ++ [str_of_int day_num]
                     end
    /\ map fst d' = match dict_get (lit "chapters") d with
                    | Some _ => map fst d
                    | None => map fst d ++ [lit "chapters"]
                    end
    /\ (forall k, k <> lit "chapters" -> dict_get k d' = dict_get k d).
Proof.
  destruct index as [| | | | | |d]; cbn [merge_record]; try discriminate.
  unfold dict_setdefault.
  destruct (dict_get (lit "chapters") d) as [v|] eqn:Hget.
  - rewrite Hget. destruct v as [| | | | | |chapters]; try discriminate.
    intros [= <-].
    exists d, chapters, (dict_set (lit "chapters")
                           (PDict (dict_set (str_of_int day_num) record chapters)) d),
      (dict_set (str_of_int day_num) record chapters).
    split; [reflexivity|]. split; [reflexivity|]. split; [rewrite Hget; reflexivity|].
    split; [apply dict_get_set|].
    split; [apply dict_set_keys|].
    split; [rewrite dict_set_keys, Hget; reflexivity|].
    intros k Hk. apply dict_get_set_ne, Hk.
  - rewrite dict_get_set. intros [= <-].
    exists d, [], (dict_set (lit "chapters") (PDict [(str_of_int day_num, record)])
                     (dict_set (lit "chapters") (PDict []) d)),
      [(str_of_int day_num, record)].
    split; [reflexivity|]. split; [reflexivity|]. split; [rewrite Hget; reflexivity|].
    split; [apply dict_get_set|].
    split; [reflexivity|].
    split.
    + rewrite !dict_set_keys, dict_get_set, Hget. reflexivity.
    + intros k Hk. rewrite !dict_get_set_ne by exact Hk. reflexivity.
Qed.

Lemma merge_record_order_witness :
  exists d old d' new,
    first_index = PDict d
    /\ merge_record first_index 2 PNone = Ok (PDict d')
    /\ old = match dict_get (lit "chapters") d with
             | Some (PDict chapters) => chapters
             | _ => []
             end
    /\ dict_get (lit "chapters") d' = Some (PDict new)
    /\ map fst new = [lit "1"; lit "2"]
    /\ map fst d' = [lit "chapters"].
Proof.
  destruct (merge_record first_index 2 PNone) as [[| | | | | |d']|e] eqn:Hm;
    try (vm_compute in Hm; discriminate).
  destruct (merge_record_order first_index (PDict d') PNone 2 Hm)
    as (d & old & d0 & new & Hd & [= <-] & Hold & Hnew & Hkeys & Htop & _).
  exists d, old, d', new.
  injection Hd as <-. cbn in Hold. subst old.
  split; [reflexivity|]. split; [reflexivity|]. split; [reflexivity|].
  split; [exact Hnew|]. split; [exact Hkeys|exact Htop].
Defined.

Section Index.
Context `{Host}.

(** [load_index] and [save_index]. Without an index file the index is the
    empty one; with one, it is what [json.loads] makes of the text, its
    exception included. With a JSON library that reads back what it writes,
    the index that was saved is the index that is loaded next, whatever the
    file held before; the files are left as they are by the loading. *)
Theorem load_index_after_save (index : pyval) (w w' : world) :
  (files w !! CHAPTERS_JSON = None ->
   load_index w = (w, Ok (PDict [(lit "chapters", PDict [])])))
  /\ (forall text, files w !! CHAPTERS_JSON = Some text ->
        load_index w = (w, json_loads text))
  /\ (json_round_trip -> save_index index w = (w', Ok tt) ->
      load_index w' = (w', Ok index)).
Proof.
  split; [intros Hnone; rewrite load_index_eq, Hnone; reflexivity|].
  split; [intros text Htext; rewrite load_index_eq, Htext; reflexivity|].
  intros Hlaw Hsave. rewrite load_index_eq.
  unfold save_index in Hsave. rewrite (write_text_done _ _ _ _ Hsave), Hlaw. reflexivity.
Qed.

End Index.

Lemma load_index_after_save_witness :
  exists w',
    @save_index ModelHost.model_host first_index sample_project = (w', Ok tt)
    /\ @load_index ModelHost.model_host w' = (w', Ok first_index).
Proof.
  destruct (@save_index ModelHost.model_host first_index sample_project) as [w' [[]|e]] eqn:Hs;
    [|vm_compute in Hs; discriminate].
  exists w'. split; [reflexivity|].
  exact (proj2 (proj2 (@load_index_after_save ModelHost.model_host first_index
                         sample_project w'))
           model_round_trip Hs).
Defined.

End IndexTheory.

(** ** What a run writes *)

Module FrameTheory.
Import Py Datetime PyVal Fs Publish PublishTheory StringTheory.
Local Open Scope Z_scope.

(** Two days have two chapter pages, and two index keys. *)
Lemma chapter_paths_inj (a b : Z) : chapter_paths a = chapter_paths b -> a = b.
Proof.
  unfold chapter_paths. cbv zeta. intros [= _ Heq].
  apply app_inv_tail in Heq. exact (zfill_int_inj 3 a b Heq).
Qed.

Section Frame.
Context `{Host}.

(** [publish] writes four files and no other: the page of the day, the
    index, the listing and the feed. Whatever the day, the arguments and the
    outcome, every other file holds afterwards what it held before: the
    manuscripts, the templates, and the pages of the other days. The page
    and the index key of a day belong to that day alone. *)
Theorem publish_writes_only (day_num : Z) (dry_run : bool) (w : world) :
  (forall q,
      q <> fst (chapter_paths day_num) -> q <> CHAPTERS_JSON -> q <> CHAPTERS_HTML ->
      q <> RSS_XML ->
      files (fst (publish day_num dry_run w)) !! q = files w !! q)
  /\ (forall other,
        other <> day_num ->
        fst (chapter_paths other) <> fst (chapter_paths day_num)
        /\ str_of_int other <> str_of_int day_num
        /\ files (fst (publish day_num dry_run w)) !! fst (chapter_paths other)
           = files w !! fst (chapter_paths other)).
Proof.
  assert (Hframe : forall q,
             q <> fst (chapter_paths day_num) -> q <> CHAPTERS_JSON -> q <> CHAPTERS_HTML ->
             q <> RSS_XML ->
             files (fst (publish day_num dry_run w)) !! q = files w !! q).
  { intros q Hc Hj Hh Hr. rewrite publish_split.
    pose proof (reads_only_prepare day_num w) as Hw.
    destruct (prepare day_num w) as [w1 [[[ch html] record]|e]]; cbn [fst] in Hw; subst w1;
      [|reflexivity].
    destruct dry_run; [reflexivity|].
    pose proof (untouched_commit q day_num html record Hc Hj Hh Hr w) as Hkeep.
    destruct (commit day_num html record w) as [w2 [[]|e]]; exact Hkeep. }
  split; [exact Hframe|].
  intros other Hother.
  assert (Hpath : fst (chapter_paths other) <> fst (chapter_paths day_num)).
  { intros Heq. apply Hother, chapter_paths_inj.
    unfold chapter_paths in *. cbv zeta in *. cbn [fst] in Heq.
    unfold path_join in Heq. apply app_inv_head in Heq. apply app_inv_head in Heq.
    rewrite Heq. reflexivity. }
  split; [exact Hpath|].
  split; [intros Heq; apply Hother, str_of_int_inj, Heq|].
  apply Hframe; [exact Hpath| | |].
  - apply chapter_path_not_index.
  - apply chapter_path_not_listing.
  - apply chapter_path_not_feed.
Qed.

Definition TEMPLATE_PATH : pystr := path_join TEMPLATES_DIR (lit "chapter_template.html").

(** How [publish] fails before it writes. A day without a date raises
    [OverflowError]; a day without a manuscript raises [FileNotFoundError]
    with the message that names the three candidates; a project without the
    chapter template never publishes, and when the manuscript was read and
    its title and excerpt derived, the exception is [FileNotFoundError] for
    the template. In each case, dry run or not, no file is changed. *)
Theorem publish_fails_clean (day_num : Z) (dry_run : bool) (w : world) :
  (day_num < -739615 \/ 2912443 < day_num ->
   publish day_num dry_run w = (w, Raise OverflowError))
  /\ (forall d,
        date_for_day_number day_num = Ok d ->
        Forall (fun q => files w !! q = None) (candidates d day_num) ->
        publish day_num dry_run w
        = (w, Raise (FileNotFoundError (not_found_message day_num (candidates d day_num)))))
  /\ (files w !! TEMPLATE_PATH = None ->
      exists e,
        publish day_num dry_run w = (w, Raise e)
        /\ (forall path raw fm body t x,
              find_manuscript_for_day day_num w = (w, Ok path) ->
              files w !! path = Some raw ->
              parse_frontmatter raw = Ok (fm, body) ->
              derive_title fm body day_num = Ok t ->
              derive_excerpt fm body = Ok x ->
              e = FileNotFoundError TEMPLATE_PATH)).
Proof.
  split; [|split].
  - intros Hout. rewrite publish_split. unfold prepare, bind.
    rewrite find_manuscript_for_day_eq.
    rewrite (proj2 (DateTheory.date_for_day_number_ok day_num) Hout). reflexivity.
  - intros d Hd Hnone. rewrite publish_split. unfold prepare, bind.
    rewrite find_manuscript_for_day_eq, Hd.
    rewrite (SourceTheory.find_none_present w _ Hnone). reflexivity.
  - intros Htpl. rewrite publish_split.
    pose proof (reads_only_prepare day_num w) as Hw.
    destruct (prepare day_num w) as [w1 [[[ch html] record]|e]] eqn:Hprep;
      cbn [fst] in Hw; subst w1.
    + destruct (prepare_ok _ _ _ _ _ _ Hprep)
        as (_ & _ & path & raw & fm & body & _ & _ & _ & _ & _ & _ & _ & _ & Hrender).
      revert Hrender. unfold render_chapter_html, load_template, bind, read_text.
      fold TEMPLATE_PATH. rewrite Htpl. discriminate.
    + exists e. split; [reflexivity|].
      intros path raw fm body t x Hfind Hraw Hparse Ht Hx.
      revert Hprep. unfold prepare, bind. rewrite Hfind.
      unfold read_text at 1. rewrite Hraw. unfold lift. rewrite Hparse, Ht, Hx.
      destruct (date_for_day_number day_num) as [d|e'] eqn:Hd; cbv zeta.
      * unfold render_chapter_html, load_template, bind, read_text.
        fold TEMPLATE_PATH. rewrite Htpl. intros [= <-]. reflexivity.
      * rewrite find_manuscript_for_day_eq, Hd in Hfind. discriminate.
Qed.

End Frame.

Lemma publish_writes_only_witness :
  files (fst (@publish ModelHost.model_host 1 false sample_project))
    !! lit "manuscript/2026-01-01.md"
  = files sample_project !! lit "manuscript/2026-01-01.md"
  /\ fst (chapter_paths 2) <> fst (chapter_paths 1).
Proof.
  split.
  - apply (proj1 (@publish_writes_only ModelHost.model_host 1 false sample_project));
      intros Heq; vm_compute in Heq; discriminate.
  - apply (proj2 (@publish_writes_only ModelHost.model_host 1 false sample_project) 2).
    lia.
Defined.

Lemma publish_fails_clean_witness :
  @publish ModelHost.model_host 2912444 false sample_project
  = (sample_project, Raise OverflowError).
Proof.
  apply (proj1 (@publish_fails_clean ModelHost.model_host 2912444 false sample_project)).
  lia.
Defined.

End FrameTheory.

(** ** The command lines *)

Module MainTheory.
Import Py Datetime PyVal Fs Publish Script DateTheory.
Local Open Scope Z_scope.

(** A shell for concrete runs: [str.lower] on ASCII letters. *)
Definition model_lower (s : pystr) : pystr :=
  map (fun c => if ((65 <=? c) && (c <=? 90))%N then (c + 32)%N else c) s.

Definition model_shell : Shell :=
  {| py_lower := model_lower;
     json_dump := fun v => [ModelHost.model_dumps v];
     locale_encodes := utf8 |}.

Lemma day_in_range (dn : Z) :
  1 <= dn <= 365 -> exists d, date_for_day_number dn = Ok d /\ year d = 2026.
Proof.
  intros Hdn. pose proof (CalendarTheory.round_trips_in_range dn Hdn) as Hrt.
  unfold CalendarTheory.round_trips in Hrt.
  destruct (date_for_day_number dn) as [d|e]; [|discriminate].
  exists d. split; [reflexivity|].
  apply andb_true_iff in Hrt as [Hy _]. apply Z.eqb_eq, Hy.
Qed.

Lemma day_number_for_date_range (d : date) (n : Z) :
  day_number_for_date d = Some n -> 1 <= n <= 365.
Proof.
  unfold day_number_for_date. destruct (negb (year d =? 2026)); [discriminate|].
  cbv zeta. destruct (Z.leb_spec 1 (sub_days d START_DATE + 1)); [|discriminate].
  destruct (Z.leb_spec (sub_days d START_DATE + 1) 365); [|discriminate].
  intros [= <-]. lia.
Qed.

Section Main.
Context `{Host} `{Shell}.

Lemma publish_main_day_range (day : pystr) (today : date) (dn : Z) :
  PublishMain.main_day day today = Returned dn -> 1 <= dn <= 365.
Proof.
  unfold PublishMain.main_day. case_bool_decide as Hday.
  - destruct (day_number_for_date today) as [n|] eqn:Hn; [|discriminate].
    intros [= <-]. exact (day_number_for_date_range _ _ Hn).
  - destruct (py_int day) as [n|e]; [|discriminate].
    destruct (Z.leb_spec 1 n), (Z.leb_spec n 365); cbn [andb negb]; try discriminate.
    intros [= <-]. lia.
Qed.

(** [main] of [publish.py]. A day is published only when it lies in
    [1, 365], so its date is a date of 2026: with [today] it is the day of
    today's date, and otherwise the number given. Then [main] does to the
    files what [publish] does, prints its line when [publish] returns and
    lets its exception through when it raises. In every other case no file
    is touched: outside 2026, or with a number outside [1, 365], [main] ends
    in [SystemExit] with a message; with a day that [int] refuses, the
    exception of [int] escapes. *)
Theorem publish_main_spec (day : pystr) (dry_run : bool) (today : date) (w : world) :
  (forall dn,
      PublishMain.main_day day today = Returned dn ->
      1 <= dn <= 365
      /\ (exists d, date_for_day_number dn = Ok d /\ year d = 2026)
      /\ fst (PublishMain.main day dry_run today w) = fst (publish dn dry_run w)
      /\ (forall ch, snd (publish dn dry_run w) = Ok ch ->
            snd (PublishMain.main day dry_run today w)
            = Returned (lit "Prepared Chapter " ++ zfill_int 3 dn ++ lit ": " ++ title ch))
      /\ (forall e, snd (publish dn dry_run w) = Raise e ->
            snd (PublishMain.main day dry_run today w) = Uncaught e))
  /\ (py_lower day = lit "today" -> valid_date today = true -> year today = 2026 ->
      exists dn, PublishMain.main_day day today = Returned dn
                 /\ date_for_day_number dn = Ok today)
  /\ (py_lower day = lit "today" -> year today <> 2026 ->
      exists msg, PublishMain.main day dry_run today w = (w, SystemExit (PStr msg)))
  /\ (py_lower day <> lit "today" ->
      (forall e, py_int day = Raise e ->
         PublishMain.main day dry_run today w = (w, Uncaught e))
      /\ (forall dn, py_int day = Ok dn -> ~ 1 <= dn <= 365 ->
            exists msg, PublishMain.main day dry_run today w = (w, SystemExit (PStr msg)))
      /\ (forall dn, py_int day = Ok dn -> 1 <= dn <= 365 ->
            PublishMain.main_day day today = Returned dn)).
Proof.
  split; [|split; [|split]].
  - intros dn Hday. pose proof (publish_main_day_range _ _ _ Hday) as Hrange.
    split; [exact Hrange|]. split; [apply day_in_range, Hrange|].
    unfold PublishMain.main. rewrite Hday.
    pose proof (PublishTheory.publish_split dn dry_run w) as Hsplit.
    destruct (publish dn dry_run w) as [w' [ch|e]] eqn:Hpub; cbn [fst snd].
    + split; [reflexivity|]. split; [|discriminate].
      intros ch' [= <-]. do 3 f_equal.
      destruct (PublishTheory.prepare dn w) as [w1 [[[ch0 html] record]|e]] eqn:Hprep;
        [|discriminate].
      destruct (PublishTheory.prepare_ok _ _ _ _ _ _ Hprep)
        as (_ & _ & path & raw & fm & body & _ & _ & _ & _ & _ & _ & _ & _ & Hrender).
      assert (Hch : ch = ch0).
      { destruct dry_run; [congruence|].
        destruct (PublishTheory.commit dn html record w1) as [w2 [[]|e]]; congruence. }
      subst ch0. revert Hprep. unfold PublishTheory.prepare, bind, lift, ret.
      destruct (find_manuscript_for_day dn w) as [w2 [p|e]]; [|discriminate].
      destruct (read_text p w2) as [w3 [r|e]]; [|discriminate].
      destruct (parse_frontmatter r) as [[fm' body']|e]; [|discriminate].
      destruct (derive_title fm' body' dn) as [t|e]; [|discriminate].
      destruct (derive_excerpt fm' body') as [x|e]; [|discriminate].
      destruct (date_for_day_number dn) as [d|e]; [|discriminate].
      cbv zeta.
      match goal with
      | |- context [render_chapter_html ?c w3] =>
          destruct (render_chapter_html c w3) as [w4 [page|e]]; [|discriminate]
      end.
      intros [= _ <- _ _]. reflexivity.
    + split; [reflexivity|]. split; [discriminate|]. intros e' [= <-]. reflexivity.
  - intros Hday Hv Hy. unfold PublishMain.main_day.
    rewrite bool_decide_eq_true_2 by exact Hday.
    destruct (valid_date_maps_back today Hv Hy) as (n & -> & _ & Hd). eauto.
  - intros Hday Hy. unfold PublishMain.main, PublishMain.main_day.
    rewrite bool_decide_eq_true_2 by exact Hday.
    unfold day_number_for_date. destruct (Z.eqb_spec (year today) 2026); [contradiction|].
    cbn [negb]. eauto.
  - intros Hday. unfold PublishMain.main, PublishMain.main_day.
    rewrite bool_decide_eq_false_2 by exact Hday.
    split; [|split].
    + intros e ->. reflexivity.
    + intros dn -> Hout.
      destruct (Z.leb_spec 1 dn), (Z.leb_spec dn 365); cbn [andb negb]; eauto. lia.
    + intros dn -> Hin.
      destruct (Z.leb_spec 1 dn), (Z.leb_spec dn 365); cbn [andb negb]; try lia. reflexivity.
Qed.

Lemma generate_main_day_range (day_arg : pystr) (today : date) (dn : Z) :
  Generate.main_day day_arg today = Returned dn -> 1 <= dn <= 365.
Proof.
  unfold Generate.main_day. case_bool_decide as Hday.
  - destruct (GenerateChapter.get_day_number_for_date today) as [n|] eqn:Hn; [|discriminate].
    intros [= <-]. rewrite CalendarTheory.mappers_agree_on_dates in Hn.
    exact (day_number_for_date_range _ _ Hn).
  - destruct (py_int day_arg) as [n|e].
    + destruct (Z.leb_spec 1 n), (Z.leb_spec n 365); cbn [andb negb]; try discriminate.
      intros [= <-]. lia.
    + destruct e; discriminate.
Qed.

(** [main] of [generate_chapter.py]. Without arguments, or with fewer than
    three when the first is not [--rebuild-index], it exits with status 1 and
    touches no file; so it does for a day outside [1, 365], for a day that is
    not a number, which [int] refuses with [ValueError], and for [today]
    outside 2026. With [--rebuild-index] it only rebuilds the listing.
    Otherwise the chapter is generated for a day in [1, 365], whose date is a
    date of 2026, and the listing is rebuilt after it. *)
Theorem generate_main_spec (argv : list pystr) (today : date) (w : world) :
  (length argv < 2 -> Generate.main argv today w = (w, SystemExit (PInt 1)))%nat
  /\ (forall prog rest,
        argv = prog :: lit "--rebuild-index" :: rest ->
        Generate.main argv today w = Generate.run Generate.rebuild_chapters_html w)
  /\ (forall prog arg1 rest,
        argv = prog :: arg1 :: rest -> arg1 <> lit "--rebuild-index" ->
        (length rest < 2 -> Generate.main argv today w = (w, SystemExit (PInt 1)))%nat
        /\ (forall title content more,
              rest = title :: content :: more ->
              (forall dn,
                  Generate.main_day arg1 today = Returned dn ->
                  1 <= dn <= 365
                  /\ (exists d, GenerateChapter.get_date_for_day dn = Ok d /\ year d = 2026)
                  /\ Generate.main argv today w
                     = Generate.run
                         (bind (Generate.generate_chapter dn title content)
                            (fun _ => Generate.rebuild_chapters_html)) w)
              /\ (py_lower arg1 <> lit "today" ->
                  (py_int arg1 = Raise ValueError
                   \/ (exists dn, py_int arg1 = Ok dn /\ ~ 1 <= dn <= 365)) ->
                  Generate.main argv today w = (w, SystemExit (PInt 1)))
              /\ (py_lower arg1 = lit "today" -> year today <> 2026 ->
                  Generate.main argv today w = (w, SystemExit (PInt 1)))
              /\ (py_lower arg1 = lit "today" -> valid_date today = true ->
                  year today = 2026 ->
                  exists dn, Generate.main_day arg1 today = Returned dn
                             /\ GenerateChapter.get_date_for_day dn = Ok today))).
Proof.
  split; [|split].
  - destruct argv as [|a [|b rest]]; cbn [length]; intros Hlen; [reflexivity..|lia].
  - intros prog rest ->. unfold Generate.main.
    rewrite bool_decide_eq_true_2 by reflexivity. reflexivity.
  - intros prog arg1 rest -> Harg. unfold Generate.main.
    rewrite bool_decide_eq_false_2 by exact Harg.
    split.
    + destruct rest as [|t [|c more]]; cbn [length]; intros Hlen; [reflexivity..|lia].
    + intros title content more ->. split; [|split; [|split]].
      * intros dn Hday. pose proof (generate_main_day_range _ _ _ Hday) as Hrange.
        split; [exact Hrange|]. split.
        -- destruct (day_in_range dn Hrange) as (d & Hd & Hy). exists d.
           rewrite CalendarTheory.mappers_agree_on_days. auto.
        -- rewrite Hday. reflexivity.
      * intros Hday Hbad. unfold Generate.main_day.
        rewrite bool_decide_eq_false_2 by exact Hday.
        destruct Hbad as [-> | (dn & -> & Hout)]; [reflexivity|].
        destruct (Z.leb_spec 1 dn), (Z.leb_spec dn 365); cbn [andb negb]; try reflexivity. lia.
      * intros Hday Hy. unfold Generate.main_day.
        rewrite bool_decide_eq_true_2 by exact Hday.
        unfold GenerateChapter.get_day_number_for_date.
        destruct (Z.eqb_spec (year today) 2026); [contradiction|]. reflexivity.
      * intros Hday Hv Hy. unfold Generate.main_day.
        rewrite bool_decide_eq_true_2 by exact Hday.
        destruct (valid_date_maps_back today Hv Hy) as (n & Hn & _ & Hd).
        rewrite CalendarTheory.mappers_agree_on_dates, Hn. exists n.
        rewrite CalendarTheory.mappers_agree_on_days. auto.
Qed.

End Main.

Lemma publish_main_spec_witness :
  exists dn,
    @PublishMain.main_day ModelHost.model_host model_shell (lit "Today") (mkdate 2026 3 1)
    = Returned dn
    /\ date_for_day_number dn = Ok (mkdate 2026 3 1).
Proof.
  apply (proj1 (proj2 (@publish_main_spec ModelHost.model_host model_shell (lit "Today")
                         true (mkdate 2026 3 1) PublishTheory.sample_project)));
    reflexivity.
Defined.

Lemma generate_main_spec_witness :
  @Generate.main ModelHost.model_host model_shell [lit "generate_chapter.py"] (mkdate 2026 3 1)
    PublishTheory.sample_project
  = (PublishTheory.sample_project, SystemExit (PInt 1)).
Proof.
  apply (proj1 (@generate_main_spec ModelHost.model_host model_shell
                  [lit "generate_chapter.py"] (mkdate 2026 3 1)
                  PublishTheory.sample_project)).
  cbn [length]. lia.
Defined.

End MainTheory.

(** ** The generator *)

Module GenerateTheory.
Import Py Datetime PyVal Fs Publish Script LoopTheory.
Local Open Scope Z_scope.

(** An item of the index as the generator keeps it. *)
Definition entry_of (it : Z * pyval) (e : Generate.Entry) : Prop :=
  Generate.entry_day e = fst it
  /\ py_subscript (snd it) (lit "title") = Ok (Generate.entry_title e)
  /\ py_subscript (snd it) (lit "date") = Ok (Generate.entry_date e)
  /\ py_subscript (snd it) (lit "file") = Ok (Generate.entry_file e).

(** The sections of the two scripts hold the same items under the same
    labels. *)
Definition groups_agree (months : list (pystr * list (Z * pyval)))
    (months' : list (pystr * list Generate.Entry)) : Prop :=
  Forall2 (fun g g' => fst g = fst g' /\ Forall2 entry_of (snd g) (snd g')) months months'.

Lemma months_add_append (key : pystr) (x : Z * pyval) (e : Generate.Entry) months months' :
  groups_agree months months' -> entry_of x e ->
  groups_agree (months_add key x months) (Generate.months_append key e months').
Proof.
  intros Hagree Hx.
  induction Hagree as [|[k its] [k' es] months months' [Hk Hits] Hrest IH];
    cbn [months_add Generate.months_append].
  - constructor; [|constructor]. split; [reflexivity|].
    constructor; [exact Hx|constructor].
  - cbn [fst snd] in *. subst k'. case_bool_decide as Hkey.
    + constructor; [|exact Hrest]. cbn [fst snd]. split; [reflexivity|].
      apply Forall2_app; [exact Hits|]. constructor; [exact Hx|constructor].
    + constructor; [|exact IH]. cbn [fst snd]. auto.
Qed.

Section Listing.
Context `{Host}.

Lemma group_entries_publish items :
  forall months months' grouped',
    Generate.group_entries items months' = Ok grouped' ->
    groups_agree months months' ->
    exists grouped, group_by_month items months = Ok grouped /\ groups_agree grouped grouped'.
Proof.
  induction items as [|[n [k info]] items IH]; intros months months' grouped';
    cbn [Generate.group_entries group_by_month].
  - intros [= <-] Hagree. eauto.
  - change (GenerateChapter.get_date_for_day n) with (date_for_day_number n).
    destruct (date_for_day_number n) as [d|?]; cbn [rbind]; [|discriminate].
    destruct (py_subscript info (lit "title")) as [t|?] eqn:Ht; cbn [rbind]; [|discriminate].
    destruct (py_subscript info (lit "date")) as [dt|?] eqn:Hdt; cbn [rbind]; [|discriminate].
    destruct (py_subscript info (lit "file")) as [f|?] eqn:Hf; cbn [rbind]; [|discriminate].
    intros Hloop Hagree. apply (IH _ _ _ Hloop).
    apply months_add_append; [exact Hagree|]. repeat split; assumption.
Qed.

(** A record the listing can show. *)
Definition has_fields (info : pyval) : Prop :=
  exists t dt f,
    py_subscript info (lit "title") = Ok t
    /\ py_subscript info (lit "date") = Ok dt
    /\ py_subscript info (lit "file") = Ok f.

Lemma group_by_month_generate items :
  forall months months' grouped,
    group_by_month items months = Ok grouped ->
    groups_agree months months' ->
    Forall (fun it => has_fields (snd (snd it))) items ->
    exists grouped',
      Generate.group_entries items months' = Ok grouped' /\ groups_agree grouped grouped'.
Proof.
  induction items as [|[n [k info]] items IH]; intros months months' grouped;
    cbn [Generate.group_entries group_by_month].
  - intros [= <-] Hagree _. eauto.
  - change (GenerateChapter.get_date_for_day n) with (date_for_day_number n).
    destruct (date_for_day_number n) as [d|?]; cbn [rbind]; [|discriminate].
    intros Hloop Hagree Hall. apply Forall_cons in Hall as [(t & dt & f & Ht & Hdt & Hf) Hall].
    cbn [snd] in Ht, Hdt, Hf. rewrite Ht, Hdt, Hf. cbn [rbind].
    apply (IH _ _ _ Hloop); [|exact Hall].
    apply months_add_append; [exact Hagree|]. repeat split; assumption.
Qed.

Lemma listing_li_fields (it : Z * pyval) (s : pystr) :
  listing_li it = Ok s -> has_fields (snd it).
Proof.
  destruct it as [n info]. unfold listing_li.
  destruct (py_subscript info (lit "file")) as [f|?] eqn:Hf; cbn [rbind]; [|discriminate].
  destruct (py_subscript info (lit "title")) as [t|?] eqn:Ht; cbn [rbind]; [|discriminate].
  destruct (py_subscript info (lit "date")) as [dt|?] eqn:Hdt; cbn [rbind]; [|discriminate].
  intros _. exists t, dt, f. auto.
Qed.

Lemma entry_li_publish (it : Z * pyval) (e : Generate.Entry) :
  entry_of it e -> exists s, listing_li it = Ok s /\ Generate.entry_li e = s ++ nl.
Proof.
  destruct it as [n info]. intros (Hday & Ht & Hdt & Hf). cbn [fst snd] in *.
  unfold listing_li. rewrite Hf, Ht, Hdt. cbn [rbind]. eexists. split; [reflexivity|].
  unfold Generate.entry_li. rewrite Hday. rewrite <- !app_assoc. reflexivity.
Qed.

Lemma entries_li_publish its es :
  Forall2 entry_of its es ->
  exists lis, map_result listing_li its = Ok lis
              /\ map Generate.entry_li es = map (fun l => l ++ nl) lis.
Proof.
  induction 1 as [|it e its es Hit _ (lis & Hlis & Hmap)]; [exists []; auto|].
  destruct (entry_li_publish it e Hit) as (s & Hs & He).
  exists (s :: lis). cbn [map_result map]. rewrite Hs, Hlis, He, Hmap. auto.
Qed.

Lemma join_lines (lis : list pystr) :
  lis <> [] -> join nl lis ++ nl = concat (map (fun l => l ++ nl) lis).
Proof.
  induction lis as [|l [|l' lis] IH]; [congruence| |]; intros _.
  - cbn. rewrite app_nil_r. reflexivity.
  - change (join nl (l :: l' :: lis)) with (l ++ nl ++ join nl (l' :: lis)).
    cbn [map concat] in *. rewrite <- !app_assoc. f_equal. f_equal.
    rewrite IH by discriminate. rewrite <- !app_assoc. reflexivity.
Qed.

Lemma month_section_publish g g' :
  fst g = fst g' -> Forall2 entry_of (snd g) (snd g') -> snd g <> [] ->
  exists s, listing_section g = Ok s /\ Generate.month_section g' = nl ++ s ++ nl.
Proof.
  destruct g as [month its], g' as [month' es]. cbn [fst snd]. intros <- Hits Hne.
  destruct (entries_li_publish its es Hits) as (lis & Hlis & Hmap).
  assert (Hlis_ne : lis <> []).
  { intros ->. destruct Hits; [congruence|]. cbn [map_result] in Hlis.
    destruct (listing_li _); cbn [rbind] in Hlis; [|discriminate].
    destruct (map_result listing_li _); discriminate. }
  unfold listing_section. rewrite Hlis. cbn [rbind]. eexists. split; [reflexivity|].
  unfold Generate.month_section. rewrite Hmap, <- (join_lines lis Hlis_ne).
  cbn [join]. rewrite <- !app_assoc. reflexivity.
Qed.

Lemma sections_publish months months' :
  groups_agree months months' -> Forall (fun g => snd g <> []) months ->
  exists sections,
    map_result listing_section months = Ok sections
    /\ map Generate.month_section months' = map (fun s => nl ++ s ++ nl) sections.
Proof.
  induction 1 as [|g g' months months' [Hk Hits] _ IH]; [exists []; auto|].
  intros [Hne Hall]%Forall_cons. destruct (IH Hall) as (sections & Hsec & Hmap).
  destruct (month_section_publish g g' Hk Hits Hne) as (s & Hs & Hg).
  exists (s :: sections). cbn [map_result map]. rewrite Hs, Hsec, Hg, Hmap. auto.
Qed.

Lemma groups_nonempty (chapters : pyval) months :
  listing_months chapters = Ok months -> Forall (fun g => snd g <> []) months.
Proof.
  intros Hm. destruct (ListingTheory.listing_months_spec chapters months Hm)
    as (keyed & _ & _ & _ & Hgroups & _).
  eapply Forall_impl; [exact Hgroups|]. intros g (Hne & _). exact Hne.
Qed.

Lemma map_result_elem {A B} (f : A -> result B) (l : list A) (ys : list B) (x : A) :
  map_result f l = Ok ys -> In x l -> exists y, f x = Ok y.
Proof.
  revert ys. induction l as [|a l IH]; intros ys; cbn [map_result In]; [intros _ []|].
  destruct (f a) as [b|?] eqn:Ha; cbn [rbind]; [|discriminate].
  destruct (map_result f l) as [bs|?]; cbn [rbind]; [|discriminate].
  intros _ [<-|Hin]; [eauto|exact (IH bs eq_refl Hin)].
Qed.

Lemma chapters_page_generate (index : pyval) (page : pystr) :
  chapters_page index = Ok page ->
  exists total sections,
    page = PAGE_HEAD ++ total ++ PAGE_COUNT ++ total ++ PAGE_MAIN
           ++ match sections with [] => PLACEHOLDER | _ => join nl sections end
           ++ PAGE_FOOT
    /\ Generate.chapters_html index
       = Ok (Generate.PAGE_HEAD ++ total ++ Generate.PAGE_COUNT ++ total
             ++ Generate.PAGE_MAIN
             ++ match sections with
                | [] => Generate.PLACEHOLDER
                | _ => concat (map (fun s => nl ++ s ++ nl) sections)
                end
             ++ Generate.PAGE_FOOT).
Proof.
  revert page.
  intros page. unfold chapters_page, Generate.chapters_html.
  destruct (py_get_default index (lit "chapters") (PDict [])) as [chapters|?];
    cbn [rbind]; [|discriminate].
  destruct (listing_months chapters) as [months|?] eqn:Hmonths; cbn [rbind]; [|discriminate].
  destruct (map_result listing_section months) as [sections|?] eqn:Hsections;
    cbn [rbind]; [|discriminate].
  destruct (py_items chapters) as [items|?] eqn:Hitems; cbn [rbind]; [|discriminate].
  intros [= <-].
  exists (str_of_int (Z.of_nat (length items))), sections. split; [reflexivity|].
  pose proof (groups_nonempty _ _ Hmonths) as Hne.
  destruct (ListingTheory.listing_months_spec chapters months Hmonths)
    as (keyed & Hkeyed & Hall & _).
  revert Hmonths. unfold listing_months. rewrite Hkeyed. cbn [rbind]. intros Hloop.
  assert (Hfields : Forall (fun it => has_fields (snd (snd it)))
                      (sorted_by ascending keyed)).
  { apply List.Forall_forall. intros [n [k info]] Hin. cbn [snd].
    assert (Hseen : In (n, info) (concat (map snd months))).
    { apply list_elem_of_In. rewrite Hall. apply list_elem_of_In.
      apply (in_map ListingTheory.seen) in Hin. cbn in Hin.
      apply list_elem_of_In. apply list_elem_of_In in Hin.
      rewrite (sorted_by_perm ascending keyed) in Hin. exact Hin. }
    apply in_concat in Hseen as (its & Hits & Hit).
    apply in_map_iff in Hits as (g & <- & Hg).
    destruct (map_result_elem _ _ _ g Hsections Hg) as (s & Hs).
    destruct g as [month its]. unfold listing_section in Hs. cbn [snd] in Hit.
    destruct (map_result listing_li its) as [lis|?] eqn:Hlis; [|discriminate].
    destruct (map_result_elem _ _ _ (n, info) Hlis Hit) as (li & Hli).
    exact (listing_li_fields _ _ Hli). }
  destruct (group_by_month_generate _ [] [] months Hloop (List.Forall2_nil _) Hfields)
    as (months' & -> & Hagree).
  cbn [rbind].
  destruct (sections_publish months months' Hagree Hne) as (sections' & Hsec' & Hmap).
  rewrite Hsections in Hsec'. injection Hsec' as <-.
  rewrite Hmap. do 6 f_equal.
  destruct sections as [|s sections]; [reflexivity|].
  cbn [map concat]. destruct (nl ++ s ++ nl) eqn:Hs; [discriminate|reflexivity].
Qed.

Lemma chapters_html_publish (index : pyval) (page' : pystr) :
  Generate.chapters_html index = Ok page' -> exists page, chapters_page index = Ok page.
Proof.
  revert page'.
  intros page'. unfold chapters_page, Generate.chapters_html, listing_months.
  destruct (py_get_default index (lit "chapters") (PDict [])) as [chapters|?];
    cbn [rbind]; [|discriminate].
  destruct (keyed_items chapters) as [keyed|?] eqn:Hkeyed; cbn [rbind]; [|discriminate].
  destruct (Generate.group_entries _ []) as [months'|?] eqn:Hloop; cbn [rbind]; [|discriminate].
  destruct (py_items chapters) as [items|?]; cbn [rbind]; [|discriminate].
  intros _.
  destruct (group_entries_publish _ [] [] months' Hloop (List.Forall2_nil _))
    as (months & Hmonths & Hagree).
  rewrite Hmonths. cbn [rbind].
  assert (Hne : Forall (fun g => snd g <> []) months).
  { apply (groups_nonempty chapters). unfold listing_months.
    rewrite Hkeyed. cbn [rbind]. exact Hmonths. }
  destruct (sections_publish months months' Hagree Hne) as (sections & -> & _).
  cbn [rbind]. eauto.
Qed.

(** The two scripts make the same listing. Whenever [publish.py] makes the
    page of an index, [generate_chapter.py] makes its page too, with the same
    count, the same sections, the same entries in the same order; only the
    frame of the page and the blank lines around the sections differ. And
    whenever the generator makes the page, so does [publish.py]: the two
    fail on the same indexes. *)
Theorem listing_pages_agree (index : pyval) :
  (forall page,
      chapters_page index = Ok page ->
      exists total sections,
        page = PAGE_HEAD ++ total ++ PAGE_COUNT ++ total ++ PAGE_MAIN
               ++ match sections with [] => PLACEHOLDER | _ => join nl sections end
               ++ PAGE_FOOT
        /\ Generate.chapters_html index
           = Ok (Generate.PAGE_HEAD ++ total ++ Generate.PAGE_COUNT ++ total
                 ++ Generate.PAGE_MAIN
                 ++ match sections with
                    | [] => Generate.PLACEHOLDER
                    | _ => concat (map (fun s => nl ++ s ++ nl) sections)
                    end
                 ++ Generate.PAGE_FOOT))
  /\ (forall page',
        Generate.chapters_html index = Ok page' -> exists page, chapters_page index = Ok page).
Proof.
  split; [apply chapters_page_generate|apply chapters_html_publish].
Qed.

End Listing.

Lemma listing_pages_agree_witness :
  exists page, @chapters_page ModelHost.model_host ListingTheory.out_of_order = Ok page.
Proof.
  destruct (@Generate.chapters_html ModelHost.model_host ListingTheory.out_of_order)
    as [page'|e] eqn:Hgen; [|vm_compute in Hgen; discriminate].
  exact (proj2 (@listing_pages_agree ModelHost.model_host ListingTheory.out_of_order)
           page' Hgen).
Defined.

End GenerateTheory.

(** ** Runs of the generator *)

Module GenerateRuns.
Import Py Datetime PyVal Fs Publish Script PublishTheory.
Local Open Scope Z_scope.



Section Runs.
Context `{Host} `{Shell}.



(** The page of the day: the template with its eight fields filled in. *)
Definition chapter_html (day_num : Z) (title content : pystr) (d : date) : result pystr :=
  Generate.format_fields Generate.CHAPTER_TEMPLATE
    [(lit "num", str_of_int day_num);
     (lit "title", title);
     (lit "date_formatted", strftime_long d);
     (lit "content",
      join nl (map (fun line => tab ++ tab ++ tab ++ line)
                 (Generate.split_char 10 (strip content))));
     (lit "prev_link",
      if 1 <? day_num then zfill_int 3 (day_num - 1) ++ lit ".html" else lit "#");
     (lit "next_link",
      if day_num <? 365 then zfill_int 3 (day_num + 1) ++ lit ".html" else lit "#");
     (lit "prev_class", if 1 <? day_num then [] else lit "disabled");
     (lit "next_class", if day_num <? 365 then [] else lit "disabled")].




(** The generator writes the page of the day and the index, and rebuilds
    the listing; it never writes the feed, nor any other file. *)
Theorem generate_writes_only (day_num : Z) (title content : pystr) (w : world) :
  (forall q,
      q <> fst (chapter_paths day_num) -> q <> CHAPTERS_JSON ->
      files (fst (Generate.generate_chapter day_num title content w)) !! q = files w !! q)
  /\ (forall q,
        q <> CHAPTERS_HTML ->
        files (fst (Generate.rebuild_chapters_html w)) !! q = files w !! q)
  /\ files (fst (Generate.generate_chapter day_num title content w)) !! RSS_XML
     = files w !! RSS_XML
  /\ files (fst (Generate.rebuild_chapters_html w)) !! RSS_XML = files w !! RSS_XML.
Proof.
  assert (Hgen : forall q,
             q <> fst (chapter_paths day_num) -> q <> CHAPTERS_JSON ->
             untouched q (Generate.generate_chapter day_num title content)).
  { intros q Hc Hj. unfold Generate.generate_chapter.
    apply untouched_bind; [apply untouched_reads_only, reads_only_mkdir|]. intros _.
    apply untouched_bind; [apply untouched_reads_only, reads_only_lift|]. intros cd.
    cbv zeta.
    apply untouched_bind; [apply untouched_reads_only, reads_only_lift|]. intros html.
    apply untouched_bind; [apply untouched_write_pieces, Hc|]. intros _.
    apply untouched_bind; [apply untouched_reads_only, reads_only_load_index|]. intros index.
    apply untouched_bind; [apply untouched_reads_only, reads_only_lift|]. intros index'.
    apply untouched_bind; [apply untouched_write_pieces, Hj|]. intros _.
    apply untouched_reads_only, reads_only_ret. }
  assert (Hreb : forall q, q <> CHAPTERS_HTML -> untouched q Generate.rebuild_chapters_html).
  { intros q Hq. unfold Generate.rebuild_chapters_html.
    apply untouched_bind; [apply untouched_reads_only, reads_only_load_index|]. intros index.
    apply untouched_bind; [apply untouched_reads_only, reads_only_lift|]. intros html.
    apply untouched_bind; [apply untouched_write_pieces, Hq|]. intros _.
    apply untouched_reads_only, reads_only_ret. }
  split; [intros q Hc Hj; apply Hgen; assumption|].
  split; [intros q Hq; apply Hreb, Hq|].
  split.
  - apply Hgen; [apply not_eq_sym, chapter_path_not_feed|apply not_eq_sym, index_not_feed].
  - apply Hreb, not_eq_sym, listing_not_feed.
Qed.


End Runs.


Lemma generate_writes_only_witness :
  files (fst (@Generate.generate_chapter ModelHost.model_host MainTheory.model_shell 1
                (lit "One") (lit "<p>Text</p>") sample_project))
    !! lit "manuscript/2026-01-01.md"
  = files sample_project !! lit "manuscript/2026-01-01.md".
Proof.
  apply (proj1 (@generate_writes_only ModelHost.model_host MainTheory.model_shell 1
                  (lit "One") (lit "<p>Text</p>") sample_project));
    intros Heq; vm_compute in Heq; discriminate.
Defined.

End GenerateRuns.

(** ** From the index to the pages *)

Module PagesTheory.
Import Py Datetime PyVal Fs Publish LoopTheory PublishTheory GenerateTheory.
Local Open Scope Z_scope.

(** [y] stands in [x]. *)
Definition contains (x y : pystr) : Prop := exists a b, x = a ++ y ++ b.

Lemma contains_refl (x : pystr) : contains x x.
Proof. exists [], []. rewrite app_nil_r. reflexivity. Qed.

Lemma contains_trans (x y z : pystr) : contains x y -> contains y z -> contains x z.
Proof.
  intros (a & b & ->) (c & d & ->). exists (a ++ c), (d ++ b).
  rewrite <- !app_assoc. reflexivity.
Qed.

Lemma contains_app_l (a x y : pystr) : contains x y -> contains (a ++ x) y.
Proof. intros (c & d & ->). exists (a ++ c), d. rewrite <- !app_assoc. reflexivity. Qed.

Lemma contains_app_r (b x y : pystr) : contains x y -> contains (x ++ b) y.
Proof. intros (c & d & ->). exists c, (d ++ b). rewrite <- !app_assoc. reflexivity. Qed.

Lemma contains_join (sep : pystr) (parts : list pystr) (c : pystr) :
  In c parts -> contains (join sep parts) c.
Proof. apply SourceTheory.join_contains. Qed.

Lemma map_result_total {A B} (f : A -> result B) (l : list A) :
  Forall (fun x => exists y, f x = Ok y) l -> exists ys, map_result f l = Ok ys.
Proof.
  induction 1 as [|x l [y Hy] _ [ys Hys]]; [exists []; reflexivity|].
  exists (y :: ys). cbn [map_result]. rewrite Hy, Hys. reflexivity.
Qed.

Lemma map_result_in {A B} (f : A -> result B) (l : list A) (ys : list B) (x : A) :
  map_result f l = Ok ys -> In x l -> exists y, f x = Ok y /\ In y ys.
Proof.
  revert ys. induction l as [|a l IH]; intros ys; cbn [map_result In]; [intros _ []|].
  destruct (f a) as [b|?] eqn:Ha; cbn [rbind]; [|discriminate].
  destruct (map_result f l) as [bs|?]; cbn [rbind]; [|discriminate].
  intros [= <-] [<-|Hin]; [exists b; split; [exact Ha|left; reflexivity]|].
  destruct (IH bs eq_refl Hin) as (y & Hy & Hin'). exists y. split; [exact Hy|right; exact Hin'].
Qed.

Lemma ok_inj {A} (a b : A) : @Ok A a = Ok b -> a = b.
Proof. intros [= ->]. reflexivity. Qed.

Lemma dict_get_in {V} (k : pystr) (v : V) (d : list (pystr * V)) :
  dict_get k d = Some v -> In (k, v) d.
Proof.
  induction d as [|[k' v'] d IH]; cbn [dict_get In]; [discriminate|].
  case_bool_decide as Hk; [intros [= ->]; subst k'; left; reflexivity|].
  intros Hget. right. exact (IH Hget).
Qed.

Section Pages.
Context `{Host}.

Lemma group_by_month_dates items :
  forall months grouped,
    group_by_month items months = Ok grouped ->
    Forall (fun it => exists d, date_for_day_number (fst it) = Ok d) items.
Proof.
  induction items as [|[n [k info]] items IH]; intros months grouped;
    cbn [group_by_month]; [constructor|].
  destruct (date_for_day_number n) as [d|?] eqn:Hd; cbn [rbind]; [|discriminate].
  intros Hloop. constructor; [cbn [fst]; eauto|exact (IH _ _ Hloop)].
Qed.

Lemma group_by_month_total items :
  Forall (fun it => exists d, date_for_day_number (fst it) = Ok d) items ->
  forall months, exists grouped, group_by_month items months = Ok grouped.
Proof.
  induction 1 as [|[n [k info]] items [d Hd] _ IH]; intros months; cbn [group_by_month];
    [eauto|].
  cbn [fst] in Hd. rewrite Hd. cbn [rbind]. apply IH.
Qed.

Lemma listing_li_total (it : Z * pyval) : has_fields (snd it) -> exists s, listing_li it = Ok s.
Proof.
  destruct it as [n info]. intros (t & dt & f & Ht & Hdt & Hf). cbn [snd] in *.
  unfold listing_li. rewrite Hf, Ht, Hdt. cbn [rbind]. eauto.
Qed.

(** What the listing needs of a record of the index. *)
Definition listable (kv : pystr * pyval) : Prop :=
  exists n, py_int (fst kv) = Ok n /\ -739615 <= n <= 2912443 /\ has_fields (snd kv).

Lemma date_exists (n : Z) :
  (exists d, date_for_day_number n = Ok d) <-> -739615 <= n <= 2912443.
Proof.
  destruct (DateTheory.date_for_day_number_ok n) as [Hin Hout]. split.
  - intros [d Hd].
    destruct (Z_le_dec (-739615) n) as [Hlo|Hlo];
      [destruct (Z_le_dec n 2912443) as [Hhi|Hhi]; [lia|]|];
      rewrite Hout in Hd by lia; discriminate.
  - intros Hn. rewrite Hin by exact Hn. eauto.
Qed.

(** When the listing page is made, by either script: exactly when the
    [chapters] of the index are a dictionary in which every key reads as an
    integer whose day has a date, and every record can be subscripted by
    [title], [date] and [file]. One record that falls short stops the page
    for all. *)
Theorem chapters_page_needs (index : pyval) :
  ((exists page, chapters_page index = Ok page) <->
   exists items,
     py_get_default index (lit "chapters") (PDict []) = Ok (PDict items)
     /\ Forall listable items)
  /\ ((exists page, Generate.chapters_html index = Ok page) <->
      exists page, chapters_page index = Ok page).
Proof.
  split.
  - split.
    + intros [page Hpage]. revert Hpage. unfold chapters_page.
      destruct (py_get_default index (lit "chapters") (PDict [])) as [chapters|?];
        cbn [rbind]; [|discriminate].
      destruct (listing_months chapters) as [months|?] eqn:Hmonths; cbn [rbind];
        [|discriminate].
      destruct (map_result listing_section months) as [sections|?] eqn:Hsections;
        cbn [rbind]; [|discriminate].
      destruct chapters as [| | | | | |items]; try discriminate. intros _.
      exists items. split; [reflexivity|].
      destruct (ListingTheory.listing_months_spec _ months Hmonths)
        as (keyed & Hkeyed & Hall & _).
      revert Hmonths. unfold listing_months. rewrite Hkeyed. cbn [rbind]. intros Hloop.
      pose proof (group_by_month_dates _ _ _ Hloop) as Hdates.
      unfold keyed_items in Hkeyed. cbn [py_items rbind] in Hkeyed.
      apply List.Forall_forall. intros [k info] Hin.
      destruct (map_result_in _ _ _ (k, info) Hkeyed Hin) as ([n kv] & Hk & Hkin).
      cbn [fst] in Hk. destruct (py_int k) as [n'|?] eqn:Hint; cbn [rbind] in Hk;
        [|discriminate].
      injection Hk as -> <-.
      exists n. cbn [fst snd]. split; [exact Hint|]. split.
      * apply date_exists. rewrite List.Forall_forall in Hdates.
        apply (Hdates (n, (k, info))).
        apply list_elem_of_In. rewrite (sorted_by_perm ascending keyed).
        apply list_elem_of_In, Hkin.
      * assert (Hseen : In (n, info) (concat (map snd months))).
        { apply list_elem_of_In. rewrite Hall. apply list_elem_of_In.
          exact (in_map ListingTheory.seen _ _ Hkin). }
        apply in_concat in Hseen as (its & Hits & Hit).
        apply in_map_iff in Hits as (g & <- & Hg).
        destruct (map_result_elem _ _ _ g Hsections Hg) as (s & Hs).
        destruct g as [month its]. unfold listing_section in Hs. cbn [snd] in Hit.
        destruct (map_result listing_li its) as [lis|?] eqn:Hlis; [|discriminate].
        destruct (map_result_elem _ _ _ (n, info) Hlis Hit) as (li & Hli).
        exact (listing_li_fields _ _ Hli).
    + intros (items & Hget & Hall). unfold chapters_page. rewrite Hget. cbn [rbind].
      assert (Hkeyed : exists keyed,
                 keyed_items (PDict items) = Ok keyed
                 /\ Forall (fun e => (exists d, date_for_day_number (fst e) = Ok d)
                                     /\ has_fields (snd (snd e))) keyed).
      { unfold keyed_items. cbn [py_items rbind]. clear Hget.
        induction Hall as [|[k info] items (n & Hint & Hn & Hf) _ (keyed & Hk & Hok)];
          [exists []; split; [reflexivity|constructor]|].
        cbn [fst snd] in *. exists ((n, (k, info)) :: keyed).
        cbn [map_result fst]. rewrite Hint. cbn [rbind]. rewrite Hk. cbn [rbind].
        split; [reflexivity|]. constructor; [|exact Hok].
        cbn [fst snd]. split; [apply date_exists, Hn|exact Hf]. }
      destruct Hkeyed as (keyed & Hkeyed & Hok).
      assert (Hsorted : Forall (fun e => (exists d, date_for_day_number (fst e) = Ok d)
                                         /\ has_fields (snd (snd e)))
                          (sorted_by ascending keyed)).
      { rewrite (sorted_by_perm ascending keyed). exact Hok. }
      assert (Hdates : Forall (fun it => exists d, date_for_day_number (fst it) = Ok d)
                         (sorted_by ascending keyed)).
      { eapply Forall_impl; [exact Hsorted|]. intros e [He _]. exact He. }
      destruct (group_by_month_total _ Hdates []) as [months Hloop].
      assert (Hmonths : listing_months (PDict items) = Ok months).
      { unfold listing_months. rewrite Hkeyed. cbn [rbind]. exact Hloop. }
      rewrite Hmonths. cbn [rbind].
      destruct (ListingTheory.listing_months_spec _ months Hmonths)
        as (keyed' & Hkeyed' & Hperm & _).
      rewrite Hkeyed in Hkeyed'. injection Hkeyed' as <-.
      assert (Hsections : exists sections, map_result listing_section months = Ok sections).
      { apply map_result_total. apply List.Forall_forall. intros [month its] Hg.
        unfold listing_section.
        assert (Hlis : exists lis, map_result listing_li its = Ok lis).
        { apply map_result_total. apply List.Forall_forall. intros [n info] Hit.
          apply listing_li_total. cbn [snd].
          assert (Hseen : In (n, info) (map ListingTheory.seen keyed)).
          { apply list_elem_of_In. rewrite <- Hperm. apply list_elem_of_In.
            apply in_concat. exists its. split; [|exact Hit].
            apply in_map_iff. exists (month, its). auto. }
          apply in_map_iff in Hseen as ([n' [k info']] & [= -> ->] & Hin).
          rewrite List.Forall_forall in Hok. exact (proj2 (Hok _ Hin)). }
        destruct Hlis as [lis ->]. cbn [rbind]. eauto. }
      destruct Hsections as [sections ->]. cbn [rbind py_items]. eauto.
  - split.
    + intros [page' Hgen]. exact (chapters_html_publish index page' Hgen).
    + intros [page Hpage].
      destruct (chapters_page_generate index page Hpage) as (total & sections & _ & Hgen).
      eauto.
Qed.

(** The entry of a record in the listing. *)
Definition listing_entry (day_num : Z) (file title date : pystr) : pystr :=
  tab ++ tab ++ tab ++ tab ++ litq "<li><a href=~chapters/" ++ file
  ++ litq "~><span class=~chapter-title~>Chapter " ++ str_of_int day_num ++ lit ": "
  ++ title ++ litq "</span><span class=~chapter-meta~>" ++ date
  ++ lit "</span></a></li>".

Lemma chapters_page_entry (index : pyval) (page : pystr) (chapters : list (pystr * pyval))
    (k : pystr) (n : Z) (info : pyval) (li : pystr) :
  chapters_page index = Ok page ->
  py_get_default index (lit "chapters") (PDict []) = Ok (PDict chapters) ->
  In (k, info) chapters -> py_int k = Ok n -> listing_li (n, info) = Ok li ->
  contains page li.
Proof.
  unfold chapters_page. intros Hpage Hget Hin Hint Hli. rewrite Hget in Hpage.
  unfold rbind at 1 in Hpage.
  destruct (listing_months (PDict chapters)) as [months|?] eqn:Hmonths; [|discriminate].
  unfold rbind at 1 in Hpage.
  destruct (map_result listing_section months) as [sections|?] eqn:Hsections; [|discriminate].
  unfold rbind, py_items in Hpage. apply ok_inj in Hpage. subst page.
  destruct (ListingTheory.listing_months_spec _ months Hmonths) as (keyed & Hkeyed & Hall & _).
  unfold keyed_items in Hkeyed. cbn [py_items rbind] in Hkeyed.
  destruct (map_result_in _ _ _ (k, info) Hkeyed Hin) as (e & He & Hein).
  cbn [fst] in He. rewrite Hint in He. cbn [rbind] in He. apply ok_inj in He. subst e.
  assert (Hseen : In (n, info) (concat (map snd months))).
  { apply list_elem_of_In. rewrite Hall. apply list_elem_of_In.
    exact (in_map ListingTheory.seen _ _ Hein). }
  apply in_concat in Hseen as (its & Hits & Hit).
  apply in_map_iff in Hits as ([month its'] & <- & Hg). cbn [snd] in Hit.
  destruct (map_result_in _ _ _ _ Hsections Hg) as (s & Hs & Hsin).
  unfold listing_section in Hs.
  destruct (map_result listing_li its') as [lis|?] eqn:Hlis; [|discriminate].
  unfold rbind in Hs. apply ok_inj in Hs. subst s.
  destruct (map_result_in _ _ _ _ Hlis Hit) as (li' & Hli' & Hliin).
  rewrite Hli in Hli'. apply ok_inj in Hli'. subst li'.
  do 5 apply contains_app_l. apply contains_app_r.
  destruct sections as [|s0 sections]; [destruct Hsin|].
  eapply contains_trans; [apply contains_join, Hsin|].
  eapply contains_trans; [apply contains_join; right; right; right; left; reflexivity|].
  apply contains_join, Hliin.
Qed.

(** A chapter that was published is in the index and in the listing. When
    [publish] returns from a real run, and [int] reads the day back from its
    decimal form, the index file holds an index with the record of the
    chapter under the day, and the listing file holds a page with the entry
    of the chapter: its day number, its title, its date and the link to its
    page, which holds the page that was rendered. *)
Theorem published_chapter_listed (day_num : Z) (w w' : world) (ch : Chapter) :
  publish day_num false w = (w', Ok ch) ->
  py_int (str_of_int day_num) = Ok day_num ->
  exists index chapters page html,
    files w' !! CHAPTERS_JSON = Some (json_dumps index ++ nl)
    /\ py_subscript index (lit "chapters") = Ok (PDict chapters)
    /\ dict_get (str_of_int day_num) chapters
       = Some (index_record (title ch) (strftime_long (chapter_date ch))
                 (snd (chapter_paths day_num)) (excerpt ch) (chapter_date ch))
    /\ files w' !! CHAPTERS_HTML = Some (page ++ nl)
    /\ chapters_page index = Ok page
    /\ contains page (listing_entry day_num (snd (chapter_paths day_num)) (title ch)
                        (strftime_long (chapter_date ch)))
    /\ files w' !! fst (chapter_paths day_num) = Some html
    /\ render_chapter_html ch w = (w, Ok html).
Proof.
  rewrite publish_split. intros Hrun Hint.
  destruct (prepare day_num w) as [w1 [[[ch0 html] record]|e]] eqn:Hprep; [|discriminate].
  destruct (prepare_ok _ _ _ _ _ _ Hprep)
    as (-> & Hrec & path & raw & fm & body & _ & _ & _ & _ & _ & _ & _ & _ & Hrender).
  destruct (commit day_num html record w) as [w2 [[]|e]] eqn:Hcommit; [|discriminate].
  injection Hrun as -> ->.
  pose proof (commit_chapter_written _ _ _ _ _ Hcommit) as Hwritten.
  destruct (commit_ok _ _ _ _ _ Hcommit) as (_ & w1 & _ & Hreconcile).
  destruct (reconcile_ok _ _ _ _ Hreconcile)
    as (loaded & index & page & rss & _ & Hmerge & Hpage & _ & Hj & Hh & _).
  destruct (merge_record_stores _ _ _ _ Hmerge) as (chapters & Hsub & Hget & _).
  exists index, chapters, page, html.
  split; [exact Hj|]. split; [exact Hsub|]. split; [rewrite <- Hrec; exact Hget|].
  split; [exact Hh|]. split; [exact Hpage|]. split; [|split; [exact Hwritten|exact Hrender]].
  apply (chapters_page_entry index page chapters (str_of_int day_num) day_num record).
  - exact Hpage.
  - unfold py_get_default. destruct index as [| | | | | |d]; try discriminate.
    cbn [py_get rbind py_subscript] in *.
    destruct (dict_get (lit "chapters") d) as [v|]; [|discriminate].
    apply ok_inj in Hsub. subst v. reflexivity.
  - apply dict_get_in, Hget.
  - exact Hint.
  - rewrite Hrec. reflexivity.
Qed.

End Pages.

Lemma chapters_page_needs_witness :
  exists items,
    py_get_default ListingTheory.out_of_order (lit "chapters") (PDict []) = Ok (PDict items)
    /\ Forall (@listable ModelHost.model_host) items.
Proof.
  apply (proj1 (proj1 (@chapters_page_needs ModelHost.model_host ListingTheory.out_of_order))).
  destruct (@chapters_page ModelHost.model_host ListingTheory.out_of_order) as [page|e] eqn:Hp;
    [eauto|vm_compute in Hp; discriminate].
Defined.

Lemma published_chapter_listed_witness :
  exists w' ch index chapters page,
    @publish ModelHost.model_host 1 false sample_project = (w', Ok ch)
    /\ files w' !! CHAPTERS_JSON = Some (@json_dumps ModelHost.model_host index ++ nl)
    /\ py_subscript index (lit "chapters") = Ok (PDict chapters)
    /\ files w' !! CHAPTERS_HTML = Some (page ++ nl)
    /\ contains page (listing_entry 1 (snd (chapter_paths 1)) (title ch)
                        (strftime_long (chapter_date ch))).
Proof.
  destruct (@publish ModelHost.model_host 1 false sample_project) as [w' [ch|e]] eqn:Hrun;
    [|vm_compute in Hrun; discriminate].
  destruct (@published_chapter_listed ModelHost.model_host 1 sample_project w' ch Hrun eq_refl)
    as (index & chapters & page & html & Hj & Hsub & _ & Hh & _ & Hin & _).
  exists w', ch, index, chapters, page. auto.
Defined.

End PagesTheory.
